(** * Magnesium radio control: a shallow embedding of
      host/lib/usrp/dboard/magnesium/magnesium_radio_ctrl_impl.cpp

    The C++ class [magnesium_radio_ctrl_impl] is embedded as a record of its
    fields together with the remote firmware it talks to; member functions
    become state-passing functions that return either a value or the
    exception that the C++ code would raise. *)

From Stdlib Require Import NArith ZArith Floats Ascii String.
From Stdlib Require Import DecimalString DecimalPos DecimalN.
From stdpp Require Import base strings gmap list.

Set Warnings "-inexact-float".

Local Open Scope string_scope.
Local Open Scope N_scope.

(** ** Basic types *)

(** uhd/types/direction.hpp (a declaration the file includes):
    [enum direction_t { RX_DIRECTION, TX_DIRECTION, DX_DIRECTION }]. *)
Inductive direction_t := RX_DIRECTION | TX_DIRECTION | DX_DIRECTION.

#[global] Instance direction_t_eq_dec : EqDecision direction_t.
Proof. solve_decision. Defined.

(** [size_t] is a 64-bit unsigned integer, held in [N]. *)
Definition SIZE_MAX_plus_1 : N := 2 ^ 64.
Definition size_t_add (a b : N) : N := (a + b) mod SIZE_MAX_plus_1.

(** Ways in which a call can end without a value.  Most are C++ exceptions.
    [null_rpc_client] stands for [_rpcc->...] on an empty [_rpcc], and
    [out_of_bounds] for an index past the end of an array or vector: C++
    defines no behaviour for either, and the embedding lets the call stop
    there, with the state reached so far. *)
Inductive failure :=
| assertion_error (cond : string)      (* UHD_ASSERT_THROW *)
| bad_lexical_cast                      (* boost::lexical_cast *)
| rpc_failure (what : string)           (* raised inside the RPC client *)
| null_rpc_client                       (* [_rpcc->...] on an empty pointer *)
| out_of_bounds                         (* read past the end of a C array *)
| lookup_error (path : string)          (* property tree: no such node *)
| type_error (path : string)            (* property tree: node of another type *)
| empty_property (path : string).       (* property tree: get() before any set() *)

Inductive outcome (A : Type) :=
| Ok (a : A)
| Throw (e : failure).
Arguments Ok {A} a.
Arguments Throw {A} e.

(** ** Decimal text, as [boost::format("%d")] and [std::to_string] print it *)
Definition to_string (n : N) : string :=
  NilEmpty.string_of_uint (N.to_uint n).

(** [boost::lexical_cast<size_t>] (a library function) of a [std::string]:
    an optional sign, then one or more decimal digits whose value fits the
    type; a leading minus negates modulo 2^64.  Anything else raises
    [bad_lexical_cast]. *)
Definition lexical_cast_size_t (s : string) : outcome N :=
  let '(has_minus, digits) :=
    match s with
    | String "-"%char rest => (true, rest)
    | String "+"%char rest => (false, rest)
    | _ => (false, s)
    end in
  match digits with
  | EmptyString => Throw bad_lexical_cast
  | _ =>
    match NilEmpty.uint_of_string digits with
    | None => Throw bad_lexical_cast
    | Some d =>
      let v := N.of_uint d in
      if v <? SIZE_MAX_plus_1
      then Ok (if has_minus then (SIZE_MAX_plus_1 - v) mod SIZE_MAX_plus_1
               else v)
      else Throw bad_lexical_cast
    end
  end.

(** Whether [s] ends in [suffix]. *)
Fixpoint has_suffix (suffix s : string) : bool :=
  if String.eqb s suffix then true
  else match s with
       | EmptyString => false
       | String _ s' => has_suffix suffix s'
       end.

(** ** [_get_which] *)
Definition UHD_ASSERT_THROW (cond : bool) (text : string) : outcome unit :=
  if cond then Ok tt else Throw (assertion_error text).

Definition _get_which (dir : direction_t) (chan : N) : outcome string :=
  match UHD_ASSERT_THROW
          (bool_decide (dir = RX_DIRECTION) || bool_decide (dir = TX_DIRECTION))
          "dir == RX_DIRECTION or dir == TX_DIRECTION" with
  | Throw e => Throw e
  | Ok _ =>
    match UHD_ASSERT_THROW ((chan =? 0) || (chan =? 1))
            "chan == 0 or chan == 1" with
    | Throw e => Throw e
    | Ok _ =>
      Ok ((if bool_decide (dir = RX_DIRECTION) then "RX" else "TX")
            +:+ to_string (size_t_add chan 1))
    end
  end.

(** The (direction, channel) pairs that name a frontend of the AD9371. *)
Definition valid_frontend (dir : direction_t) (chan : N) : Prop :=
  (dir = RX_DIRECTION \/ dir = TX_DIRECTION) /\ (chan = 0 \/ chan = 1).

(** The error kinds of the interface description, and the exceptions of this
    file they stand for: a failed [UHD_ASSERT_THROW] is the invalid-argument
    condition, an error raised by the RPC client is the remote-call failure.
    Nothing in this file raises on a missing session token. *)
Inductive error_kind := InvalidArgument | NoSessionToken | RemoteCallFailure.

Definition error_kind_of (e : failure) : option error_kind :=
  match e with
  | assertion_error _ => Some InvalidArgument
  | rpc_failure _ => Some RemoteCallFailure
  | _ => None
  end.

Definition fails_with {A} (k : error_kind) (o : outcome A) : Prop :=
  exists e, o = Throw e /\ error_kind_of e = Some k.

Definition succeeds {A} (o : outcome A) : Prop :=
  exists a, o = Ok a.

(** ** Constants of the anonymous namespace *)
Definition MAGNESIUM_TICK_RATE : float := 125e6.
Definition MAGNESIUM_RADIO_RATE : float := 125e6.
Definition MAGNESIUM_MIN_FREQ : float := 300e6.
Definition MAGNESIUM_MAX_FREQ : float := 6e9.
Definition MAGNESIUM_MIN_RX_GAIN : float := 0.0.
Definition MAGNESIUM_MAX_RX_GAIN : float := 30.0.
Definition MAGNESIUM_RX_GAIN_STEP : float := 0.5.
Definition MAGNESIUM_MIN_TX_GAIN : float := 0.0.
Definition MAGNESIUM_MAX_TX_GAIN : float := 41.95.
Definition MAGNESIUM_TX_GAIN_STEP : float := 0.05.
Definition MAGNESIUM_CENTER_FREQ : float := 2.5e9.
Definition MAGNESIUM_DEFAULT_RX_ANTENNA : string := "RX2".
Definition MAGNESIUM_DEFAULT_TX_ANTENNA : string := "TX/RX".
Definition MAGNESIUM_DEFAULT_GAIN : float := 0.0.
Definition MAGNESIUM_DEFAULT_BANDWIDTH : float := 40e6.
Definition MAGNESIUM_NUM_TX_CHANS : N := 1.
Definition MAGNESIUM_NUM_RX_CHANS : N := 1.

(** ** Log stream

    A log statement is recorded with the operands of its [<<] chain. *)
Inductive log_level := TRACE | DEBUG | WARNING.

Inductive operand :=
| txt (s : string)
| dbl (d : float)
| num (n : N).

Record log_entry := LogEntry {
  log_level_of : log_level;
  log_component : string;
  log_message : list operand
}.

(** ** The RPC client, seen from this file

    [request_with_token<T>(name, args...)] sends the client's token, the
    method name and the positional arguments, and blocks for the reply. *)
Definition eeprom_map_t : Type := list (string * list N).
Definition device_addr_t : Type := list (string * string).

Inductive rpc_arg :=
| arg_str (s : string)
| arg_double (d : float)
| arg_bool (b : bool)
| arg_size (n : N)
| arg_eeprom (m : eeprom_map_t).

Inductive rpc_value :=
| val_double (d : float)
| val_eeprom (m : eeprom_map_t)
| val_nil.

Record rpc_call := RpcCall {
  rpc_token : string;
  rpc_method : string;
  rpc_args : list rpc_arg
}.

(** A reply is a value, or the text of the error reported by the transport
    or by the firmware. *)
Definition rpc_reply : Type := string + rpc_value.

(** What [request_with_token<double>] makes of a reply. *)
Definition double_of_reply (reply : rpc_reply) : outcome float :=
  match reply with
  | inl what => Throw (rpc_failure what)
  | inr (val_double d) => Ok d
  | inr _ => Throw (rpc_failure "reply is not a double")
  end.

(** The remote side: any state machine that answers calls.  A notification
    gets no answer: [fw_notify] gives the error the transport reports when
    it cannot deliver one ([None] when it was delivered), and the state the
    remote side is left in. *)
Class Firmware (fw : Type) := {
  fw_serve : fw -> rpc_call -> rpc_reply * fw;
  fw_notify : fw -> rpc_call -> option string * fw
}.

Record rpc_client := RpcClient { token : string }.

(** ** The base class [radio_ctrl_impl]

    [_init_defaults] and [set_rate] call into the base class with qualified
    names ([radio_ctrl_impl::set_rx_frequency(...)]), which selects the base
    implementation and not the override defined in this file. *)
Module radio_ctrl_impl.

(** Modelled from the spec: the state of the base radio controller, whose
    source file is not part of this one: the tick rate and, per channel,
    the last value given for each attribute. *)
Record t := Build {
  _tick_rate : float;
  _rx_freq : gmap N float;
  _tx_freq : gmap N float;
  _rx_gain : gmap N float;
  _tx_gain : gmap N float;
  _rx_antenna : gmap N string;
  _tx_antenna : gmap N string;
  _rx_bandwidth : gmap N float
}.

(** Modelled from the spec: the base state before bring-up; nothing has
    been recorded for any channel. *)
Definition initial : t :=
  Build 0%float ∅ ∅ ∅ ∅ ∅ ∅ ∅.

(** Modelled from the spec: the setters of the base radio controller,
    whose source file is not part of this one.  Section 4.4 has bring-up
    "apply" each default; the base setter records the value for the
    channel and, when it returns one, returns the value it recorded. *)
Definition set_rate (rate : float) (b : t) : float * t :=
  (rate, Build rate (_rx_freq b) (_tx_freq b) (_rx_gain b) (_tx_gain b)
               (_rx_antenna b) (_tx_antenna b) (_rx_bandwidth b)).

(** Modelled from the spec: the base getter of the rate, a fixed system
    parameter once set. *)
Definition get_rate (b : t) : float := _tick_rate b.

(** Modelled from the spec: the base setter of the RX frequency (section 4.4),
    which records the value for the channel. *)
Definition set_rx_frequency (freq : float) (chan : N) (b : t) : float * t :=
  (freq, Build (_tick_rate b) (<[chan:=freq]> (_rx_freq b)) (_tx_freq b)
               (_rx_gain b) (_tx_gain b)
               (_rx_antenna b) (_tx_antenna b) (_rx_bandwidth b)).

(** Modelled from the spec: the base setter of the TX frequency (section 4.4),
    which records the value for the channel. *)
Definition set_tx_frequency (freq : float) (chan : N) (b : t) : float * t :=
  (freq, Build (_tick_rate b) (_rx_freq b) (<[chan:=freq]> (_tx_freq b))
               (_rx_gain b) (_tx_gain b)
               (_rx_antenna b) (_tx_antenna b) (_rx_bandwidth b)).

(** Modelled from the spec: the base setter of the RX gain (section 4.4),
    which records the value for the channel. *)
Definition set_rx_gain (gain : float) (chan : N) (b : t) : float * t :=
  (gain, Build (_tick_rate b) (_rx_freq b) (_tx_freq b)
               (<[chan:=gain]> (_rx_gain b)) (_tx_gain b)
               (_rx_antenna b) (_tx_antenna b) (_rx_bandwidth b)).

(** Modelled from the spec: the base setter of the TX gain (section 4.4),
    which records the value for the channel. *)
Definition set_tx_gain (gain : float) (chan : N) (b : t) : float * t :=
  (gain, Build (_tick_rate b) (_rx_freq b) (_tx_freq b)
               (_rx_gain b) (<[chan:=gain]> (_tx_gain b))
               (_rx_antenna b) (_tx_antenna b) (_rx_bandwidth b)).

(** Modelled from the spec: the base setter of the RX antenna (section 4.4),
    which records the value for the channel. *)
Definition set_rx_antenna (ant : string) (chan : N) (b : t) : unit * t :=
  (tt, Build (_tick_rate b) (_rx_freq b) (_tx_freq b)
             (_rx_gain b) (_tx_gain b)
             (<[chan:=ant]> (_rx_antenna b)) (_tx_antenna b)
             (_rx_bandwidth b)).

(** Modelled from the spec: the base setter of the TX antenna (section 4.4),
    which records the value for the channel. *)
Definition set_tx_antenna (ant : string) (chan : N) (b : t) : unit * t :=
  (tt, Build (_tick_rate b) (_rx_freq b) (_tx_freq b)
             (_rx_gain b) (_tx_gain b)
             (_rx_antenna b) (<[chan:=ant]> (_tx_antenna b))
             (_rx_bandwidth b)).

(** Modelled from the spec: the base setter of the RX bandwidth (section 4.4),
    which records the value for the channel. *)
Definition set_rx_bandwidth (bw : float) (chan : N) (b : t) : float * t :=
  (bw, Build (_tick_rate b) (_rx_freq b) (_tx_freq b)
             (_rx_gain b) (_tx_gain b)
             (_rx_antenna b) (_tx_antenna b)
             (<[chan:=bw]> (_rx_bandwidth b))).

End radio_ctrl_impl.

(** ** Property tree: data

    The lambdas handed to the tree capture [this], [chan] and [dir_]; a hook
    is recorded as the member function it calls and the captured values. *)
Inductive coercer_hook :=
| coerce_frequency (chan : N) (dir : direction_t)
| coerce_gain (chan : N) (dir : direction_t)
| coerce_rx_bandwidth (chan : N).

Inductive subscriber_hook :=
| subscribe_antenna (chan : N) (dir : direction_t)
| subscribe_eeprom (db_idx : N).

Inductive publisher_hook :=
| publish_antenna (chan : N) (dir : direction_t)
| publish_frequency (chan : N) (dir : direction_t)
| publish_gain (chan : N) (dir : direction_t)
| publish_rx_bandwidth (chan : N)
| publish_eeprom (db_idx : N).

#[global] Instance publisher_hook_eq_dec : EqDecision publisher_hook.
Proof. solve_decision. Defined.

Module property_tree.

Inductive type_tag :=
| t_string | t_double | t_meta_range | t_strings | t_eeprom | t_int.

#[global] Instance type_tag_eq_dec : EqDecision type_tag.
Proof. solve_decision. Defined.

Inductive value :=
| v_string (s : string)
| v_double (d : float)
| v_meta_range (start stop step : float)
| v_strings (l : list string)
| v_eeprom (m : eeprom_map_t)
| v_int (z : Z).

Definition type_of (v : value) : type_tag :=
  match v with
  | v_string _ => t_string
  | v_double _ => t_double
  | v_meta_range _ _ _ => t_meta_range
  | v_strings _ => t_strings
  | v_eeprom _ => t_eeprom
  | v_int _ => t_int
  end.

(** Modelled from the spec: a property node (section 3) holds a typed
    value, an optional coercion hook, an optional publisher hook and its
    write subscribers. *)
Record node := Node {
  n_type : type_tag;
  n_value : option value;
  n_coercer : option coercer_hook;
  n_publisher : option publisher_hook;
  n_subscribers : list subscriber_hook
}.

Definition with_value (v : value) (n : node) : node :=
  Node (n_type n) (Some v) (n_coercer n) (n_publisher n) (n_subscribers n).

(** Modelled from the spec: the property storage engine, of which this
    file only uses the interface.  Section 4.1: [create] is idempotent and
    fails if the path exists with another type. *)
Definition create (ty : type_tag) (path : string) (tr : gmap string node)
  : outcome (gmap string node) :=
  match tr !! path with
  | None => Ok (<[path := Node ty None None None []]> tr)
  | Some n => if decide (n_type n = ty) then Ok tr
              else Throw (type_error path)
  end.

(** Modelled from the spec: [access<T>(path)] of the storage engine gives
    the node, which has to exist with that type. *)
Definition access (ty : type_tag) (path : string) (tr : gmap string node)
  : outcome node :=
  match tr !! path with
  | None => Throw (lookup_error path)
  | Some n => if decide (n_type n = ty) then Ok n
              else Throw (type_error path)
  end.

(** Modelled from the spec: registering the coercion hook of a node. *)
Definition set_coercer (path : string) (h : coercer_hook)
    (tr : gmap string node) : gmap string node :=
  alter (fun n => Node (n_type n) (n_value n) (Some h) (n_publisher n)
                       (n_subscribers n)) path tr.

(** Modelled from the spec: registering the publisher hook of a node. *)
Definition set_publisher (path : string) (h : publisher_hook)
    (tr : gmap string node) : gmap string node :=
  alter (fun n => Node (n_type n) (n_value n) (n_coercer n) (Some h)
                       (n_subscribers n)) path tr.

(** Modelled from the spec: adding a write subscriber to a node. *)
Definition add_coerced_subscriber (path : string) (h : subscriber_hook)
    (tr : gmap string node) : gmap string node :=
  alter (fun n => Node (n_type n) (n_value n) (n_coercer n) (n_publisher n)
                       (n_subscribers n ++ [h])) path tr.

(** Modelled from the spec: the effective value of a write becomes the
    stored value of the node. *)
Definition store (path : string) (v : value) (tr : gmap string node)
  : gmap string node :=
  alter (with_value v) path tr.

End property_tree.

(** Modelled from the spec: [fs_path::operator/] joins the segments of the
    hierarchical, string-segmented paths of section 6 with a slash. *)
Definition fs_slash (lhs rhs : string) : string := lhs +:+ "/" +:+ rhs.
Infix "//" := fs_slash (at level 40, left associativity).

(** The paths of the codec and tick-rate nodes the constructor creates after
    the frontends, for the block in [slot]. *)
Definition codec_paths (slot : string) : list string :=
  ["rx_codecs" // slot // "gains"; "tx_codecs" // slot // "gains";
   "rx_codecs" // slot // "name"; "tx_codecs" // slot // "name";
   "tick_rate"].

(** ** The radio block and the world around it *)
Section Radio.

Context {fw : Type} `{Firmware fw}.

(** What the block framework hands to the constructor. *)
Record block_env := BlockEnv {
  block_count : N;            (* get_block_id().get_block_count() *)
  root_path : string;         (* _root_path *)
  num_output_ports : N;       (* get_output_ports().size() *)
  num_input_ports : N         (* get_input_ports().size() *)
}.

Record radio := Radio {
  env : block_env;
  base : radio_ctrl_impl.t;
  _radio_slot : string;
  _rpc_prefix : string;
  _rpcc : option rpc_client;
  _block_args : device_addr_t;
  _tree : gmap string property_tree.node;
  (* the world outside the object *)
  firmware : fw;
  rpc_trace : list rpc_call;
  log : list log_entry
}.

Definition with_base (b : radio_ctrl_impl.t) (r : radio) : radio :=
  Radio (env r) b (_radio_slot r) (_rpc_prefix r) (_rpcc r) (_block_args r)
        (_tree r) (firmware r) (rpc_trace r) (log r).

Definition with_radio_slot (s : string) (r : radio) : radio :=
  Radio (env r) (base r) s (_rpc_prefix r) (_rpcc r) (_block_args r)
        (_tree r) (firmware r) (rpc_trace r) (log r).

Definition with_rpc_prefix (s : string) (r : radio) : radio :=
  Radio (env r) (base r) (_radio_slot r) s (_rpcc r) (_block_args r)
        (_tree r) (firmware r) (rpc_trace r) (log r).

Definition with_rpcc (c : option rpc_client) (a : device_addr_t) (r : radio)
  : radio :=
  Radio (env r) (base r) (_radio_slot r) (_rpc_prefix r) c a
        (_tree r) (firmware r) (rpc_trace r) (log r).

Definition with_tree (t : gmap string property_tree.node) (r : radio)
  : radio :=
  Radio (env r) (base r) (_radio_slot r) (_rpc_prefix r) (_rpcc r)
        (_block_args r) t (firmware r) (rpc_trace r) (log r).

Definition with_firmware (f : fw) (c : rpc_call) (r : radio) : radio :=
  Radio (env r) (base r) (_radio_slot r) (_rpc_prefix r) (_rpcc r)
        (_block_args r) (_tree r) f (rpc_trace r ++ [c]) (log r).

Definition with_log (e : log_entry) (r : radio) : radio :=
  Radio (env r) (base r) (_radio_slot r) (_rpc_prefix r) (_rpcc r)
        (_block_args r) (_tree r) (firmware r) (rpc_trace r) (log r ++ [e]).

(** *** State and exceptions *)
Definition M (A : Type) : Type := radio -> outcome A * radio.

Definition ret {A} (a : A) : M A := fun r => (Ok a, r).
Definition throw {A} (e : failure) : M A := fun r => (Throw e, r).
Definition bind {A B} (m : M A) (k : A -> M B) : M B :=
  fun r => match m r with
           | (Ok a, r') => k a r'
           | (Throw e, r') => (Throw e, r')
           end.

Notation "'let*' x := m 'in' k" := (bind m (fun x => k))
  (at level 10, x pattern, m at level 100, k at level 200).
Notation "m ;;; k" := (bind m (fun _ => k))
  (at level 100, k at level 200, right associativity).

Definition lift {A} (o : outcome A) : M A := fun r => (o, r).
Definition gets {A} (f : radio -> A) : M A := fun r => (Ok (f r), r).
Definition modify (f : radio -> radio) : M unit := fun r => (Ok tt, f r).

Definition UHD_LOG (lvl : log_level) (component : string)
    (msg : list operand) : M unit :=
  modify (with_log (LogEntry lvl component msg)).

(** [for (size_t i = 0; i < n; ++i) body(i)] *)
Fixpoint for_loop (count : nat) (i : N) (body : N -> M unit) : M unit :=
  match count with
  | O => ret tt
  | S count' => body i ;;; for_loop count' (size_t_add i 1) body
  end.

Definition for_upto (n : N) (body : N -> M unit) : M unit :=
  for_loop (N.to_nat n) 0 body.

(** Calls into the base class act on the base sub-object. *)
Definition in_base {A} (f : radio_ctrl_impl.t -> A * radio_ctrl_impl.t)
  : M A :=
  fun r => let '(a, b) := f (base r) in (Ok a, with_base b r).

Definition get_rate : M float :=
  gets (fun r => radio_ctrl_impl.get_rate (base r)).

(** *** The RPC client *)

(** Modelled from the spec: [request_with_token] of the RPC client, which is
    declared outside this file.  Section 4.3: a synchronous call made of
    the session token, the method name and the positional arguments, which
    blocks for the reply and fails if the transport or the firmware reports
    an error.  The member call needs [_rpcc] to point to a client. *)
Definition request_with_token (name : string) (args : list rpc_arg)
  : M rpc_value :=
  fun r =>
    match _rpcc r with
    | None => (Throw null_rpc_client, r)
    | Some c =>
      let call := RpcCall (token c) name args in
      let '(reply, f) := fw_serve (firmware r) call in
      match reply with
      | inl what => (Throw (rpc_failure what), with_firmware f call r)
      | inr v => (Ok v, with_firmware f call r)
      end
    end.

(** Modelled from the spec: [notify_with_token] of the RPC client (section
    4.3); the call is sent with the token and no typed reply is awaited,
    but the call still fails if the transport is down. *)
Definition notify_with_token (name : string) (args : list rpc_arg)
  : M unit :=
  fun r =>
    match _rpcc r with
    | None => (Throw null_rpc_client, r)
    | Some c =>
      let call := RpcCall (token c) name args in
      let '(down, f) := fw_notify (firmware r) call in
      match down with
      | Some what => (Throw (rpc_failure what), with_firmware f call r)
      | None => (Ok tt, with_firmware f call r)
      end
    end.

(** Modelled from the spec: the [<double>] instance of a request returns a
    typed result, or fails when the reply has another type. *)
Definition as_double (v : rpc_value) : M float :=
  match v with
  | val_double d => ret d
  | _ => throw (rpc_failure "reply is not a double")
  end.

(** Modelled from the spec: the [<eeprom_map_t>] instance of a request. *)
Definition as_eeprom (v : rpc_value) : M eeprom_map_t :=
  match v with
  | val_eeprom m => ret m
  | _ => throw (rpc_failure "reply is not an eeprom map")
  end.

(** *** AD9371 controls *)
Definition _myk_set_frequency (freq : float) (chan : N) (dir : direction_t)
  : M float :=
  (* Note: There is only one LO per RX or TX, so changing frequency will
     affect the adjacent channel in the same direction. *)
  let* which := lift (_get_which dir chan) in
  let* prefix := gets _rpc_prefix in
  UHD_LOG TRACE "MAGNESIUM"
    [txt "Calling "; txt prefix; txt "set_freq on "; txt which;
     txt " with "; dbl freq] ;;;
  let* reply := request_with_token (prefix +:+ "set_freq")
                  [arg_str which; arg_double freq; arg_bool false] in
  let* retval := as_double reply in
  UHD_LOG TRACE "MAGNESIUM" [txt prefix; txt "set_freq returned "; dbl retval] ;;;
  ret retval.

Definition _myk_set_gain (gain : float) (chan : N) (dir : direction_t)
  : M float :=
  let* which := lift (_get_which dir chan) in
  let* prefix := gets _rpc_prefix in
  UHD_LOG TRACE "MAGNESIUM"
    [txt "Calling "; txt prefix; txt "set_gain on "; txt which;
     txt " with "; dbl gain] ;;;
  let* reply := request_with_token (prefix +:+ "set_gain")
                  [arg_str which; arg_double gain] in
  let* retval := as_double reply in
  UHD_LOG TRACE "MAGNESIUM" [txt prefix; txt "set_gain returned "; dbl retval] ;;;
  ret retval.

Definition _myk_set_antenna (ant : string) (chan : N) (dir : direction_t)
  : M unit :=
  (* TODO: implement *)
  UHD_LOG WARNING "MAGNESIUM" [txt "Ignoring attempt to set antenna"].

Definition _myk_get_frequency (chan : N) (dir : direction_t) : M float :=
  let* which := lift (_get_which dir chan) in
  let* prefix := gets _rpc_prefix in
  UHD_LOG TRACE "MAGNESIUM"
    [txt "calling "; txt prefix; txt "get_freq on "; txt which] ;;;
  let* reply := request_with_token (prefix +:+ "get_freq") [arg_str which] in
  let* retval := as_double reply in
  UHD_LOG TRACE "MAGNESIUM" [txt prefix; txt "get_freq returned "; dbl retval] ;;;
  ret retval.

Definition _myk_get_gain (chan : N) (dir : direction_t) : M float :=
  let* which := lift (_get_which dir chan) in
  let* prefix := gets _rpc_prefix in
  UHD_LOG TRACE "MAGNESIUM"
    [txt "calling "; txt prefix; txt "get_gain on "; txt which] ;;;
  let* reply := request_with_token (prefix +:+ "get_gain") [arg_str which] in
  let* retval := as_double reply in
  UHD_LOG TRACE "MAGNESIUM" [txt prefix; txt "get_gain returned "; dbl retval] ;;;
  ret retval.

Definition _myk_get_antenna (chan : N) (dir : direction_t) : M string :=
  (* TODO: implement *)
  UHD_LOG WARNING "MAGNESIUM" [txt "Ignoring attempt to get antenna"] ;;;
  ret "RX1".

Definition _myk_get_bandwidth (chan : N) (dir : direction_t) : M float :=
  (* TODO: implement *)
  UHD_LOG WARNING "MAGNESIUM" [txt "Ignoring attempt to get bandwidth"] ;;;
  ret MAGNESIUM_DEFAULT_BANDWIDTH.

(** *** API calls (the overrides of this class) *)
Definition set_rate (rate : float) : M float :=
  (* TODO: implement *)
  let* current := get_rate in
  (if negb (PrimFloat.eqb rate current)
   then UHD_LOG WARNING "MAGNESIUM"
          [txt "Attempting to set sampling rate to invalid value "; dbl rate]
   else ret tt) ;;;
  get_rate.

Definition set_tx_antenna (ant : string) (chan : N) : M unit :=
  _myk_set_antenna ant chan TX_DIRECTION.

Definition set_rx_antenna (ant : string) (chan : N) : M unit :=
  _myk_set_antenna ant chan RX_DIRECTION.

Definition set_tx_frequency (freq : float) (chan : N) : M float :=
  _myk_set_frequency freq chan TX_DIRECTION.

Definition set_rx_frequency (freq : float) (chan : N) : M float :=
  _myk_set_frequency freq chan RX_DIRECTION.

Definition set_tx_gain (gain : float) (chan : N) : M float :=
  _myk_set_gain gain chan TX_DIRECTION.

Definition set_rx_gain (gain : float) (chan : N) : M float :=
  _myk_set_gain gain chan RX_DIRECTION.

Definition get_tx_antenna (chan : N) : M string :=
  _myk_get_antenna chan TX_DIRECTION.

Definition get_rx_antenna (chan : N) : M string :=
  _myk_get_antenna chan RX_DIRECTION.

Definition get_tx_frequency (chan : N) : M float :=
  _myk_get_frequency chan TX_DIRECTION.

Definition get_rx_frequency (chan : N) : M float :=
  _myk_get_frequency chan RX_DIRECTION.

Definition get_tx_gain (chan : N) : M float :=
  _myk_get_gain chan TX_DIRECTION.

Definition get_rx_gain (chan : N) : M float :=
  _myk_get_gain chan RX_DIRECTION.

Definition get_rx_bandwidth (chan : N) : M float :=
  _myk_get_bandwidth chan RX_DIRECTION.

Definition _myk_set_bandwidth (bandwidth : float) (chan : N)
    (dir : direction_t) : M float :=
  (* TODO: implement *)
  UHD_LOG WARNING "MAGNESIUM" [txt "Ignoring attempt to set bandwidth"] ;;;
  get_rx_bandwidth chan.

Definition set_rx_bandwidth (bandwidth : float) (chan : N) : M float :=
  _myk_set_bandwidth bandwidth chan RX_DIRECTION.

Definition get_output_samp_rate (port : N) : M float :=
  ret MAGNESIUM_RADIO_RATE.

(** *** Channel / frontend-name conversion *)
Definition get_chan_from_dboard_fe (fe : string) (dir : direction_t)
  : outcome N :=
  lexical_cast_size_t fe.

Definition get_dboard_fe_from_chan (chan : N) (dir : direction_t) : string :=
  to_string chan.

(** *** Helpers *)
Definition _get_fe_path (chan : N) (dir : direction_t) : M string :=
  match dir with
  | TX_DIRECTION =>
    let* slot := gets _radio_slot in
    ret ("dboards" // slot // "tx_frontends"
           // get_dboard_fe_from_chan chan TX_DIRECTION)
  | RX_DIRECTION =>
    let* slot := gets _radio_slot in
    ret ("dboards" // slot // "rx_frontends"
           // get_dboard_fe_from_chan chan RX_DIRECTION)
  | _ => throw (assertion_error "invalid code path")
  end.

(** *** Property tree: hooks and access

    Running a hook calls the member function its lambda names. *)
Import property_tree.

Definition run_coercer (path : string) (h : coercer_hook) (v : value)
  : M value :=
  match h, v with
  | coerce_frequency chan dir, v_double freq =>
    let* c := _myk_set_frequency freq chan dir in ret (v_double c)
  | coerce_gain chan dir, v_double gain =>
    let* c := _myk_set_gain gain chan dir in ret (v_double c)
  | coerce_rx_bandwidth chan, v_double bw =>
    let* c := set_rx_bandwidth bw chan in ret (v_double c)
  | _, _ => throw (type_error path)
  end.

Definition run_subscriber (path : string) (h : subscriber_hook) (v : value)
  : M unit :=
  match h, v with
  | subscribe_antenna chan dir, v_string ant => _myk_set_antenna ant chan dir
  | subscribe_eeprom db_idx, v_eeprom db_eeprom =>
    notify_with_token "set_db_eeprom" [arg_size db_idx; arg_eeprom db_eeprom]
  | _, _ => throw (type_error path)
  end.

Definition run_publisher (h : publisher_hook) : M value :=
  match h with
  | publish_antenna chan dir =>
    let* a := _myk_get_antenna chan dir in ret (v_string a)
  | publish_frequency chan dir =>
    let* f := _myk_get_frequency chan dir in ret (v_double f)
  | publish_gain chan dir =>
    let* g := _myk_get_gain chan dir in ret (v_double g)
  | publish_rx_bandwidth chan =>
    let* b := get_rx_bandwidth chan in ret (v_double b)
  | publish_eeprom db_idx =>
    let* reply := request_with_token "get_db_eeprom" [arg_size db_idx] in
    let* m := as_eeprom reply in ret (v_eeprom m)
  end.

Fixpoint notify_subscribers (path : string) (hs : list subscriber_hook)
    (v : value) : M unit :=
  match hs with
  | [] => ret tt
  | h :: hs' => run_subscriber path h v ;;; notify_subscribers path hs' v
  end.

(** Modelled from the spec: the tree operations, lifted to the state of
    the block. *)
Definition tree_create (ty : type_tag) (path : string) : M unit :=
  let* t := gets _tree in
  let* t' := lift (create ty path t) in
  modify (with_tree t').

Definition tree_access (path : string) (ty : type_tag) : M node :=
  let* t := gets _tree in lift (access ty path t).

(** Modelled from the spec: [set] and [get] of a property node, section
    4.1.  [set] hands the candidate to the coercion hook (if any), stores
    what the hook returns, then notifies the subscribers with the stored
    value; a declared range is advisory and not enforced.  [get] returns
    what the publisher hook returns when one is registered, and the last
    stored value otherwise. *)
Definition tree_set (path : string) (v : value) : M unit :=
  let* n := tree_access path (type_of v) in
  let* effective :=
    match n_coercer n with
    | Some h => run_coercer path h v
    | None => ret v
    end in
  modify (fun r => with_tree (store path effective (_tree r)) r) ;;;
  notify_subscribers path (n_subscribers n) effective.

Definition tree_get (path : string) (ty : type_tag) : M value :=
  let* n := tree_access path ty in
  match n_publisher n with
  | Some h => run_publisher h
  | None =>
    match n_value n with
    | Some v => ret v
    | None => throw (empty_property path)
    end
  end.

Definition tree_set_coercer (path : string) (h : coercer_hook) : M unit :=
  modify (fun r => with_tree (set_coercer path h (_tree r)) r).

Definition tree_set_publisher (path : string) (h : publisher_hook) : M unit :=
  modify (fun r => with_tree (set_publisher path h (_tree r)) r).

Definition tree_add_coerced_subscriber (path : string) (h : subscriber_hook)
  : M unit :=
  modify (fun r => with_tree (add_coerced_subscriber path h (_tree r)) r).

Definition tree_exists (path : string) : M bool :=
  gets (fun r => bool_decide (is_Some (_tree r !! path))).

(** *** Init helpers *)
Definition _init_peripherals : M unit :=
  UHD_LOG TRACE "MAGNESIUM" [txt "Initializing peripherals..."].

Definition _init_defaults : M unit :=
  UHD_LOG TRACE "MAGNESIUM" [txt "Initializing defaults..."] ;;;
  let* num_rx_chans := gets (fun r => num_output_ports (env r)) in
  let* num_tx_chans := gets (fun r => num_input_ports (env r)) in
  UHD_LOG TRACE "MAGNESIUM"
    [txt "Num TX chans: "; num num_tx_chans;
     txt " Num RX chans: "; num num_rx_chans] ;;;
  UHD_LOG TRACE "MAGNESIUM"
    [txt "Setting tick rate to "; dbl (MAGNESIUM_TICK_RATE / 1e6);
     txt " MHz"] ;;;
  in_base (radio_ctrl_impl.set_rate MAGNESIUM_TICK_RATE) ;;;
  for_upto num_rx_chans (fun chan =>
    in_base (radio_ctrl_impl.set_rx_frequency MAGNESIUM_CENTER_FREQ chan) ;;;
    in_base (radio_ctrl_impl.set_rx_gain MAGNESIUM_DEFAULT_GAIN chan) ;;;
    in_base (radio_ctrl_impl.set_rx_antenna MAGNESIUM_DEFAULT_RX_ANTENNA chan) ;;;
    in_base (radio_ctrl_impl.set_rx_bandwidth MAGNESIUM_DEFAULT_BANDWIDTH chan) ;;;
    ret tt) ;;;
  for_upto num_tx_chans (fun chan =>
    in_base (radio_ctrl_impl.set_tx_frequency MAGNESIUM_CENTER_FREQ chan) ;;;
    in_base (radio_ctrl_impl.set_tx_gain MAGNESIUM_DEFAULT_GAIN chan) ;;;
    in_base (radio_ctrl_impl.set_tx_antenna MAGNESIUM_DEFAULT_TX_ANTENNA chan)).

(** The bring-up of the interface description, section 4.4: every default
    pushed through the [set_*] operation that runtime calls use.  It is
    compared with [_init_defaults] below. *)
Definition init_defaults_through_setters : M unit :=
  let* num_rx_chans := gets (fun r => num_output_ports (env r)) in
  let* num_tx_chans := gets (fun r => num_input_ports (env r)) in
  for_upto num_rx_chans (fun chan =>
    set_rx_frequency MAGNESIUM_CENTER_FREQ chan ;;;
    set_rx_gain MAGNESIUM_DEFAULT_GAIN chan ;;;
    set_rx_antenna MAGNESIUM_DEFAULT_RX_ANTENNA chan ;;;
    set_rx_bandwidth MAGNESIUM_DEFAULT_BANDWIDTH chan ;;;
    ret tt) ;;;
  for_upto num_tx_chans (fun chan =>
    set_tx_frequency MAGNESIUM_CENTER_FREQ chan ;;;
    set_tx_gain MAGNESIUM_DEFAULT_GAIN chan ;;;
    set_tx_antenna MAGNESIUM_DEFAULT_TX_ANTENNA chan).

(** *** Structors *)
Definition vec_at {A} (v : list A) (i : N) : M A :=
  match v !! N.to_nat i with
  | Some a => ret a
  | None => throw out_of_bounds
  end.

Definition create_and_set (path : string) (v : value) : M unit :=
  tree_create (type_of v) path ;;; tree_set path v.

Definition RX_IDX : N := 0.

(** The body of the two nested loops of the constructor. *)
Definition add_frontend (fe_direction_path : string) (fe_idx chan : N)
  : M unit :=
  let dir := [RX_DIRECTION; TX_DIRECTION] in
  let ant := ["RX"; "TX"] in
  let fe_path := fe_direction_path // to_string chan in
  UHD_LOG TRACE "MAGNESIUM" [txt "Adding FE at "; txt fe_path] ;;;
  let* ant_name := vec_at ant fe_idx in
  (* Shared TX/RX attributes *)
  create_and_set (fe_path // "name")
    (v_string ("Magnesium " +:+ ant_name +:+ " " +:+ to_string chan)) ;;;
  create_and_set (fe_path // "connection") (v_string "IQ") ;;;
  (* TODO: fix antenna name *)
  let* dir_ := vec_at dir fe_idx in
  create_and_set (fe_path // "antenna" // "value")
    (v_string (ant_name +:+ to_string (size_t_add chan 1))) ;;;
  tree_add_coerced_subscriber (fe_path // "antenna" // "value")
    (subscribe_antenna chan dir_) ;;;
  tree_set_publisher (fe_path // "antenna" // "value")
    (publish_antenna chan dir_) ;;;
  (* TODO: fix options *)
  create_and_set (fe_path // "antenna" // "options")
    (v_strings [ant_name +:+ to_string (size_t_add chan 1)]) ;;;
  let* dir_ := vec_at dir fe_idx in
  create_and_set (fe_path // "freq" // "value")
    (v_double MAGNESIUM_CENTER_FREQ) ;;;
  tree_set_coercer (fe_path // "freq" // "value")
    (coerce_frequency chan dir_) ;;;
  tree_set_publisher (fe_path // "freq" // "value")
    (publish_frequency chan dir_) ;;;
  create_and_set (fe_path // "freq" // "range")
    (v_meta_range MAGNESIUM_MIN_FREQ MAGNESIUM_MAX_FREQ 0) ;;;
  let* dir_ := vec_at dir fe_idx in
  let min_gain := if fe_idx =? RX_IDX then MAGNESIUM_MIN_RX_GAIN
                  else MAGNESIUM_MIN_TX_GAIN in
  let max_gain := if fe_idx =? RX_IDX then MAGNESIUM_MAX_RX_GAIN
                  else MAGNESIUM_MAX_TX_GAIN in
  let gain_step := if fe_idx =? RX_IDX then MAGNESIUM_RX_GAIN_STEP
                   else MAGNESIUM_TX_GAIN_STEP in
  (* TODO: change from null *)
  create_and_set (fe_path // "gains" // "null" // "value")
    (v_double MAGNESIUM_DEFAULT_GAIN) ;;;
  tree_set_coercer (fe_path // "gains" // "null" // "value")
    (coerce_gain chan dir_) ;;;
  tree_set_publisher (fe_path // "gains" // "null" // "value")
    (publish_gain chan dir_) ;;;
  create_and_set (fe_path // "gains" // "null" // "range")
    (v_meta_range min_gain max_gain gain_step) ;;;
  (* TODO: set up read/write of bandwidth properties correctly *)
  (if fe_idx =? RX_IDX
   then
     create_and_set (fe_path // "bandwidth" // "value")
       (v_double MAGNESIUM_DEFAULT_BANDWIDTH) ;;;
     tree_set_coercer (fe_path // "bandwidth" // "value")
       (coerce_rx_bandwidth chan) ;;;
     tree_set_publisher (fe_path // "bandwidth" // "value")
       (publish_rx_bandwidth chan)
   else
     create_and_set (fe_path // "bandwidth" // "value")
       (v_double MAGNESIUM_DEFAULT_BANDWIDTH)) ;;;
  create_and_set (fe_path // "bandwidth" // "range")
    (v_meta_range MAGNESIUM_DEFAULT_BANDWIDTH MAGNESIUM_DEFAULT_BANDWIDTH 0).

(** The property-tree part of the constructor that sets up the frontends. *)
Definition add_frontends : M unit :=
  (* For legacy prop tree init: *)
  let* slot := gets _radio_slot in
  let fe_base := "dboards" // slot in
  let fe := ["rx_frontends"; "tx_frontends"] in
  let num_chans := [MAGNESIUM_NUM_RX_CHANS; MAGNESIUM_NUM_TX_CHANS] in
  for_upto (N.of_nat (length fe)) (fun fe_idx =>
    let* fe_name := vec_at fe fe_idx in
    let fe_direction_path := fe_base // fe_name in
    let* n := vec_at num_chans fe_idx in
    for_upto n (add_frontend fe_direction_path fe_idx)).

(** The property-tree part of the constructor that follows the frontends. *)
Definition add_eeprom_and_codecs : M unit :=
  let* slot := gets _radio_slot in
  (* EEPROM paths subject to change FIXME *)
  let* root := gets (fun r => root_path (env r)) in
  create_and_set (root // "eeprom") (v_eeprom []) ;;;
  (* TODO change codec names *)
  tree_create t_int ("rx_codecs" // slot // "gains") ;;;
  tree_create t_int ("tx_codecs" // slot // "gains") ;;;
  create_and_set ("rx_codecs" // slot // "name") (v_string "AD9361 Dual ADC") ;;;
  create_and_set ("tx_codecs" // slot // "name") (v_string "AD9361 Dual DAC") ;;;
  (* TODO remove this dirty hack *)
  let* have_tick_rate := tree_exists "tick_rate" in
  if negb have_tick_rate
  then create_and_set "tick_rate" (v_double MAGNESIUM_TICK_RATE)
  else ret tt.

(** The constructor up to the two init helpers. *)
Definition init_members : M unit :=
  UHD_LOG TRACE "MAGNESIUM" [txt "Entering magnesium_radio_ctrl_impl ctor..."] ;;;
  UHD_LOG DEBUG "MAGNESIUM" [txt "Note: Running in one-block-per-channel mode!"] ;;;
  let radio_slot_name := ["A"; "B"; "C"; "D"] in
  let* count := gets (fun r => block_count (env r)) in
  let* slot := vec_at radio_slot_name count in
  modify (with_radio_slot slot) ;;;
  UHD_LOG TRACE "MAGNESIUM" [txt "Radio slot: "; txt slot] ;;;
  let prefix := if count mod 2 =? 0 then "db_0_" else "db_1_" in
  modify (with_rpc_prefix prefix) ;;;
  UHD_LOG TRACE "MAGNESIUM" [txt "Using RPC prefix `"; txt prefix; txt "'"] ;;;
  _init_peripherals ;;;
  _init_defaults.

Definition magnesium_radio_ctrl_impl : M unit :=
  init_members ;;;
  (* REST OF CTOR IS PROP TREE SETUP *)
  add_frontends ;;;
  add_eeprom_and_codecs.

Definition set_rpc_client (rpcc : option rpc_client)
    (block_args : device_addr_t) : M unit :=
  modify (with_rpcc rpcc block_args) ;;;
  (* EEPROM paths subject to change FIXME *)
  let* db_idx := gets (fun r => block_count (env r)) in
  let* root := gets (fun r => root_path (env r)) in
  tree_access (root // "eeprom") t_eeprom ;;;
  tree_add_coerced_subscriber (root // "eeprom") (subscribe_eeprom db_idx) ;;;
  tree_set_publisher (root // "eeprom") (publish_eeprom db_idx).

(** The object before the constructor body runs. *)
Definition fresh (e : block_env) (f : fw) : radio :=
  Radio e radio_ctrl_impl.initial "" "" None [] ∅ f [] [].

(** *** Vocabulary for the statements below *)

(** Fields a call leaves alone when it only logs, and when it also talks to
    the firmware. *)
Definition same_object (r r' : radio) : Prop :=
  env r' = env r /\ base r' = base r /\ _radio_slot r' = _radio_slot r /\
  _rpc_prefix r' = _rpc_prefix r /\ _rpcc r' = _rpcc r /\
  _block_args r' = _block_args r /\ _tree r' = _tree r.

Definition only_logged (r r' : radio) : Prop :=
  same_object r r' /\ firmware r' = firmware r /\ rpc_trace r' = rpc_trace r.

(** One round trip of a [double]-valued request issued by [_myk_*]: the
    result is the converted reply, the firmware has served exactly that
    call, and nothing else of the object has changed. *)
Definition round_trip {A} (call : rpc_call) (convert : rpc_reply -> outcome A)
    (r : radio) (res : outcome A * radio) : Prop :=
  fst res = convert (fst (fw_serve (firmware r) call)) /\
  firmware (snd res) = snd (fw_serve (firmware r) call) /\
  rpc_trace (snd res) = (rpc_trace r ++ [call])%list /\
  same_object r (snd res).

(** What the constructor establishes on a fresh object, summarised: no
    client, no call sent, the prefix chosen by the block count, the
    default antennas recorded, and frequency nodes for channel 0 of each
    direction only. *)
Definition frontends_added (f : fw) (count : N) (slot : string)
    (R : radio) : Prop :=
  _radio_slot R = slot /\
  _rpcc R = None /\ rpc_trace R = [] /\ firmware R = f /\
  _rpc_prefix R = (if count mod 2 =? 0 then "db_0_" else "db_1_") /\
  radio_ctrl_impl._rx_antenna (base R) !! 0 = Some "RX2" /\
  radio_ctrl_impl._tx_antenna (base R) !! 0 = Some "TX/RX" /\
  (let fe dir chan := "dboards" // slot // dir // chan in
   let freq_node dir :=
     property_tree.Node property_tree.t_double
       (Some (property_tree.v_double MAGNESIUM_CENTER_FREQ))
       (Some (coerce_frequency 0 dir)) (Some (publish_frequency 0 dir)) [] in
   _tree R !! (fe "rx_frontends" "0" // "freq" // "value")
     = Some (freq_node RX_DIRECTION) /\
   _tree R !! (fe "tx_frontends" "0" // "freq" // "value")
     = Some (freq_node TX_DIRECTION) /\
   _tree R !! (fe "rx_frontends" "1" // "freq" // "value") = None /\
   _tree R !! (fe "tx_frontends" "1" // "freq" // "value") = None).

(** What a [double] property read through its publisher makes of a reply. *)
Definition value_of_reply (reply : rpc_reply) : outcome value :=
  match double_of_reply reply with
  | Ok d => Ok (v_double d)
  | Throw e => Throw e
  end.

End Radio.

(** ** A small firmware to run the model against

    One local oscillator per direction, shared by both channels of that
    direction, and one gain per frontend. *)
Record lo_firmware := LoFirmware {
  rx_lo : float;
  tx_lo : float;
  fe_gain : gmap string float
}.

Definition is_rx (which : string) : bool :=
  String.prefix "RX" which.

Definition lo_serve (s : lo_firmware) (c : rpc_call)
  : rpc_reply * lo_firmware :=
  let method := String.substring 5 (String.length (rpc_method c) - 5)
                  (rpc_method c) in
  if String.eqb method "set_freq" then
    match rpc_args c with
    | [arg_str which; arg_double f; arg_bool _] =>
      (inr (val_double f),
       if is_rx which then LoFirmware f (tx_lo s) (fe_gain s)
       else LoFirmware (rx_lo s) f (fe_gain s))
    | _ => (inl "bad arguments", s)
    end
  else if String.eqb method "get_freq" then
    match rpc_args c with
    | [arg_str which] =>
      (inr (val_double (if is_rx which then rx_lo s else tx_lo s)), s)
    | _ => (inl "bad arguments", s)
    end
  else if String.eqb method "set_gain" then
    match rpc_args c with
    | [arg_str which; arg_double g] =>
      (inr (val_double g),
       LoFirmware (rx_lo s) (tx_lo s) (<[which:=g]> (fe_gain s)))
    | _ => (inl "bad arguments", s)
    end
  else if String.eqb method "get_gain" then
    match rpc_args c with
    | [arg_str which] =>
      (inr (val_double (default 0%float (fe_gain s !! which))), s)
    | _ => (inl "bad arguments", s)
    end
  else (inl "no such method", s).

#[global] Instance lo_firmware_serves : Firmware lo_firmware :=
  {| fw_serve := lo_serve;
     fw_notify s c := (None, snd (lo_serve s c)) |}.

Definition lo_initial : lo_firmware := LoFirmware 1e9 1e9 ∅.

Definition sample_env : block_env := BlockEnv 0 "xbar/Radio_0" 1 1.

Definition sample_env_B : block_env := BlockEnv 1 "xbar/Radio_1" 1 1.

(** The sample block after construction, and after the client is attached. *)
Definition constructed : outcome unit * radio :=
  magnesium_radio_ctrl_impl (fresh sample_env lo_initial).

Definition attached : outcome unit * radio :=
  set_rpc_client (Some (RpcClient "token")) [] (snd constructed).


(** ** Vocabulary for the properties of the remaining code *)

(** A firmware that cannot be reached: every call comes back as an error,
    and no notification is delivered. *)
Inductive unreachable := Unreachable.

#[global] Instance unreachable_serves : Firmware unreachable :=
  {| fw_serve s _ := (inl "transport down", s);
     fw_notify s _ := (Some "transport down", s) |}.

(** What one round of the RX loop, and of the TX loop, of [_init_defaults]
    records in the base class. *)
Definition rx_defaults (chan : N) (b : radio_ctrl_impl.t)
  : radio_ctrl_impl.t :=
  snd (radio_ctrl_impl.set_rx_bandwidth MAGNESIUM_DEFAULT_BANDWIDTH chan
  (snd (radio_ctrl_impl.set_rx_antenna MAGNESIUM_DEFAULT_RX_ANTENNA chan
  (snd (radio_ctrl_impl.set_rx_gain MAGNESIUM_DEFAULT_GAIN chan
  (snd (radio_ctrl_impl.set_rx_frequency MAGNESIUM_CENTER_FREQ chan b))))))).

Definition tx_defaults (chan : N) (b : radio_ctrl_impl.t)
  : radio_ctrl_impl.t :=
  snd (radio_ctrl_impl.set_tx_antenna MAGNESIUM_DEFAULT_TX_ANTENNA chan
  (snd (radio_ctrl_impl.set_tx_gain MAGNESIUM_DEFAULT_GAIN chan
  (snd (radio_ctrl_impl.set_tx_frequency MAGNESIUM_CENTER_FREQ chan b))))).

(** The base state after [count] rounds of such a loop that starts at
    channel [i]. *)
Fixpoint base_loop (count : nat) (i : N)
    (step : N -> radio_ctrl_impl.t -> radio_ctrl_impl.t)
    (b : radio_ctrl_impl.t) : radio_ctrl_impl.t :=
  match count with
  | O => b
  | S count' => base_loop count' (size_t_add i 1) step (step i b)
  end.

(** The sample block against the unreachable firmware, client attached. *)
Definition unreachable_attached : outcome unit * radio :=
  set_rpc_client (Some (RpcClient "token")) []
    (snd (magnesium_radio_ctrl_impl (fresh sample_env Unreachable))).

(** A node that holds a value and has no hook. *)
Definition plain_node (v : property_tree.value) : property_tree.node :=
  property_tree.Node (property_tree.type_of v) (Some v) None None [].

(** The nodes [add_frontend] creates for channel 0 of one direction of the
    block in [slot], read off the body of the constructor's loop: [fe] and
    [ant] are the entries of the vectors of that name, [dir] the entry of
    [dir], and [is_rx] tells whether [fe_idx == RX_IDX]. *)
Definition direction_nodes (slot fe ant : string) (dir : direction_t)
    (is_rx : bool) : list (string * property_tree.node) :=
  let fe_path := "dboards" // slot // fe // "0" in
  [ (fe_path // "name",
     plain_node (property_tree.v_string ("Magnesium " +:+ ant +:+ " 0")));
    (fe_path // "connection", plain_node (property_tree.v_string "IQ"));
    (fe_path // "antenna" // "value",
     property_tree.Node property_tree.t_string
       (Some (property_tree.v_string (ant +:+ "1"))) None
       (Some (publish_antenna 0 dir)) [subscribe_antenna 0 dir]);
    (fe_path // "antenna" // "options",
     plain_node (property_tree.v_strings [ant +:+ "1"]));
    (fe_path // "freq" // "value",
     property_tree.Node property_tree.t_double
       (Some (property_tree.v_double MAGNESIUM_CENTER_FREQ))
       (Some (coerce_frequency 0 dir)) (Some (publish_frequency 0 dir)) []);
    (fe_path // "freq" // "range",
     plain_node (property_tree.v_meta_range
                   MAGNESIUM_MIN_FREQ MAGNESIUM_MAX_FREQ 0));
    (fe_path // "gains" // "null" // "value",
     property_tree.Node property_tree.t_double
       (Some (property_tree.v_double MAGNESIUM_DEFAULT_GAIN))
       (Some (coerce_gain 0 dir)) (Some (publish_gain 0 dir)) []);
    (fe_path // "gains" // "null" // "range",
     plain_node
       (if is_rx
        then property_tree.v_meta_range MAGNESIUM_MIN_RX_GAIN
               MAGNESIUM_MAX_RX_GAIN MAGNESIUM_RX_GAIN_STEP
        else property_tree.v_meta_range MAGNESIUM_MIN_TX_GAIN
               MAGNESIUM_MAX_TX_GAIN MAGNESIUM_TX_GAIN_STEP));
    (fe_path // "bandwidth" // "value",
     if is_rx
     then property_tree.Node property_tree.t_double
            (Some (property_tree.v_double MAGNESIUM_DEFAULT_BANDWIDTH))
            (Some (coerce_rx_bandwidth 0)) (Some (publish_rx_bandwidth 0)) []
     else plain_node (property_tree.v_double MAGNESIUM_DEFAULT_BANDWIDTH));
    (fe_path // "bandwidth" // "range",
     plain_node (property_tree.v_meta_range MAGNESIUM_DEFAULT_BANDWIDTH
                   MAGNESIUM_DEFAULT_BANDWIDTH 0)) ].

Definition frontend_nodes (slot : string)
  : list (string * property_tree.node) :=
  direction_nodes slot "rx_frontends" "RX" RX_DIRECTION true
  ++ direction_nodes slot "tx_frontends" "TX" TX_DIRECTION false.

(** The tree holds each of the listed nodes at its path. *)
Definition holds_nodes (t : gmap string property_tree.node)
    (l : list (string * property_tree.node)) : Prop :=
  Forall (fun qn => t !! fst qn = Some (snd qn)) l.

(** What the constructor leaves on a fresh object [fresh e f] of the block
    in [slot]: the members set, no client and no call, the frontend nodes
    with their hooks, and the EEPROM node, still without hooks. *)
Definition block_built {fw : Type} (e : block_env) (f : fw) (slot : string)
    (r : @radio fw) : Prop :=
  ["A"; "B"; "C"; "D"] !! N.to_nat (block_count e) = Some slot /\
  env r = e /\
  _radio_slot r = slot /\
  _rpc_prefix r = (if block_count e mod 2 =? 0 then "db_0_" else "db_1_") /\
  _rpcc r = None /\ _block_args r = [] /\
  rpc_trace r = [] /\ firmware r = f /\
  holds_nodes (_tree r) (frontend_nodes slot) /\
  _tree r !! (root_path e // "eeprom")
    = Some (plain_node (property_tree.v_eeprom [])).

(** The directory name of a direction's frontends, as [_get_fe_path] and
    the [fe] vector of the constructor spell it. *)
Definition frontends_of (dir : direction_t) : string :=
  match dir with
  | RX_DIRECTION => "rx_frontends"
  | _ => "tx_frontends"
  end.

(** A second block, in slot B, on the tree the sample block left behind
    (the blocks of a device share one tree), in which the tick rate has been
    set to 100 MHz in the meantime; the constructor has run up to the end of
    the frontend loop. *)
Definition second_block : @radio lo_firmware :=
  snd (bind init_members (fun _ => add_frontends)
         (with_tree
            (_tree (snd (tree_set "tick_rate" (property_tree.v_double 100e6)
                           (snd constructed))))
            (fresh sample_env_B lo_initial))).

(** * Properties *)

(** ** Hardware identifiers *)

Lemma valid_frontend_cases dir chan :
  valid_frontend dir chan ->
  (dir = RX_DIRECTION /\ chan = 0) \/ (dir = RX_DIRECTION /\ chan = 1) \/
  (dir = TX_DIRECTION /\ chan = 0) \/ (dir = TX_DIRECTION /\ chan = 1).
Proof. intros [[-> | ->] [-> | ->]]; tauto. Qed.

(** Case analysis on a valid frontend. *)
Ltac frontend_cases Hv :=
  destruct (valid_frontend_cases _ _ Hv)
    as [[-> ->] | [[-> ->] | [[-> ->] | [-> ->]]]].

Lemma get_which_valid dir chan :
  valid_frontend dir chan -> exists which, _get_which dir chan = Ok which.
Proof. intros Hv. frontend_cases Hv; eexists; reflexivity. Qed.

Lemma get_which_invalid dir chan :
  ~ valid_frontend dir chan ->
  exists cond, _get_which dir chan = Throw (assertion_error cond).
Proof.
  intros Hn. unfold _get_which, UHD_ASSERT_THROW.
  destruct dir; simpl; try (eexists; reflexivity).
  all: destruct (chan =? 0) eqn:E0; destruct (chan =? 1) eqn:E1; simpl;
    try (eexists; reflexivity).
  all: exfalso; apply Hn; unfold valid_frontend;
    try apply N.eqb_eq in E0; try apply N.eqb_eq in E1; auto.
Qed.

Lemma get_which_injective d1 c1 d2 c2 :
  valid_frontend d1 c1 -> valid_frontend d2 c2 ->
  _get_which d1 c1 = _get_which d2 c2 -> d1 = d2 /\ c1 = c2.
Proof.
  intros H1 H2 E. frontend_cases H1; frontend_cases H2;
    vm_compute in E; (discriminate E || (split; reflexivity)).
Qed.

(** C2: on the valid (direction, channel) pairs the derivation of the
    hardware identifier takes the four values RX1, RX2, TX1, TX2, it is
    injective there, and the four strings are exactly its values. *)
Theorem get_which_bijective :
  _get_which RX_DIRECTION 0 = Ok "RX1" /\
  _get_which RX_DIRECTION 1 = Ok "RX2" /\
  _get_which TX_DIRECTION 0 = Ok "TX1" /\
  _get_which TX_DIRECTION 1 = Ok "TX2" /\
  (forall d1 c1 d2 c2,
      valid_frontend d1 c1 -> valid_frontend d2 c2 ->
      _get_which d1 c1 = _get_which d2 c2 -> d1 = d2 /\ c1 = c2) /\
  (forall s,
      s ∈ ["RX1"; "RX2"; "TX1"; "TX2"] <->
      exists d c, valid_frontend d c /\ _get_which d c = Ok s).
Proof.
  do 4 (split; [reflexivity |]).
  split; [exact get_which_injective |].
  intros s. split.
  - intros Hs. unfold valid_frontend.
    repeat (apply elem_of_cons in Hs as [-> | Hs]).
    + exists RX_DIRECTION, 0; auto.
    + exists RX_DIRECTION, 1; auto.
    + exists TX_DIRECTION, 0; auto.
    + exists TX_DIRECTION, 1; auto.
    + inversion Hs.
  - intros (d & c & Hv & Hw).
    frontend_cases Hv; vm_compute in Hw; injection Hw as <-; set_solver.
Qed.

Lemma get_which_bijective_witness :
  exists d c, valid_frontend d c /\ _get_which d c = Ok "TX2".
Proof.
  apply (proj1 (proj2 (proj2 (proj2 (proj2 (proj2 get_which_bijective))))
                  "TX2")).
  do 3 apply list_elem_of_further. apply list_elem_of_here.
Defined.

(** ** Channel and frontend name *)

Lemma to_string_shape n :
  exists c rest, to_string n = String c rest /\ c <> "-"%char /\ c <> "+"%char.
Proof.
  unfold to_string.
  assert (Hnn : N.to_uint n <> Decimal.Nil).
  { destruct n; simpl; [discriminate | apply DecimalPos.Unsigned.to_uint_nonnil]. }
  destruct (N.to_uint n); try congruence; simpl;
    eexists _, _; (split; [reflexivity | split; discriminate]).
Qed.

Lemma lexical_cast_to_string n :
  n < SIZE_MAX_plus_1 -> lexical_cast_size_t (to_string n) = Ok n.
Proof.
  intros Hn. destruct (to_string_shape n) as (c & rest & E & Hm & Hp).
  unfold lexical_cast_size_t. rewrite E.
  assert (Hparse : NilEmpty.uint_of_string (String c rest) = Some (N.to_uint n)).
  { rewrite <- E. apply NilEmpty.usu. }
  destruct c as [[] [] [] [] [] [] [] []]; try congruence;
    rewrite Hparse, DecimalN.Unsigned.of_to;
    apply N.ltb_lt in Hn; rewrite Hn; reflexivity.
Qed.

(** C9: a channel index (a [size_t]) turned into its frontend name and back
    is the same index, for either direction. *)
Theorem chan_fe_roundtrip (chan : N) (dir : direction_t) :
  chan < SIZE_MAX_plus_1 ->
  get_chan_from_dboard_fe (get_dboard_fe_from_chan chan dir) dir = Ok chan.
Proof.
  intros Hn. unfold get_chan_from_dboard_fe, get_dboard_fe_from_chan.
  now apply lexical_cast_to_string.
Qed.

Lemma chan_fe_roundtrip_witness :
  get_chan_from_dboard_fe (get_dboard_fe_from_chan 17 TX_DIRECTION)
    TX_DIRECTION = Ok 17.
Proof. apply (chan_fe_roundtrip 17 TX_DIRECTION). reflexivity. Defined.

(** ** The AD9371 controls against an arbitrary firmware *)
Section RadioProperties.

Context {fw : Type} `{Firmware fw}.

Implicit Types (r R : @radio fw) (c : rpc_client).

Lemma only_logged_refl r : only_logged r r.
Proof. repeat split. Qed.

Lemma only_logged_with_log e r : only_logged r (with_log e r).
Proof. repeat split. Qed.

Lemma request_run r c name args :
  _rpcc r = Some c ->
  request_with_token name args r =
    let call := RpcCall (token c) name args in
    let served := fw_serve (firmware r) call in
    (match fst served with
     | inl what => Throw (rpc_failure what)
     | inr v => Ok v
     end, with_firmware (snd served) call r).
Proof.
  intros Hc. unfold request_with_token. rewrite Hc. simpl.
  destruct (fw_serve _ _) as [[what | v] f]; reflexivity.
Qed.

Ltac run_myk Hc W :=
  unfold _myk_set_frequency, _myk_get_frequency, _myk_set_gain, _myk_get_gain,
    bind, lift, gets, UHD_LOG, modify, as_double, ret, throw, round_trip;
  rewrite W; simpl;
  rewrite request_run with (c := _) by exact Hc; simpl;
  destruct (fw_serve _ _) as [[what | [d | m |]] f]; simpl;
  repeat split.

Lemma set_frequency_run r c freq chan dir which :
  _rpcc r = Some c -> _get_which dir chan = Ok which ->
  round_trip
    (RpcCall (token c) (_rpc_prefix r +:+ "set_freq")
       [arg_str which; arg_double freq; arg_bool false])
    double_of_reply r (_myk_set_frequency freq chan dir r).
Proof. intros Hc W. run_myk Hc W. Qed.

Lemma get_frequency_run r c chan dir which :
  _rpcc r = Some c -> _get_which dir chan = Ok which ->
  round_trip
    (RpcCall (token c) (_rpc_prefix r +:+ "get_freq") [arg_str which])
    double_of_reply r (_myk_get_frequency chan dir r).
Proof. intros Hc W. run_myk Hc W. Qed.

Lemma set_gain_run r c gain chan dir which :
  _rpcc r = Some c -> _get_which dir chan = Ok which ->
  round_trip
    (RpcCall (token c) (_rpc_prefix r +:+ "set_gain")
       [arg_str which; arg_double gain])
    double_of_reply r (_myk_set_gain gain chan dir r).
Proof. intros Hc W. run_myk Hc W. Qed.

Lemma get_gain_run r c chan dir which :
  _rpcc r = Some c -> _get_which dir chan = Ok which ->
  round_trip
    (RpcCall (token c) (_rpc_prefix r +:+ "get_gain") [arg_str which])
    double_of_reply r (_myk_get_gain chan dir r).
Proof. intros Hc W. run_myk Hc W. Qed.


Lemma tree_access_found r path n :
  _tree r !! path = Some n ->
  tree_access path (property_tree.n_type n) r = (Ok n, r).
Proof.
  intros Hn. unfold tree_access, bind, gets, lift, property_tree.access.
  rewrite Hn. destruct (decide _) as [_ | Hne]; [reflexivity | congruence].
Qed.

(** The identifier of a valid frontend, spelled out: the name of the
    direction followed by the channel plus one. *)
Lemma get_which_of_valid dir chan :
  valid_frontend dir chan ->
  _get_which dir chan
    = Ok ((match dir with RX_DIRECTION => "RX" | _ => "TX" end)
            +:+ to_string (chan + 1)).
Proof. intros Hv. frontend_cases Hv; reflexivity. Qed.

(** C8: for a valid frontend and an attached client, [_myk_set_frequency]
    derives the identifier from (direction, channel), RX or TX followed by
    the channel plus one, issues the one call
    [<prefix>set_freq (identifier, freq, false)] and returns what the call
    returns; a coerced frequency reported by the firmware comes back
    unchanged. *)
Theorem set_frequency_issues_set_freq r c freq chan dir :
  _rpcc r = Some c -> valid_frontend dir chan ->
  let which := (match dir with RX_DIRECTION => "RX" | _ => "TX" end)
                 +:+ to_string (chan + 1) in
  let call := RpcCall (token c) (_rpc_prefix r +:+ "set_freq")
                [arg_str which; arg_double freq; arg_bool false] in
  let res := _myk_set_frequency freq chan dir r in
  _get_which dir chan = Ok which /\
  round_trip call double_of_reply r res /\
  (forall coerced,
      fst (fw_serve (firmware r) call) = inr (val_double coerced) ->
      fst res = Ok coerced).
Proof.
  intros Hc Hv. cbv zeta.
  pose proof (get_which_of_valid dir chan Hv) as W.
  split; [exact W |].
  pose proof (set_frequency_run r c freq chan dir _ Hc W) as Hrun.
  split; [exact Hrun |].
  intros coerced Hreply. destruct Hrun as [Hres _].
  rewrite Hres, Hreply. reflexivity.
Qed.

(** A read of a node whose publisher is the frequency lambda of a frontend
    is one round trip of [get_freq], whatever the node stores. *)
Lemma frequency_node_read_run r c path n chan dir which :
  _rpcc r = Some c -> _get_which dir chan = Ok which ->
  _tree r !! path = Some n ->
  property_tree.n_type n = property_tree.t_double ->
  property_tree.n_publisher n = Some (publish_frequency chan dir) ->
  round_trip
    (RpcCall (token c) (_rpc_prefix r +:+ "get_freq") [arg_str which])
    value_of_reply r (tree_get path property_tree.t_double r).
Proof.
  intros Hc W Hn Hty Hpub.
  pose proof (get_frequency_run r c chan dir which Hc W) as Hrun.
  unfold tree_get, bind. rewrite <- Hty, (tree_access_found _ _ _ Hn).
  rewrite Hpub. unfold run_publisher, bind, value_of_reply, round_trip.
  destruct Hrun as (Hres & Hfw & Htr & Hobj). rewrite <- Hres.
  destruct (_myk_get_frequency chan dir r) as [[d | e] r']; simpl in *;
    repeat split; assumption || apply Hobj.
Qed.

(** C3, as the code has it: a frequency or gain operation on an invalid
    (direction, channel) fails on the assertion of [_get_which], before any
    logging or remote call, and leaves the object as it was; the antenna and
    bandwidth operations check nothing and succeed for any channel and
    direction. *)
Theorem invalid_frontend_rejected r dir chan :
  ~ valid_frontend dir chan ->
  (forall freq,
      fails_with InvalidArgument (fst (_myk_set_frequency freq chan dir r)) /\
      snd (_myk_set_frequency freq chan dir r) = r) /\
  (fails_with InvalidArgument (fst (_myk_get_frequency chan dir r)) /\
   snd (_myk_get_frequency chan dir r) = r) /\
  (forall gain,
      fails_with InvalidArgument (fst (_myk_set_gain gain chan dir r)) /\
      snd (_myk_set_gain gain chan dir r) = r) /\
  (fails_with InvalidArgument (fst (_myk_get_gain chan dir r)) /\
   snd (_myk_get_gain chan dir r) = r) /\
  (forall ant, fst (_myk_set_antenna ant chan dir r) = Ok tt) /\
  fst (_myk_get_antenna chan dir r) = Ok "RX1" /\
  (forall bw,
      fst (_myk_set_bandwidth bw chan dir r) = Ok MAGNESIUM_DEFAULT_BANDWIDTH) /\
  fst (_myk_get_bandwidth chan dir r) = Ok MAGNESIUM_DEFAULT_BANDWIDTH.
Proof.
  intros Hn. destruct (get_which_invalid _ _ Hn) as [cond W].
  unfold _myk_set_frequency, _myk_get_frequency, _myk_set_gain, _myk_get_gain,
    bind, lift. rewrite W. simpl.
  assert (Hf : forall A, fails_with InvalidArgument
                           (@Throw A (assertion_error cond))).
  { intros A. eexists. split; reflexivity. }
  repeat split; try apply Hf.
Qed.

(** C4, as the code has it: before [set_rpc_client] has attached a client,
    a frequency or gain operation on a valid frontend stops at the empty
    [_rpcc]; that is not a missing-token error, no call reaches the
    firmware, and the object is unchanged apart from the trace log.  A
    write to a property node coerced by the frequency lambda stops the same
    way and stores nothing. *)
Theorem no_client_no_rpc r dir chan :
  _rpcc r = None -> valid_frontend dir chan ->
  (forall freq,
      fst (_myk_set_frequency freq chan dir r) = Throw null_rpc_client /\
      only_logged r (snd (_myk_set_frequency freq chan dir r))) /\
  (fst (_myk_get_frequency chan dir r) = Throw null_rpc_client /\
   only_logged r (snd (_myk_get_frequency chan dir r))) /\
  (forall gain,
      fst (_myk_set_gain gain chan dir r) = Throw null_rpc_client /\
      only_logged r (snd (_myk_set_gain gain chan dir r))) /\
  (fst (_myk_get_gain chan dir r) = Throw null_rpc_client /\
   only_logged r (snd (_myk_get_gain chan dir r))) /\
  (forall path n freq,
      _tree r !! path = Some n ->
      property_tree.n_type n = property_tree.t_double ->
      property_tree.n_coercer n = Some (coerce_frequency chan dir) ->
      fst (tree_set path (property_tree.v_double freq) r)
        = Throw null_rpc_client /\
      only_logged r (snd (tree_set path (property_tree.v_double freq) r))) /\
  ~ fails_with NoSessionToken (@Throw unit null_rpc_client).
Proof.
  intros Hc Hv. destruct (get_which_valid _ _ Hv) as [which W].
  assert (Hset : forall freq,
      fst (_myk_set_frequency freq chan dir r) = Throw null_rpc_client /\
      only_logged r (snd (_myk_set_frequency freq chan dir r))).
  { intros freq.
    unfold _myk_set_frequency, bind, lift, gets, UHD_LOG, modify,
      request_with_token.
    rewrite W. simpl. rewrite Hc. simpl. split; [reflexivity |].
    apply only_logged_with_log. }
  split; [exact Hset |].
  split; [| split; [| split; [| split]]].
  - unfold _myk_get_frequency, bind, lift, gets, UHD_LOG, modify,
      request_with_token.
    rewrite W. simpl. rewrite Hc. simpl. split; [reflexivity |].
    apply only_logged_with_log.
  - intros gain.
    unfold _myk_set_gain, bind, lift, gets, UHD_LOG, modify,
      request_with_token.
    rewrite W. simpl. rewrite Hc. simpl. split; [reflexivity |].
    apply only_logged_with_log.
  - unfold _myk_get_gain, bind, lift, gets, UHD_LOG, modify,
      request_with_token.
    rewrite W. simpl. rewrite Hc. simpl. split; [reflexivity |].
    apply only_logged_with_log.
  - intros path n freq Hn Hty Hco.
    unfold tree_set, bind.
    change (property_tree.type_of (property_tree.v_double freq))
      with property_tree.t_double.
    rewrite <- Hty, (tree_access_found _ _ _ Hn), Hco.
    unfold run_coercer, bind.
    destruct (Hset freq) as [E L].
    destruct (_myk_set_frequency freq chan dir r) as [[d | e] r'];
      simpl in *; [congruence | split; [congruence | exact L]].
  - intros (e & He & Hk). injection He as <-. discriminate.
Qed.


(** ** Antenna and bandwidth: the unimplemented controls *)

(** C6: whatever antenna is written, for any channel and direction,
    [_myk_set_antenna] returns normally, records the warning that the
    attempt is ignored and changes nothing else; the antenna read after it
    gives what it gave before, the fixed receive identifier RX1, so writing
    RX2 and reading back does not give RX2. *)
Theorem set_antenna_is_ignored r ant chan dir :
  let res := _myk_set_antenna ant chan dir r in
  fst res = Ok tt /\
  log (snd res) =
    (log r ++ [LogEntry WARNING "MAGNESIUM"
                 [txt "Ignoring attempt to set antenna"]])%list /\
  only_logged r (snd res) /\
  (forall chan' dir',
      fst (_myk_get_antenna chan' dir' (snd res)) = Ok "RX1" /\
      fst (_myk_get_antenna chan' dir' (snd res))
        = fst (_myk_get_antenna chan' dir' r)) /\
  fst (get_rx_antenna chan (snd (set_rx_antenna "RX2" chan r))) <> Ok "RX2".
Proof.
  cbv zeta. repeat split. discriminate.
Qed.

(** C7: whatever bandwidth is written, for any channel, [_myk_set_bandwidth]
    returns a value, namely the default of 40 MHz, and every bandwidth read,
    after the write or at any other time, returns that same default. *)
Theorem bandwidth_is_fixed r bw chan dir :
  MAGNESIUM_DEFAULT_BANDWIDTH = 40000000%float /\
  let res := _myk_set_bandwidth bw chan dir r in
  fst res = Ok MAGNESIUM_DEFAULT_BANDWIDTH /\
  only_logged r (snd res) /\
  (forall chan' dir',
      fst (_myk_get_bandwidth chan' dir' (snd res))
        = Ok MAGNESIUM_DEFAULT_BANDWIDTH) /\
  (forall r' chan' dir',
      fst (_myk_get_bandwidth chan' dir' r') = Ok MAGNESIUM_DEFAULT_BANDWIDTH) /\
  fst (set_rx_bandwidth bw chan r) = Ok MAGNESIUM_DEFAULT_BANDWIDTH /\
  (forall chan',
      fst (get_rx_bandwidth chan' (snd (set_rx_bandwidth bw chan r)))
        = Ok MAGNESIUM_DEFAULT_BANDWIDTH).
Proof.
  cbv zeta. repeat split.
Qed.

(** ** Bring-up *)

Lemma init_defaults_run r :
  num_output_ports (env r) = 1 -> num_input_ports (env r) = 1 ->
  exists lg,
  _init_defaults r =
    (Ok tt,
     Radio (env r)
       (radio_ctrl_impl.Build MAGNESIUM_TICK_RATE
          (<[0:=MAGNESIUM_CENTER_FREQ]> (radio_ctrl_impl._rx_freq (base r)))
          (<[0:=MAGNESIUM_CENTER_FREQ]> (radio_ctrl_impl._tx_freq (base r)))
          (<[0:=MAGNESIUM_DEFAULT_GAIN]> (radio_ctrl_impl._rx_gain (base r)))
          (<[0:=MAGNESIUM_DEFAULT_GAIN]> (radio_ctrl_impl._tx_gain (base r)))
          (<[0:=MAGNESIUM_DEFAULT_RX_ANTENNA]>
             (radio_ctrl_impl._rx_antenna (base r)))
          (<[0:=MAGNESIUM_DEFAULT_TX_ANTENNA]>
             (radio_ctrl_impl._tx_antenna (base r)))
          (<[0:=MAGNESIUM_DEFAULT_BANDWIDTH]>
             (radio_ctrl_impl._rx_bandwidth (base r))))
       (_radio_slot r) (_rpc_prefix r) (_rpcc r) (_block_args r) (_tree r)
       (firmware r) (rpc_trace r) lg).
Proof.
  intros Hrx Htx. eexists.
  unfold _init_defaults, for_upto, bind, gets, UHD_LOG, modify, in_base, ret.
  cbn -[MAGNESIUM_TICK_RATE MAGNESIUM_CENTER_FREQ MAGNESIUM_DEFAULT_GAIN
        MAGNESIUM_DEFAULT_BANDWIDTH PrimFloat.div insert].
  rewrite Hrx, Htx. change (N.to_nat 1) with 1%nat.
  cbn -[MAGNESIUM_TICK_RATE MAGNESIUM_CENTER_FREQ MAGNESIUM_DEFAULT_GAIN
        MAGNESIUM_DEFAULT_BANDWIDTH PrimFloat.div insert].
  reflexivity.
Qed.

Lemma setters_need_client r :
  num_output_ports (env r) = 1 -> _rpcc r = None ->
  fst (init_defaults_through_setters r) = Throw null_rpc_client.
Proof.
  intros Hrx Hc.
  unfold init_defaults_through_setters, for_upto, bind, gets.
  rewrite Hrx. change (N.to_nat 1) with 1%nat. cbn [for_loop].
  unfold bind, set_rx_frequency, _myk_set_frequency, bind, lift, gets,
    UHD_LOG, modify, request_with_token.
  simpl. rewrite Hc. reflexivity.
Qed.

(** C5, as the code has it: bring-up with one RX and one TX channel records
    frequency 2.5e9 Hz, gain 0.0 dB, RX antenna RX2, TX antenna TX/RX and RX
    bandwidth 4e7 Hz for channel 0 by calling the setters of the base class.
    Those calls succeed with no client attached, reach neither the firmware
    nor the property tree, and are not the [set_*] operations of this class:
    pushed through these, the same defaults would stop at the empty
    [_rpcc]. *)
Theorem init_defaults_bypass_setters r :
  num_output_ports (env r) = 1 -> num_input_ports (env r) = 1 ->
  let res := _init_defaults r in
  let b := base (snd res) in
  fst res = Ok tt /\
  radio_ctrl_impl._rx_freq b !! 0 = Some 2500000000%float /\
  radio_ctrl_impl._tx_freq b !! 0 = Some 2500000000%float /\
  radio_ctrl_impl._rx_gain b !! 0 = Some 0%float /\
  radio_ctrl_impl._tx_gain b !! 0 = Some 0%float /\
  radio_ctrl_impl._rx_antenna b !! 0 = Some "RX2" /\
  radio_ctrl_impl._tx_antenna b !! 0 = Some "TX/RX" /\
  radio_ctrl_impl._rx_bandwidth b !! 0 = Some 40000000%float /\
  rpc_trace (snd res) = rpc_trace r /\
  firmware (snd res) = firmware r /\
  _tree (snd res) = _tree r /\
  _rpcc (snd res) = _rpcc r /\
  (_rpcc r = None ->
   fst (init_defaults_through_setters r) = Throw null_rpc_client).
Proof.
  intros Hrx Htx. cbv zeta.
  destruct (init_defaults_run r Hrx Htx) as [lg ->]. simpl.
  repeat split; try apply lookup_insert_eq.
  now apply setters_need_client.
Qed.

(** C10: the antenna read returns the string RX1 for every channel and for
    every direction, the transmit one included, and never fails; this is so
    in particular right after bring-up has recorded TX/RX as the default
    transmit antenna. *)
Theorem get_antenna_is_RX1 r chan dir :
  fst (_myk_get_antenna chan dir r) = Ok "RX1" /\
  only_logged r (snd (_myk_get_antenna chan dir r)) /\
  fst (get_rx_antenna chan r) = Ok "RX1" /\
  fst (get_tx_antenna chan r) = Ok "RX1" /\
  (num_output_ports (env r) = 1 -> num_input_ports (env r) = 1 ->
   let r1 := snd (_init_defaults r) in
   radio_ctrl_impl._tx_antenna (base r1) !! 0
     = Some MAGNESIUM_DEFAULT_TX_ANTENNA /\
   MAGNESIUM_DEFAULT_TX_ANTENNA = "TX/RX" /\
   fst (get_tx_antenna chan r1) = Ok "RX1").
Proof.
  do 4 (split; [repeat split |]).
  intros Hrx Htx. cbv zeta.
  destruct (init_defaults_run r Hrx Htx) as [lg ->]. simpl.
  repeat split. apply lookup_insert_eq.
Qed.

(** ** The constructor on a fresh object *)

Lemma has_suffix_app suffix p : has_suffix suffix (p +:+ suffix) = true.
Proof.
  induction p as [| a p IH].
  - change ("" +:+ suffix) with suffix.
    destruct suffix; cbn [has_suffix]; rewrite String.eqb_refl; reflexivity.
  - change (has_suffix suffix (String a p +:+ suffix))
      with (if String.eqb (String a (p +:+ suffix)) suffix then true
            else has_suffix suffix (p +:+ suffix)).
    rewrite IH. destruct (String.eqb _ _); reflexivity.
Qed.

Lemma eeprom_path_suffix (root : string) :
  has_suffix "/eeprom" (root // "eeprom") = true.
Proof.
  unfold fs_slash. change ("/" +:+ "eeprom") with "/eeprom".
  apply has_suffix_app.
Qed.

Lemma eeprom_path_ne (root c : string) :
  has_suffix "/eeprom" c = false -> root // "eeprom" <> c.
Proof. intros Hc <-. rewrite eeprom_path_suffix in Hc. discriminate. Qed.

Lemma eeprom_path_fresh (root : string)
    (T : gmap string property_tree.node) :
  map_Forall (fun k _ => has_suffix "/eeprom" k = false) T ->
  T !! (root // "eeprom") = None.
Proof.
  intros HT.
  destruct (T !! (root // "eeprom")) as [n |] eqn:E; [| reflexivity].
  apply HT in E. rewrite eeprom_path_suffix in E. discriminate.
Qed.

Lemma create_fresh ty path r :
  _tree r !! path = None ->
  tree_create ty path r
    = (Ok tt,
       with_tree (<[path := property_tree.Node ty None None None []]>
                    (_tree r)) r).
Proof.
  intros Hn.
  unfold tree_create, bind, gets, lift, modify, property_tree.create.
  rewrite Hn. reflexivity.
Qed.

Lemma create_and_set_fresh path v r :
  _tree r !! path = None ->
  create_and_set path v r
    = (Ok tt,
       with_tree (<[path := property_tree.Node (property_tree.type_of v)
                              (Some v) None None []]> (_tree r)) r).
Proof.
  intros Hn. unfold create_and_set, bind. rewrite (create_fresh _ _ _ Hn).
  unfold tree_set, bind.
  rewrite (tree_access_found _ path
             (property_tree.Node (property_tree.type_of v)
                None None None []))
    by (cbn [_tree with_tree]; apply lookup_insert_eq).
  cbn [property_tree.n_coercer property_tree.n_subscribers
       notify_subscribers].
  unfold ret, modify, property_tree.store. cbn [_tree with_tree].
  rewrite alter_insert_eq. reflexivity.
Qed.

(** A path that is free in the tree stays free when another one is
    inserted. *)
Ltac still_free :=
  cbn [_tree with_tree];
  repeat (rewrite lookup_insert_ne by set_solver);
  assumption.

(** The last part of the constructor, on a tree in which none of the paths
    it creates exists yet. *)
Lemma add_eeprom_and_codecs_run r :
  let created :=
    (root_path (env r) // "eeprom") :: codec_paths (_radio_slot r) in
  Forall (fun q => _tree r !! q = None) created -> NoDup created ->
  exists t',
    add_eeprom_and_codecs r = (Ok tt, with_tree t' r) /\
    forall q, q ∉ created -> t' !! q = _tree r !! q.
Proof.
  cbv zeta. unfold codec_paths. intros Hnone Hnd.
  apply Forall_cons in Hnone as [Hp Hnone].
  apply Forall_cons in Hnone as [Hrg Hnone].
  apply Forall_cons in Hnone as [Htg Hnone].
  apply Forall_cons in Hnone as [Hrn Hnone].
  apply Forall_cons in Hnone as [Htn Hnone].
  apply Forall_cons in Hnone as [Htick _].
  repeat (apply NoDup_cons in Hnd as [? Hnd]).
  unfold add_eeprom_and_codecs, bind, gets, tree_exists.
  rewrite create_and_set_fresh by assumption.
  rewrite create_fresh by still_free.
  rewrite create_fresh by still_free.
  rewrite create_and_set_fresh by still_free.
  rewrite create_and_set_fresh by still_free.
  unfold gets. cbn [_tree with_tree].
  rewrite bool_decide_eq_false_2.
  2:{ repeat (rewrite lookup_insert_ne by set_solver).
      rewrite Htick. intros [n Hn]. discriminate Hn. }
  cbn [negb].
  rewrite create_and_set_fresh by still_free.
  eexists. split; [reflexivity |].
  intros q Hq. cbn [_tree with_tree].
  repeat (rewrite lookup_insert_ne by set_solver). reflexivity.
Qed.

Ltac decide_by_computation :=
  apply (bool_decide_unpack _); vm_compute; exact I.

Ltac slot_cases Hin :=
  repeat (apply elem_of_cons in Hin as [-> | Hin]); [.. | inversion Hin].

(** The same, on a tree that holds frontends only: no path in it ends in
    [/eeprom], whatever the root path of the block is. *)
Lemma constructor_tail_run R (slot : string) :
  _radio_slot R = slot ->
  slot ∈ ["A"; "B"; "C"; "D"] ->
  map_Forall (fun k _ => has_suffix "/eeprom" k = false) (_tree R) ->
  Forall (fun q => _tree R !! q = None) (codec_paths slot) ->
  exists t',
    add_eeprom_and_codecs R = (Ok tt, with_tree t' R) /\
    forall q,
      has_suffix "/eeprom" q = false -> q ∉ codec_paths slot ->
      t' !! q = _tree R !! q.
Proof.
  intros Hslot Hin Hsuffix Hnone.
  destruct (add_eeprom_and_codecs_run R) as (t' & Hrun & Hkept).
  - cbv zeta. rewrite Hslot. apply Forall_cons. split; [| exact Hnone].
    apply eeprom_path_fresh, Hsuffix.
  - cbv zeta. rewrite Hslot. clear Hslot Hnone. slot_cases Hin.
    all: apply NoDup_cons; split; [| decide_by_computation].
    all: unfold codec_paths; rewrite !not_elem_of_cons; repeat split;
      try (apply eeprom_path_ne; vm_compute; reflexivity).
    all: apply not_elem_of_nil.
  - exists t'. split; [exact Hrun |].
    intros q Hq Hnot. apply Hkept. cbv zeta. rewrite Hslot.
    apply not_elem_of_cons. split; [| exact Hnot].
    intros ->. rewrite eeprom_path_suffix in Hq. discriminate.
Qed.

Lemma frontends_added_kept R f count slot t' :
  slot ∈ ["A"; "B"; "C"; "D"] ->
  frontends_added f count slot R ->
  (forall q,
      has_suffix "/eeprom" q = false -> q ∉ codec_paths slot ->
      t' !! q = _tree R !! q) ->
  frontends_added f count slot (with_tree t' R).
Proof.
  intros Hin (Hslot & Hc & Htr & Hfw & Hpre & Hrx & Htx & Hnodes) Hkept.
  unfold frontends_added.
  cbn [_rpcc rpc_trace firmware _rpc_prefix _radio_slot _tree base with_tree].
  do 7 (split; [assumption |]). cbv zeta in *.
  destruct Hnodes as (Hn1 & Hn2 & Hn3 & Hn4).
  slot_cases Hin.
  all: rewrite !Hkept
    by first [ vm_compute; reflexivity
             | unfold codec_paths; rewrite !not_elem_of_cons; repeat split;
               first [apply not_elem_of_nil | vm_compute; discriminate] ].
  all: repeat split; assumption.
Qed.

Lemma constructor_split r0 :
  fst (bind init_members (fun _ => add_frontends) r0) = Ok tt ->
  magnesium_radio_ctrl_impl r0
    = add_eeprom_and_codecs
        (snd (bind init_members (fun _ => add_frontends) r0)).
Proof.
  unfold magnesium_radio_ctrl_impl, bind.
  destruct (init_members r0) as [[[] | e1] r1]; simpl; [| discriminate].
  destruct (add_frontends r1) as [[[] | e2] r2]; simpl; [| discriminate].
  reflexivity.
Qed.

Lemma constructor_from_frontends r0 f count slot :
  let R := snd (bind init_members (fun _ => add_frontends) r0) in
  fst (bind init_members (fun _ => add_frontends) r0) = Ok tt ->
  frontends_added f count slot R ->
  slot ∈ ["A"; "B"; "C"; "D"] ->
  map_Forall (fun k _ => has_suffix "/eeprom" k = false) (_tree R) ->
  Forall (fun q => _tree R !! q = None) (codec_paths slot) ->
  exists r',
    magnesium_radio_ctrl_impl r0 = (Ok tt, r') /\
    frontends_added f count slot r'.
Proof.
  cbv zeta. intros Hok. rewrite (constructor_split _ Hok).
  generalize (snd (bind init_members (fun _ => add_frontends) r0)).
  intros R Hadded Hin Hsuffix Hnone.
  destruct (constructor_tail_run R slot (proj1 Hadded) Hin Hsuffix Hnone)
    as (t' & Hrun & Hkept).
  exists (with_tree t' R). split; [exact Hrun |].
  now apply frontends_added_kept.
Qed.

(** Construction of any of the four blocks with one RX and one TX port, on
    an empty tree, against any firmware and under any root path: it
    succeeds, attaches no client, sends no call, and creates frequency
    nodes for channel 0 of each direction only. *)
Lemma constructor_run (e : block_env) (f : fw) :
  block_count e < 4 -> num_output_ports e = 1 -> num_input_ports e = 1 ->
  exists r' slot,
    magnesium_radio_ctrl_impl (fresh e f) = (Ok tt, r') /\
    frontends_added f (block_count e) slot r'.
Proof.
  destruct e as [count root n_out n_in].
  cbn [block_count num_output_ports num_input_ports].
  intros Hc -> ->.
  assert (Hcases : count = 0 \/ count = 1 \/ count = 2 \/ count = 3) by lia.
  destruct Hcases as [-> | [-> | [-> | ->]]].
  all: match goal with
       | |- exists r' s,
              magnesium_radio_ctrl_impl ?r0 = _ /\ frontends_added _ ?c s r' =>
         let slot := eval vm_compute in
           (_radio_slot
              (snd (bind init_members (fun _ => add_frontends) r0))) in
         destruct (constructor_from_frontends r0 f c slot) as (r' & Hr);
         [ vm_compute; reflexivity
         | vm_compute; repeat split
         | repeat first [apply list_elem_of_here | apply list_elem_of_further]
         | decide_by_computation
         | decide_by_computation
         | exists r', slot; exact Hr ]
       end.
Qed.

End RadioProperties.

(** ** The sample block *)

Example constructed_ok :
  fst constructed = Ok tt /\ _rpcc (snd constructed) = None /\
  _radio_slot (snd constructed) = "A" /\ _rpc_prefix (snd constructed) = "db_0_" /\
  rpc_trace (snd constructed) = [].
Proof. vm_compute. repeat split. Qed.

Example constructed_slot_B :
  let res := magnesium_radio_ctrl_impl (fresh sample_env_B lo_initial) in
  fst res = Ok tt /\ _radio_slot (snd res) = "B" /\
  _rpc_prefix (snd res) = "db_1_" /\
  is_Some (_tree (snd res) !! "dboards/B/tx_frontends/0/freq/value").
Proof. vm_compute. repeat split. eexists. reflexivity. Qed.

(** A fifth block has no slot letter: the index runs past the array. *)
Example constructed_no_slot :
  fst (magnesium_radio_ctrl_impl
         (fresh (BlockEnv 4 "xbar/Radio_4" 1 1) lo_initial))
    = Throw out_of_bounds.
Proof. vm_compute. reflexivity. Qed.

Example attached_ok :
  fst attached = Ok tt /\ _rpcc (snd attached) = Some (RpcClient "token").
Proof. vm_compute. repeat split. Qed.

(** The constructor makes frequency nodes for channel 0 of each direction
    only ([MAGNESIUM_NUM_RX_CHANS] and [MAGNESIUM_NUM_TX_CHANS] are 1), with
    the frequency lambdas of that frontend as coercer and publisher. *)
Example constructed_freq_nodes :
  _tree (snd constructed) !! "dboards/A/rx_frontends/0/freq/value"
    = Some (property_tree.Node property_tree.t_double
              (Some (property_tree.v_double MAGNESIUM_CENTER_FREQ))
              (Some (coerce_frequency 0 RX_DIRECTION))
              (Some (publish_frequency 0 RX_DIRECTION)) []) /\
  _tree (snd constructed) !! "dboards/A/tx_frontends/0/freq/value"
    = Some (property_tree.Node property_tree.t_double
              (Some (property_tree.v_double MAGNESIUM_CENTER_FREQ))
              (Some (coerce_frequency 0 TX_DIRECTION))
              (Some (publish_frequency 0 TX_DIRECTION)) []) /\
  _tree (snd constructed) !! "dboards/A/rx_frontends/1/freq/value" = None /\
  _tree (snd constructed) !! "dboards/A/tx_frontends/1/freq/value" = None.
Proof. vm_compute. repeat split. Qed.

(** Writing the frequency node of RX channel 0 retunes the shared LO; the
    stored value of the node plays no part in the read that follows. *)
Example tree_write_then_read :
  let path := "dboards/A/rx_frontends/0/freq/value" in
  let r1 := snd (tree_set path (property_tree.v_double 2e9) (snd attached)) in
  fst (tree_get path property_tree.t_double r1)
    = Ok (property_tree.v_double 2e9) /\
  fst (get_rx_frequency 1 r1) = Ok 2e9%float /\
  fst (get_tx_frequency 0 r1) = Ok 1e9%float /\
  rpc_method <$> rpc_trace r1 = ["db_0_set_freq"].
Proof. vm_compute. repeat split. Qed.

(** The antenna node accepts a write and still reads RX1. *)
Example tree_antenna_write_then_read :
  let path := "dboards/A/rx_frontends/0/antenna/value" in
  let res := tree_set path (property_tree.v_string "RX2") (snd attached) in
  fst res = Ok tt /\
  fst (tree_get path property_tree.t_string (snd res))
    = Ok (property_tree.v_string "RX1").
Proof. vm_compute. repeat split. Qed.

(** ** Instances of the theorems, and inputs on which the interface
    description and the code part ways *)

Lemma get_antenna_is_RX1_witness :
  fst (get_tx_antenna 0 (snd (_init_defaults (fresh sample_env lo_initial))))
    = Ok "RX1".
Proof.
  apply (proj2 (proj2 (proj2 (proj2
           (get_antenna_is_RX1 (fresh sample_env lo_initial) 0 TX_DIRECTION))))
           eq_refl eq_refl).
Defined.

Lemma set_frequency_issues_set_freq_witness :
  fst (_myk_set_frequency 2e9 1 TX_DIRECTION (snd attached)) = Ok 2e9%float /\
  rpc_trace (snd (_myk_set_frequency 2e9 1 TX_DIRECTION (snd attached)))
    = [RpcCall "token" "db_0_set_freq"
         [arg_str "TX2"; arg_double 2e9; arg_bool false]].
Proof.
  assert (Hc : _rpcc (snd attached) = Some (RpcClient "token"))
    by (vm_compute; reflexivity).
  assert (Hv : valid_frontend TX_DIRECTION 1)
    by (unfold valid_frontend; auto).
  destruct (set_frequency_issues_set_freq (snd attached) (RpcClient "token")
              2e9 1 TX_DIRECTION Hc Hv) as (_ & Hrun & Hcoerced).
  split.
  - apply Hcoerced. vm_compute. reflexivity.
  - destruct Hrun as (_ & _ & Htr & _). rewrite Htr. vm_compute. reflexivity.
Defined.

Lemma invalid_frontend_rejected_witness :
  fails_with InvalidArgument
    (fst (_myk_get_frequency 2 RX_DIRECTION (snd attached))) /\
  snd (_myk_get_frequency 2 RX_DIRECTION (snd attached)) = snd attached.
Proof.
  assert (Hn : ~ valid_frontend RX_DIRECTION 2).
  { unfold valid_frontend. intros [_ [E | E]]; discriminate E. }
  exact (proj1 (proj2 (invalid_frontend_rejected (snd attached)
                         RX_DIRECTION 2 Hn))).
Defined.

(** C3 does not hold as written: channel 2 is outside {0, 1}, and all four
    antenna and bandwidth operations return normally on it. *)
Lemma antenna_bandwidth_accept_invalid_channel :
  ~ valid_frontend RX_DIRECTION 2 /\
  ~ fails_with InvalidArgument
      (fst (_myk_set_antenna "RX2" 2 RX_DIRECTION (snd attached))) /\
  ~ fails_with InvalidArgument
      (fst (_myk_get_antenna 2 RX_DIRECTION (snd attached))) /\
  ~ fails_with InvalidArgument
      (fst (_myk_set_bandwidth 1e6 2 RX_DIRECTION (snd attached))) /\
  ~ fails_with InvalidArgument
      (fst (_myk_get_bandwidth 2 DX_DIRECTION (snd attached))).
Proof.
  split.
  - unfold valid_frontend. intros [_ [E | E]]; discriminate E.
  - repeat split; intros (e & He & _); vm_compute in He; discriminate He.
Qed.

Lemma no_client_no_rpc_witness :
  fst (_myk_get_frequency 0 RX_DIRECTION (snd constructed))
    = Throw null_rpc_client /\
  only_logged (snd constructed)
    (snd (_myk_get_frequency 0 RX_DIRECTION (snd constructed))).
Proof.
  assert (Hc : _rpcc (snd constructed) = None) by (vm_compute; reflexivity).
  assert (Hv : valid_frontend RX_DIRECTION 0) by (unfold valid_frontend; auto).
  exact (proj1 (proj2 (no_client_no_rpc (snd constructed) RX_DIRECTION 0
                         Hc Hv))).
Defined.

(** C4 does not hold as written: on the constructed block, to which no
    client has been attached yet, a frequency write to a valid frontend
    does not end in a missing-token error. *)
Lemma no_session_token_error_absent :
  _rpcc (snd constructed) = None /\
  valid_frontend RX_DIRECTION 0 /\
  ~ fails_with NoSessionToken
      (fst (set_rx_frequency 2e9 0 (snd constructed))) /\
  ~ fails_with NoSessionToken
      (fst (get_rx_frequency 0 (snd constructed))).
Proof.
  split; [vm_compute; reflexivity |].
  split; [unfold valid_frontend; auto |].
  split; intros (e & He & Hk); vm_compute in He; injection He as <-;
    discriminate Hk.
Qed.

Lemma init_defaults_bypass_setters_witness :
  fst (_init_defaults (fresh sample_env lo_initial)) = Ok tt /\
  radio_ctrl_impl._rx_freq
    (base (snd (_init_defaults (fresh sample_env lo_initial)))) !! 0
    = Some 2500000000%float.
Proof.
  destruct (init_defaults_bypass_setters (fresh sample_env lo_initial)
              eq_refl eq_refl) as (Hok & Hfreq & _).
  split; [exact Hok | exact Hfreq].
Defined.

(** C5 does not hold as written: bring-up and the same defaults pushed
    through the [set_*] operations of this class differ.  During
    construction the former succeeds where the latter cannot run, and with a
    client attached the latter sends four calls where the former sends
    none. *)
Lemma bring_up_is_not_the_setter_path :
  fst (_init_defaults (fresh sample_env lo_initial)) = Ok tt /\
  fst (init_defaults_through_setters (fresh sample_env lo_initial))
    = Throw null_rpc_client /\
  rpc_trace (snd (_init_defaults (snd attached))) = [] /\
  rpc_method <$> rpc_trace (snd (init_defaults_through_setters (snd attached)))
    = ["db_0_set_freq"; "db_0_set_gain"; "db_0_set_freq"; "db_0_set_gain"] /\
  _init_defaults (fresh sample_env lo_initial)
    <> init_defaults_through_setters (fresh sample_env lo_initial).
Proof.
  repeat split; try (vm_compute; reflexivity).
  intros E. apply (f_equal fst) in E. vm_compute in E. discriminate E.
Qed.

(** * Further properties of the code *)

(** ** Frontend names *)

Lemma to_string_inj n m : to_string n = to_string m -> n = m.
Proof.
  unfold to_string. intros E.
  apply DecimalN.Unsigned.to_uint_inj.
  assert (Es : Some (N.to_uint n) = Some (N.to_uint m)).
  { rewrite <- !NilEmpty.usu, E. reflexivity. }
  now injection Es.
Qed.

(** X1: two channels never share a frontend name, whatever the directions
    are. *)
Theorem dboard_fe_injective chan1 dir1 chan2 dir2 :
  get_dboard_fe_from_chan chan1 dir1 = get_dboard_fe_from_chan chan2 dir2 ->
  chan1 = chan2.
Proof. unfold get_dboard_fe_from_chan. apply to_string_inj. Qed.

Lemma dboard_fe_injective_witness : (1 : N) = 1.
Proof.
  apply (dboard_fe_injective 1 RX_DIRECTION 1 TX_DIRECTION). reflexivity.
Defined.

(** X2: a frontend name that is empty, or that starts with anything but a
    decimal digit or a sign, is not a channel: the conversion raises
    [bad_lexical_cast]. *)
Theorem chan_from_bad_fe_fails (dir : direction_t) :
  get_chan_from_dboard_fe "" dir = Throw bad_lexical_cast /\
  (forall c rest,
      c ∉ ["0"; "1"; "2"; "3"; "4"; "5"; "6"; "7"; "8"; "9"; "+"; "-"]%char ->
      get_chan_from_dboard_fe (String c rest) dir = Throw bad_lexical_cast).
Proof.
  split; [reflexivity |].
  intros c rest Hc.
  unfold get_chan_from_dboard_fe, lexical_cast_size_t.
  destruct c as [[] [] [] [] [] [] [] []];
    try (exfalso; apply Hc;
         solve [repeat first [apply list_elem_of_here
                             | apply list_elem_of_further]]);
    cbn [NilEmpty.uint_of_string]; destruct (NilEmpty.uint_of_string rest);
    reflexivity.
Qed.

Lemma chan_from_bad_fe_fails_witness :
  get_chan_from_dboard_fe "rx0" RX_DIRECTION = Throw bad_lexical_cast.
Proof.
  apply (proj2 (chan_from_bad_fe_fails RX_DIRECTION) "r"%char "x0").
  intros Hin. repeat (apply elem_of_cons in Hin as [E | Hin]; [discriminate E |]).
  inversion Hin.
Defined.

(** ** Gain, remote failures and the rate *)
Section MoreRadioProperties.

Context {fw : Type} `{Firmware fw}.

Implicit Types (r R : @radio fw) (c : rpc_client).

(** X3: for a valid frontend and an attached client, [_myk_set_gain] issues
    the one call [<prefix>set_gain (identifier, gain)] and returns what the
    call returns; nothing of the object changes but the trace log. *)
Theorem set_gain_issues_set_gain r c gain chan dir :
  _rpcc r = Some c -> valid_frontend dir chan ->
  exists which,
    _get_which dir chan = Ok which /\
    let call := RpcCall (token c) (_rpc_prefix r +:+ "set_gain")
                  [arg_str which; arg_double gain] in
    let res := _myk_set_gain gain chan dir r in
    round_trip call double_of_reply r res /\
    (forall coerced,
        fst (fw_serve (firmware r) call) = inr (val_double coerced) ->
        fst res = Ok coerced).
Proof.
  intros Hc Hv. destruct (get_which_valid _ _ Hv) as [which W].
  exists which. split; [exact W |]. cbv zeta.
  pose proof (set_gain_run r c gain chan dir which Hc W) as Hrun.
  split; [exact Hrun |].
  intros coerced Hreply. destruct Hrun as [Hres _].
  rewrite Hres, Hreply. reflexivity.
Qed.

(** X4: for a valid frontend and an attached client, [_myk_get_gain] issues
    the one call [<prefix>get_gain (identifier)] and returns what the call
    returns. *)
Theorem get_gain_issues_get_gain r c chan dir :
  _rpcc r = Some c -> valid_frontend dir chan ->
  exists which,
    _get_which dir chan = Ok which /\
    let call := RpcCall (token c) (_rpc_prefix r +:+ "get_gain")
                  [arg_str which] in
    let res := _myk_get_gain chan dir r in
    round_trip call double_of_reply r res /\
    (forall gain,
        fst (fw_serve (firmware r) call) = inr (val_double gain) ->
        fst res = Ok gain).
Proof.
  intros Hc Hv. destruct (get_which_valid _ _ Hv) as [which W].
  exists which. split; [exact W |]. cbv zeta.
  pose proof (get_gain_run r c chan dir which Hc W) as Hrun.
  split; [exact Hrun |].
  intros gain Hreply. destruct Hrun as [Hres _].
  rewrite Hres, Hreply. reflexivity.
Qed.

(** The log of a call that the remote side answers with an error: the
    announcement of the call and nothing after it. *)
Ltac run_failed Hc W Hreply :=
  unfold _myk_set_frequency, _myk_get_frequency, _myk_set_gain,
    _myk_get_gain, bind, lift, gets, UHD_LOG, modify, as_double, ret, throw;
  rewrite W; simpl;
  rewrite request_run with (c := _) by exact Hc; simpl;
  simpl in Hreply; rewrite Hreply; simpl;
  repeat split.

(** X5: when the remote side answers a frequency or gain call with an error,
    the operation raises that error unchanged after a single attempt: the
    trace holds exactly that one call, and the log holds the announcement of
    the call but no return line. *)
Theorem remote_failure_is_raised r c chan dir which what :
  _rpcc r = Some c -> _get_which dir chan = Ok which ->
  let prefix := _rpc_prefix r in
  let failed call := fst (fw_serve (firmware r) call) = inl what in
  let raised {A} (call : rpc_call) (announce : list operand)
        (res : outcome A * radio) :=
    fst res = Throw (rpc_failure what) /\
    rpc_trace (snd res) = (rpc_trace r ++ [call])%list /\
    log (snd res) = (log r ++ [LogEntry TRACE "MAGNESIUM" announce])%list in
  (forall freq,
      let call := RpcCall (token c) (prefix +:+ "set_freq")
                    [arg_str which; arg_double freq; arg_bool false] in
      failed call ->
      raised call
        [txt "Calling "; txt prefix; txt "set_freq on "; txt which;
         txt " with "; dbl freq]
        (_myk_set_frequency freq chan dir r)) /\
  (let call := RpcCall (token c) (prefix +:+ "get_freq") [arg_str which] in
   failed call ->
   raised call [txt "calling "; txt prefix; txt "get_freq on "; txt which]
     (_myk_get_frequency chan dir r)) /\
  (forall gain,
      let call := RpcCall (token c) (prefix +:+ "set_gain")
                    [arg_str which; arg_double gain] in
      failed call ->
      raised call
        [txt "Calling "; txt prefix; txt "set_gain on "; txt which;
         txt " with "; dbl gain]
        (_myk_set_gain gain chan dir r)) /\
  (let call := RpcCall (token c) (prefix +:+ "get_gain") [arg_str which] in
   failed call ->
   raised call [txt "calling "; txt prefix; txt "get_gain on "; txt which]
     (_myk_get_gain chan dir r)).
Proof.
  intros Hc W. cbv zeta.
  split; [| split; [| split]].
  - intros freq Hreply. run_failed Hc W Hreply.
  - intros Hreply. run_failed Hc W Hreply.
  - intros gain Hreply. run_failed Hc W Hreply.
  - intros Hreply. run_failed Hc W Hreply.
Qed.

Lemma set_rate_result r rate :
  fst (set_rate rate r) = Ok (radio_ctrl_impl._tick_rate (base r)).
Proof.
  unfold set_rate, get_rate, bind, gets, UHD_LOG, modify, ret.
  cbn [fst snd]. unfold radio_ctrl_impl.get_rate.
  destruct (PrimFloat.eqb rate (radio_ctrl_impl._tick_rate (base r)));
    reflexivity.
Qed.

(** X6: [set_rate] never changes the rate.  It returns the rate the base
    class holds, whatever rate is asked for, leaves everything but the log
    as it was, and logs a warning exactly when the two rates differ. *)
Theorem set_rate_keeps_rate r rate :
  let current := radio_ctrl_impl._tick_rate (base r) in
  let res := set_rate rate r in
  fst res = Ok current /\
  only_logged r (snd res) /\
  fst (get_rate (snd res)) = Ok current /\
  (PrimFloat.eqb rate current = true -> log (snd res) = log r) /\
  (PrimFloat.eqb rate current = false ->
   log (snd res) =
     (log r ++ [LogEntry WARNING "MAGNESIUM"
                  [txt "Attempting to set sampling rate to invalid value ";
                   dbl rate]])%list).
Proof.
  cbv zeta. unfold set_rate, get_rate, bind, gets, UHD_LOG, modify, ret.
  cbn [fst snd]. unfold radio_ctrl_impl.get_rate.
  destruct (PrimFloat.eqb rate (radio_ctrl_impl._tick_rate (base r)));
    cbn [negb fst snd]; repeat split; intros; discriminate.
Qed.


(** ** Bring-up for any number of channels *)

Lemma for_loop_in_base count step body :
  (forall chan r, body chan r = (Ok tt, with_base (step chan (base r)) r)) ->
  forall i r,
    for_loop count i body r
      = (Ok tt, with_base (base_loop count i step (base r)) r).
Proof.
  intros Hbody. induction count as [| count IH]; intros i r.
  - destruct r. reflexivity.
  - cbn [for_loop base_loop]. unfold bind. rewrite Hbody, IH. reflexivity.
Qed.

Lemma size_t_succ i : i + 1 < SIZE_MAX_plus_1 -> size_t_add i 1 = i + 1.
Proof. intros Hi. unfold size_t_add. now apply N.mod_small. Qed.

(** The RX loop: channels in the range get the defaults, everything else
    stays. *)
Lemma base_loop_rx count :
  forall i b,
    count = O \/ i + N.of_nat count <= SIZE_MAX_plus_1 ->
    let b' := base_loop count i rx_defaults b in
    radio_ctrl_impl._tick_rate b' = radio_ctrl_impl._tick_rate b /\
    radio_ctrl_impl._tx_freq b' = radio_ctrl_impl._tx_freq b /\
    radio_ctrl_impl._tx_gain b' = radio_ctrl_impl._tx_gain b /\
    radio_ctrl_impl._tx_antenna b' = radio_ctrl_impl._tx_antenna b /\
    (forall chan, i <= chan < i + N.of_nat count ->
       radio_ctrl_impl._rx_freq b' !! chan = Some MAGNESIUM_CENTER_FREQ /\
       radio_ctrl_impl._rx_gain b' !! chan = Some MAGNESIUM_DEFAULT_GAIN /\
       radio_ctrl_impl._rx_antenna b' !! chan
         = Some MAGNESIUM_DEFAULT_RX_ANTENNA /\
       radio_ctrl_impl._rx_bandwidth b' !! chan
         = Some MAGNESIUM_DEFAULT_BANDWIDTH) /\
    (forall chan, ~ (i <= chan < i + N.of_nat count) ->
       radio_ctrl_impl._rx_freq b' !! chan
         = radio_ctrl_impl._rx_freq b !! chan /\
       radio_ctrl_impl._rx_gain b' !! chan
         = radio_ctrl_impl._rx_gain b !! chan /\
       radio_ctrl_impl._rx_antenna b' !! chan
         = radio_ctrl_impl._rx_antenna b !! chan /\
       radio_ctrl_impl._rx_bandwidth b' !! chan
         = radio_ctrl_impl._rx_bandwidth b !! chan).
Proof.
  induction count as [| count IH]; intros i b Hrange; cbv zeta.
  - cbn [base_loop]. repeat split; intros; lia.
  - cbn [base_loop].
    assert (Hnext : count = O \/
                    size_t_add i 1 + N.of_nat count <= SIZE_MAX_plus_1).
    { destruct count as [| count']; [left; reflexivity | right].
      rewrite size_t_succ by lia. lia. }
    destruct (IH (size_t_add i 1) (rx_defaults i b) Hnext)
      as (Ht & Htf & Htg & Hta & Hin & Hout).
    do 4 (split; [assumption |]).
    assert (Hstart : count = O \/ size_t_add i 1 = i + 1).
    { destruct count as [| count']; [left; reflexivity | right].
      apply size_t_succ. lia. }
    split; intros chan Hchan.
    + destruct (decide (chan = i)) as [-> | Hne].
      * destruct (Hout i) as (H1 & H2 & H3 & H4).
        { destruct Hstart as [-> | ->]; lia. }
        rewrite H1, H2, H3, H4. cbn.
        repeat split; apply lookup_insert_eq.
      * apply Hin. destruct Hstart as [-> | ->]; lia.
    + destruct (Hout chan) as (H1 & H2 & H3 & H4).
      { destruct Hstart as [-> | ->]; lia. }
      rewrite H1, H2, H3, H4. cbn.
      repeat split; apply lookup_insert_ne; lia.
Qed.

(** The TX loop, likewise. *)
Lemma base_loop_tx count :
  forall i b,
    count = O \/ i + N.of_nat count <= SIZE_MAX_plus_1 ->
    let b' := base_loop count i tx_defaults b in
    radio_ctrl_impl._tick_rate b' = radio_ctrl_impl._tick_rate b /\
    radio_ctrl_impl._rx_freq b' = radio_ctrl_impl._rx_freq b /\
    radio_ctrl_impl._rx_gain b' = radio_ctrl_impl._rx_gain b /\
    radio_ctrl_impl._rx_antenna b' = radio_ctrl_impl._rx_antenna b /\
    radio_ctrl_impl._rx_bandwidth b' = radio_ctrl_impl._rx_bandwidth b /\
    (forall chan, i <= chan < i + N.of_nat count ->
       radio_ctrl_impl._tx_freq b' !! chan = Some MAGNESIUM_CENTER_FREQ /\
       radio_ctrl_impl._tx_gain b' !! chan = Some MAGNESIUM_DEFAULT_GAIN /\
       radio_ctrl_impl._tx_antenna b' !! chan
         = Some MAGNESIUM_DEFAULT_TX_ANTENNA) /\
    (forall chan, ~ (i <= chan < i + N.of_nat count) ->
       radio_ctrl_impl._tx_freq b' !! chan
         = radio_ctrl_impl._tx_freq b !! chan /\
       radio_ctrl_impl._tx_gain b' !! chan
         = radio_ctrl_impl._tx_gain b !! chan /\
       radio_ctrl_impl._tx_antenna b' !! chan
         = radio_ctrl_impl._tx_antenna b !! chan).
Proof.
  induction count as [| count IH]; intros i b Hrange; cbv zeta.
  - cbn [base_loop]. repeat split; intros; lia.
  - cbn [base_loop].
    assert (Hnext : count = O \/
                    size_t_add i 1 + N.of_nat count <= SIZE_MAX_plus_1).
    { destruct count as [| count']; [left; reflexivity | right].
      rewrite size_t_succ by lia. lia. }
    destruct (IH (size_t_add i 1) (tx_defaults i b) Hnext)
      as (Ht & Hrf & Hrg & Hra & Hrb & Hin & Hout).
    do 5 (split; [assumption |]).
    assert (Hstart : count = O \/ size_t_add i 1 = i + 1).
    { destruct count as [| count']; [left; reflexivity | right].
      apply size_t_succ. lia. }
    split; intros chan Hchan.
    + destruct (decide (chan = i)) as [-> | Hne].
      * destruct (Hout i) as (H1 & H2 & H3).
        { destruct Hstart as [-> | ->]; lia. }
        rewrite H1, H2, H3. cbn.
        repeat split; apply lookup_insert_eq.
      * apply Hin. destruct Hstart as [-> | ->]; lia.
    + destruct (Hout chan) as (H1 & H2 & H3).
      { destruct Hstart as [-> | ->]; lia. }
      rewrite H1, H2, H3. cbn.
      repeat split; apply lookup_insert_ne; lia.
Qed.

Lemma init_defaults_loops r :
  exists lg,
    _init_defaults r =
      (Ok tt,
       Radio (env r)
         (base_loop (N.to_nat (num_input_ports (env r))) 0 tx_defaults
            (base_loop (N.to_nat (num_output_ports (env r))) 0 rx_defaults
               (snd (radio_ctrl_impl.set_rate MAGNESIUM_TICK_RATE (base r)))))
         (_radio_slot r) (_rpc_prefix r) (_rpcc r) (_block_args r) (_tree r)
         (firmware r) (rpc_trace r) lg).
Proof.
  eexists.
  unfold _init_defaults, for_upto, bind, gets, UHD_LOG, modify.
  cbn -[MAGNESIUM_TICK_RATE MAGNESIUM_CENTER_FREQ MAGNESIUM_DEFAULT_GAIN
        MAGNESIUM_DEFAULT_BANDWIDTH PrimFloat.div insert for_loop N.to_nat].
  rewrite (for_loop_in_base _ rx_defaults) by (intros; reflexivity).
  rewrite (for_loop_in_base _ tx_defaults) by (intros; reflexivity).
  reflexivity.
Qed.

(** X7: [_init_defaults] with any numbers of RX and TX ports records the
    defaults for every channel below the port count of its direction, and
    for no other channel; it validates no channel (channels 2 and up get
    the defaults as well), sends nothing to the firmware and leaves the
    property tree and the client pointer alone.  Afterwards the rate is
    125 MHz, and [set_rate] answers with it whatever it is asked. *)
Theorem init_defaults_every_channel r :
  num_output_ports (env r) < SIZE_MAX_plus_1 ->
  num_input_ports (env r) < SIZE_MAX_plus_1 ->
  let res := _init_defaults r in
  let b := base (snd res) in
  fst res = Ok tt /\
  (forall chan, chan < num_output_ports (env r) ->
     radio_ctrl_impl._rx_freq b !! chan = Some MAGNESIUM_CENTER_FREQ /\
     radio_ctrl_impl._rx_gain b !! chan = Some MAGNESIUM_DEFAULT_GAIN /\
     radio_ctrl_impl._rx_antenna b !! chan
       = Some MAGNESIUM_DEFAULT_RX_ANTENNA /\
     radio_ctrl_impl._rx_bandwidth b !! chan
       = Some MAGNESIUM_DEFAULT_BANDWIDTH) /\
  (forall chan, chan < num_input_ports (env r) ->
     radio_ctrl_impl._tx_freq b !! chan = Some MAGNESIUM_CENTER_FREQ /\
     radio_ctrl_impl._tx_gain b !! chan = Some MAGNESIUM_DEFAULT_GAIN /\
     radio_ctrl_impl._tx_antenna b !! chan
       = Some MAGNESIUM_DEFAULT_TX_ANTENNA) /\
  (forall chan, num_output_ports (env r) <= chan ->
     radio_ctrl_impl._rx_freq b !! chan
       = radio_ctrl_impl._rx_freq (base r) !! chan /\
     radio_ctrl_impl._rx_gain b !! chan
       = radio_ctrl_impl._rx_gain (base r) !! chan /\
     radio_ctrl_impl._rx_antenna b !! chan
       = radio_ctrl_impl._rx_antenna (base r) !! chan /\
     radio_ctrl_impl._rx_bandwidth b !! chan
       = radio_ctrl_impl._rx_bandwidth (base r) !! chan) /\
  (forall chan, num_input_ports (env r) <= chan ->
     radio_ctrl_impl._tx_freq b !! chan
       = radio_ctrl_impl._tx_freq (base r) !! chan /\
     radio_ctrl_impl._tx_gain b !! chan
       = radio_ctrl_impl._tx_gain (base r) !! chan /\
     radio_ctrl_impl._tx_antenna b !! chan
       = radio_ctrl_impl._tx_antenna (base r) !! chan) /\
  rpc_trace (snd res) = rpc_trace r /\
  firmware (snd res) = firmware r /\
  _tree (snd res) = _tree r /\
  _rpcc (snd res) = _rpcc r /\
  (forall rate, fst (set_rate rate (snd res)) = Ok MAGNESIUM_TICK_RATE).
Proof.
  intros Hrx Htx. cbv zeta.
  destruct (init_defaults_loops r) as [lg ->]. cbn [fst snd base].
  set (b0 := snd (radio_ctrl_impl.set_rate MAGNESIUM_TICK_RATE (base r))).
  set (nrx := N.to_nat (num_output_ports (env r))).
  set (ntx := N.to_nat (num_input_ports (env r))).
  destruct (base_loop_rx nrx 0 b0)
    as (Rt & Rtf & Rtg & Rta & Rin & Rout); [right; subst nrx; lia |].
  destruct (base_loop_tx ntx 0 (base_loop nrx 0 rx_defaults b0))
    as (Tt & Trf & Trg & Tra & Trb & Tin & Tout); [right; subst ntx; lia |].
  split; [reflexivity |].
  split.
  { intros chan Hchan. rewrite Trf, Trg, Tra, Trb.
    apply Rin. subst nrx. lia. }
  split.
  { intros chan Hchan. apply Tin. subst ntx. lia. }
  split.
  { intros chan Hchan. rewrite Trf, Trg, Tra, Trb.
    apply Rout. subst nrx. lia. }
  split.
  { intros chan Hchan.
    destruct (Tout chan) as (T1 & T2 & T3); [subst ntx; lia |].
    rewrite T1, T2, T3, Rtf, Rtg, Rta. repeat split. }
  do 4 (split; [reflexivity |]).
  intros rate. rewrite set_rate_result. cbn [base].
  rewrite Tt, Rt. reflexivity.
Qed.

End MoreRadioProperties.

Lemma init_defaults_every_channel_witness :
  let r := fresh (BlockEnv 0 "xbar/Radio_0" 3 2) lo_initial in
  radio_ctrl_impl._rx_antenna (base (snd (_init_defaults r))) !! 2
    = Some "RX2" /\
  radio_ctrl_impl._tx_antenna (base (snd (_init_defaults r))) !! 2 = None.
Proof.
  set (r := fresh (BlockEnv 0 "xbar/Radio_0" 3 2) lo_initial). cbv zeta.
  assert (Hrx : num_output_ports (env r) < SIZE_MAX_plus_1) by reflexivity.
  assert (Htx : num_input_ports (env r) < SIZE_MAX_plus_1) by reflexivity.
  destruct (init_defaults_every_channel r Hrx Htx)
    as (_ & Hin & _ & _ & Hout & _).
  split.
  - apply (Hin 2). reflexivity.
  - destruct (Hout 2) as (_ & _ & ->); [discriminate | reflexivity].
Defined.

Lemma set_rate_keeps_rate_witness :
  fst (set_rate 100e6 (snd constructed)) = Ok 125e6%float.
Proof. apply (proj1 (set_rate_keeps_rate (snd constructed) 100e6)). Defined.


(** ** The constructor, in full *)

Ltac free_after_insert :=
  cbn [_tree with_tree];
  repeat (rewrite lookup_insert_ne by set_solver);
  assumption.

Ltac by_computation :=
  apply (bool_decide_unpack _); vm_compute; exact I.

Ltac slot_letter Hin :=
  repeat (apply elem_of_cons in Hin as [-> | Hin]); [.. | inversion Hin].

Section ConstructorProperties.

Context {fw : Type} `{Firmware fw}.

Implicit Types (r R : @radio fw) (c : rpc_client).

Lemma holds_nodes_by_lookup (t : gmap string property_tree.node) l :
  (fun qn => t !! fst qn) <$> l = (fun qn => Some (snd qn)) <$> l ->
  holds_nodes t l.
Proof.
  unfold holds_nodes. induction l as [| qn l IH]; intros E.
  - constructor.
  - injection E as Eq El. constructor; [exact Eq | exact (IH El)].
Qed.

Lemma holds_nodes_kept (t t' : gmap string property_tree.node) l :
  holds_nodes t l ->
  Forall (fun qn => t' !! fst qn = t !! fst qn) l ->
  holds_nodes t' l.
Proof.
  unfold holds_nodes. rewrite !Forall_forall. intros Ht Hk qn Hin.
  rewrite (Hk qn Hin). exact (Ht qn Hin).
Qed.

(** None of the frontend paths is touched by the rest of the constructor. *)
Lemma frontend_paths_apart slot :
  slot ∈ ["A"; "B"; "C"; "D"] ->
  Forall (fun qn => has_suffix "/eeprom" (fst qn) = false /\
                    fst qn ∉ codec_paths slot)
    (frontend_nodes slot).
Proof.
  intros Hin.
  slot_letter Hin; by_computation.
Qed.

(** The tree that the last part of the constructor leaves. *)
Lemma add_eeprom_and_codecs_tree r :
  let p := root_path (env r) // "eeprom" in
  let created := p :: codec_paths (_radio_slot r) in
  Forall (fun q => _tree r !! q = None) created -> NoDup created ->
  exists t',
    add_eeprom_and_codecs r = (Ok tt, with_tree t' r) /\
    t' !! p = Some (plain_node (property_tree.v_eeprom [])) /\
    forall q, q ∉ created -> t' !! q = _tree r !! q.
Proof.
  cbv zeta. unfold codec_paths. intros Hnone Hnd.
  apply Forall_cons in Hnone as [Hp Hnone].
  apply Forall_cons in Hnone as [Hrg Hnone].
  apply Forall_cons in Hnone as [Htg Hnone].
  apply Forall_cons in Hnone as [Hrn Hnone].
  apply Forall_cons in Hnone as [Htn Hnone].
  apply Forall_cons in Hnone as [Htick _].
  repeat (apply NoDup_cons in Hnd as [? Hnd]).
  unfold add_eeprom_and_codecs, bind, gets, tree_exists.
  rewrite create_and_set_fresh by assumption.
  rewrite create_fresh by free_after_insert.
  rewrite create_fresh by free_after_insert.
  rewrite create_and_set_fresh by free_after_insert.
  rewrite create_and_set_fresh by free_after_insert.
  unfold gets. cbn [_tree with_tree].
  rewrite bool_decide_eq_false_2.
  2:{ repeat (rewrite lookup_insert_ne by set_solver).
      rewrite Htick. intros [n Hn]. discriminate Hn. }
  cbn [negb].
  rewrite create_and_set_fresh by free_after_insert.
  eexists. split; [reflexivity |]. cbn [_tree with_tree]. split.
  - do 5 (rewrite lookup_insert_ne by set_solver).
    apply lookup_insert_eq.
  - intros q Hq.
    repeat (rewrite lookup_insert_ne by set_solver). reflexivity.
Qed.

Lemma slot_letter_in (count : N) (slot : string) :
  ["A"; "B"; "C"; "D"] !! N.to_nat count = Some slot ->
  slot ∈ ["A"; "B"; "C"; "D"].
Proof. intros Hs. eapply list_elem_of_lookup_2. exact Hs. Qed.

Lemma constructor_result_from r0 e f slot :
  let R := snd (bind init_members (fun _ => add_frontends) r0) in
  fst (bind init_members (fun _ => add_frontends) r0) = Ok tt ->
  ["A"; "B"; "C"; "D"] !! N.to_nat (block_count e) = Some slot ->
  env R = e /\ _radio_slot R = slot /\
  _rpc_prefix R = (if block_count e mod 2 =? 0 then "db_0_" else "db_1_") /\
  _rpcc R = None /\ _block_args R = [] /\
  rpc_trace R = [] /\ firmware R = f ->
  (fun qn => _tree R !! fst qn) <$> frontend_nodes slot
    = (fun qn => Some (snd qn)) <$> frontend_nodes slot ->
  map_Forall (fun k _ => has_suffix "/eeprom" k = false) (_tree R) ->
  Forall (fun q => _tree R !! q = None) (codec_paths slot) ->
  exists r',
    magnesium_radio_ctrl_impl r0 = (Ok tt, r') /\ block_built e f slot r'.
Proof.
  cbv zeta. intros Hok. rewrite (constructor_split _ Hok).
  generalize (snd (bind init_members (fun _ => add_frontends) r0)).
  intros R Hletter (He & Hslot & Hpre & Hc & Hargs & Htr & Hfw)
    Hnodes Hsuffix Hnone.
  pose proof (slot_letter_in _ _ Hletter) as Hin.
  apply holds_nodes_by_lookup in Hnodes.
  destruct (add_eeprom_and_codecs_tree R) as (t' & Hrun & Heeprom & Hkept).
  - cbv zeta. rewrite Hslot. apply Forall_cons. split; [| exact Hnone].
    apply eeprom_path_fresh, Hsuffix.
  - cbv zeta. rewrite Hslot. clear - Hin. slot_letter Hin.
    all: apply NoDup_cons; split; [| by_computation].
    all: unfold codec_paths; rewrite !not_elem_of_cons; repeat split;
      try (apply eeprom_path_ne; vm_compute; reflexivity).
    all: apply not_elem_of_nil.
  - cbv zeta in Heeprom, Hkept. rewrite Hslot in Hkept. rewrite He in Heeprom.
    exists (with_tree t' R). split; [exact Hrun |].
    unfold block_built.
    cbn [env _radio_slot _rpc_prefix _rpcc _block_args rpc_trace firmware
         _tree with_tree].
    do 8 (split; [assumption |]). split; [| exact Heeprom].
    apply (holds_nodes_kept (_tree R)); [exact Hnodes |].
    pose proof (frontend_paths_apart slot Hin) as Hapart.
    rewrite Forall_forall in Hapart |- *.
    intros qn Hqn. destruct (Hapart qn Hqn) as [Hsuf Hcodec].
    apply Hkept. apply not_elem_of_cons. split; [| exact Hcodec].
    apply not_eq_sym, eeprom_path_ne, Hsuf.
Qed.

Lemma constructor_result (e : block_env) (f : fw) :
  block_count e < 4 -> num_output_ports e = 1 -> num_input_ports e = 1 ->
  exists r' slot,
    magnesium_radio_ctrl_impl (fresh e f) = (Ok tt, r') /\
    block_built e f slot r'.
Proof.
  destruct e as [count root n_out n_in].
  cbn [block_count num_output_ports num_input_ports].
  intros Hc -> ->.
  assert (Hcases : count = 0 \/ count = 1 \/ count = 2 \/ count = 3) by lia.
  destruct Hcases as [-> | [-> | [-> | ->]]].
  all: match goal with
       | |- exists r' s, magnesium_radio_ctrl_impl ?r0 = _ /\ _ =>
         let slot := eval vm_compute in
           (_radio_slot
              (snd (bind init_members (fun _ => add_frontends) r0))) in
         match r0 with
         | fresh ?e _ =>
           destruct (constructor_result_from r0 e f slot) as (r' & Hr);
           [ vm_compute; reflexivity
           | reflexivity
           | vm_compute; repeat split
           | vm_compute; reflexivity
           | by_computation
           | by_computation
           | exists r', slot; exact Hr ]
         end
       end.
Qed.

End ConstructorProperties.

(** ** Attaching the client, and the EEPROM node *)
Section ClientProperties.

Context {fw : Type} `{Firmware fw}.

Implicit Types (r R : @radio fw) (c : rpc_client).

Lemma set_rpc_client_run r rpcc args n :
  let p := root_path (env r) // "eeprom" in
  let idx := block_count (env r) in
  _tree r !! p = Some n ->
  property_tree.n_type n = property_tree.t_eeprom ->
  set_rpc_client rpcc args r
    = (Ok tt,
       with_tree
         (property_tree.set_publisher p (publish_eeprom idx)
            (property_tree.add_coerced_subscriber p (subscribe_eeprom idx)
               (_tree r)))
         (with_rpcc rpcc args r)).
Proof.
  cbv zeta. intros Hn Hty.
  unfold set_rpc_client, bind, modify, gets,
    tree_add_coerced_subscriber, tree_set_publisher.
  cbn [env with_rpcc].
  rewrite <- Hty.
  rewrite (tree_access_found (with_rpcc rpcc args r) _ n) by exact Hn.
  reflexivity.
Qed.

(** X8: on an object whose EEPROM node exists, [set_rpc_client] stores the
    client pointer and the block arguments, adds the [set_db_eeprom]
    subscriber and the [get_db_eeprom] publisher (both for this block's
    index) to the EEPROM node, and does nothing else: no other node
    changes, nothing is sent, nothing is logged. *)
Theorem set_rpc_client_attaches r rpcc args n :
  let p := root_path (env r) // "eeprom" in
  let idx := block_count (env r) in
  _tree r !! p = Some n ->
  property_tree.n_type n = property_tree.t_eeprom ->
  let res := set_rpc_client rpcc args r in
  fst res = Ok tt /\
  _rpcc (snd res) = rpcc /\
  _block_args (snd res) = args /\
  _tree (snd res) !! p
    = Some (property_tree.Node property_tree.t_eeprom
              (property_tree.n_value n) (property_tree.n_coercer n)
              (Some (publish_eeprom idx))
              (property_tree.n_subscribers n ++ [subscribe_eeprom idx])) /\
  (forall q, q <> p -> _tree (snd res) !! q = _tree r !! q) /\
  env (snd res) = env r /\ base (snd res) = base r /\
  _radio_slot (snd res) = _radio_slot r /\
  _rpc_prefix (snd res) = _rpc_prefix r /\
  firmware (snd res) = firmware r /\
  rpc_trace (snd res) = rpc_trace r /\
  log (snd res) = log r.
Proof.
  cbv zeta. intros Hn Hty.
  rewrite (set_rpc_client_run r rpcc args n Hn Hty).
  cbn [fst snd _rpcc _block_args _tree env base _radio_slot _rpc_prefix
       firmware rpc_trace log with_tree with_rpcc].
  do 3 (split; [reflexivity |]).
  split.
  - unfold property_tree.set_publisher, property_tree.add_coerced_subscriber.
    rewrite !lookup_alter_eq, Hn. cbn. rewrite Hty. reflexivity.
  - split; [| repeat split].
    intros q Hq.
    unfold property_tree.set_publisher, property_tree.add_coerced_subscriber.
    rewrite !lookup_alter_ne by (apply not_eq_sym; exact Hq). reflexivity.
Qed.

(** X9: on an object without the EEPROM node, [set_rpc_client] fails with
    the lookup error of the tree, after it has replaced the client pointer
    and the block arguments. *)
Theorem set_rpc_client_without_eeprom_node r rpcc args :
  let p := root_path (env r) // "eeprom" in
  _tree r !! p = None ->
  let res := set_rpc_client rpcc args r in
  fst res = Throw (lookup_error p) /\
  _rpcc (snd res) = rpcc /\
  _block_args (snd res) = args /\
  _tree (snd res) = _tree r /\
  rpc_trace (snd res) = rpc_trace r.
Proof.
  cbv zeta. intros Hn.
  unfold set_rpc_client, tree_access, bind, modify, gets, lift,
    property_tree.access.
  cbn [env _tree with_rpcc fst snd]. rewrite Hn. repeat split.
Qed.

(** What a read of the EEPROM node through its publisher makes of a
    reply. *)
Lemma eeprom_read_run r c idx :
  _rpcc r = Some c ->
  let call := RpcCall (token c) "get_db_eeprom" [arg_size idx] in
  let res := run_publisher (publish_eeprom idx) r in
  fst res
    = match fst (fw_serve (firmware r) call) with
      | inl what => Throw (rpc_failure what)
      | inr (val_eeprom m) => Ok (property_tree.v_eeprom m)
      | inr _ => Throw (rpc_failure "reply is not an eeprom map")
      end /\
  firmware (snd res) = snd (fw_serve (firmware r) call) /\
  rpc_trace (snd res) = (rpc_trace r ++ [call])%list /\
  same_object r (snd res) /\ log (snd res) = log r.
Proof.
  intros Hc. cbv zeta.
  unfold run_publisher, bind, as_eeprom, ret, throw.
  rewrite request_run with (c := c) by exact Hc. cbn [fst snd].
  destruct (fw_serve _ _) as [[what | [d | m |]] f]; cbn; repeat split.
Qed.

(** X10: once the client is attached, a read of the EEPROM node issues the
    one call [get_db_eeprom (block index)] with the client's token and
    returns the map in the reply; the value the node stores is not
    returned.  An error reply is raised as it is. *)
Theorem eeprom_read_is_remote r c path n idx :
  _rpcc r = Some c ->
  _tree r !! path = Some n ->
  property_tree.n_type n = property_tree.t_eeprom ->
  property_tree.n_publisher n = Some (publish_eeprom idx) ->
  let call := RpcCall (token c) "get_db_eeprom" [arg_size idx] in
  let res := tree_get path property_tree.t_eeprom r in
  rpc_trace (snd res) = (rpc_trace r ++ [call])%list /\
  firmware (snd res) = snd (fw_serve (firmware r) call) /\
  _tree (snd res) = _tree r /\
  (forall m,
      fst (fw_serve (firmware r) call) = inr (val_eeprom m) ->
      fst res = Ok (property_tree.v_eeprom m)) /\
  (forall what,
      fst (fw_serve (firmware r) call) = inl what ->
      fst res = Throw (rpc_failure what)).
Proof.
  intros Hc Hn Hty Hpub. cbv zeta.
  unfold tree_get, bind. rewrite <- Hty, (tree_access_found _ _ _ Hn), Hpub.
  destruct (eeprom_read_run r c idx Hc) as (Hres & Hfw & Htr & Hobj & _).
  split; [exact Htr |]. split; [exact Hfw |].
  split; [apply Hobj |].
  split; intros x Hreply; rewrite Hres, Hreply; reflexivity.
Qed.

(** X11: once the client is attached, a write of a map to the EEPROM node
    stores the map in the node and sends the one notification
    [set_db_eeprom (block index, map)].  No reply is awaited: the write
    succeeds when the transport delivers the notification, and fails with
    the transport's error when it does not; the map is stored in the node
    in both cases. *)
Theorem eeprom_write_notifies r c path n idx m :
  _rpcc r = Some c ->
  _tree r !! path = Some n ->
  property_tree.n_type n = property_tree.t_eeprom ->
  property_tree.n_coercer n = None ->
  property_tree.n_subscribers n = [subscribe_eeprom idx] ->
  let call := RpcCall (token c) "set_db_eeprom"
                [arg_size idx; arg_eeprom m] in
  let res := tree_set path (property_tree.v_eeprom m) r in
  rpc_trace (snd res) = (rpc_trace r ++ [call])%list /\
  firmware (snd res) = snd (fw_notify (firmware r) call) /\
  _tree (snd res) !! path
    = Some (property_tree.with_value (property_tree.v_eeprom m) n) /\
  (forall q, q <> path -> _tree (snd res) !! q = _tree r !! q) /\
  (fst (fw_notify (firmware r) call) = None -> fst res = Ok tt) /\
  (forall what,
      fst (fw_notify (firmware r) call) = Some what ->
      fst res = Throw (rpc_failure what)).
Proof.
  intros Hc Hn Hty Hco Hsub. cbv zeta.
  unfold tree_set, bind.
  change (property_tree.type_of (property_tree.v_eeprom m))
    with property_tree.t_eeprom.
  rewrite <- Hty, (tree_access_found _ _ _ Hn), Hco, Hsub.
  unfold ret, modify, notify_subscribers, run_subscriber, bind,
    notify_with_token.
  cbn [fst snd _rpcc firmware with_tree]. rewrite Hc.
  assert (Hstored :
    property_tree.store path (property_tree.v_eeprom m) (_tree r) !! path
      = Some (property_tree.with_value (property_tree.v_eeprom m) n)).
  { unfold property_tree.store. rewrite lookup_alter_eq, Hn. reflexivity. }
  assert (Hothers : forall q, q <> path ->
    property_tree.store path (property_tree.v_eeprom m) (_tree r) !! q
      = _tree r !! q).
  { intros q Hq. apply lookup_alter_ne, not_eq_sym, Hq. }
  destruct (fw_notify (firmware r) _) as [[what |] f']; unfold ret;
    cbn [fst snd rpc_trace firmware _tree with_tree with_firmware].
  - do 4 (split; [reflexivity || assumption |]).
    split; [intros E; discriminate E | intros w [= <-]; reflexivity].
  - do 4 (split; [reflexivity || assumption |]).
    split; [reflexivity | intros w E; discriminate E].
Qed.

End ClientProperties.

(** ** Property nodes and their hooks *)
Section NodeProperties.

Context {fw : Type} `{Firmware fw}.

Implicit Types (r R : @radio fw) (c : rpc_client).

Lemma write_frequency_node_run r c path n freq chan dir which :
  _rpcc r = Some c -> _get_which dir chan = Ok which ->
  _tree r !! path = Some n ->
  property_tree.n_type n = property_tree.t_double ->
  property_tree.n_coercer n = Some (coerce_frequency chan dir) ->
  property_tree.n_subscribers n = [] ->
  let call := RpcCall (token c) (_rpc_prefix r +:+ "set_freq")
                [arg_str which; arg_double freq; arg_bool false] in
  let res := tree_set path (property_tree.v_double freq) r in
  rpc_trace (snd res) = (rpc_trace r ++ [call])%list /\
  firmware (snd res) = snd (fw_serve (firmware r) call) /\
  _rpcc (snd res) = _rpcc r /\ _rpc_prefix (snd res) = _rpc_prefix r /\
  (forall coerced,
      fst (fw_serve (firmware r) call) = inr (val_double coerced) ->
      fst res = Ok tt /\
      _tree (snd res) !! path
        = Some (property_tree.with_value
                  (property_tree.v_double coerced) n) /\
      (forall q, q <> path -> _tree (snd res) !! q = _tree r !! q)) /\
  (forall what,
      fst (fw_serve (firmware r) call) = inl what ->
      fst res = Throw (rpc_failure what) /\ _tree (snd res) = _tree r).
Proof.
  intros Hc W Hn Hty Hco Hsub. cbv zeta.
  destruct (set_frequency_run r c freq chan dir which Hc W)
    as (Hres & Hfw & Htr & Hobj).
  destruct Hobj as (_ & _ & _ & Hpre & Hcl & _ & Htree).
  unfold tree_set, bind.
  change (property_tree.type_of (property_tree.v_double freq))
    with property_tree.t_double.
  rewrite <- Hty, (tree_access_found _ _ _ Hn), Hco, Hsub.
  unfold run_coercer, bind.
  destruct (_myk_set_frequency freq chan dir r) as [[d | e] r1].
  - unfold ret, modify, notify_subscribers.
    cbn [fst snd rpc_trace firmware _rpcc _rpc_prefix _tree with_tree] in *.
    do 4 (split; [assumption |]). split.
    + intros coerced Hreply. rewrite Hreply in Hres. injection Hres as ->.
      split; [reflexivity |]. unfold property_tree.store, ret.
      cbn [fst snd _tree with_tree]. rewrite Htree.
      split.
      * rewrite lookup_alter_eq, Hn. reflexivity.
      * intros q Hq. apply lookup_alter_ne, not_eq_sym, Hq.
    + intros what Hreply. rewrite Hreply in Hres. discriminate Hres.
  - cbn [fst snd] in *.
    do 4 (split; [assumption |]). split.
    + intros coerced Hreply. rewrite Hreply in Hres. discriminate Hres.
    + intros what Hreply. rewrite Hreply in Hres. injection Hres as ->.
      split; [reflexivity | exact Htree].
Qed.

(** X12: a write to a property node coerced by the frequency lambda of a
    valid frontend sends the one [<prefix>set_freq] call; the node then
    stores the frequency the firmware reports, not the one asked for, and
    if the call fails the write fails with the same error and the tree is
    as before. *)
Theorem frequency_node_write r c path n freq chan dir :
  _rpcc r = Some c -> valid_frontend dir chan ->
  _tree r !! path = Some n ->
  property_tree.n_type n = property_tree.t_double ->
  property_tree.n_coercer n = Some (coerce_frequency chan dir) ->
  property_tree.n_subscribers n = [] ->
  exists which,
    _get_which dir chan = Ok which /\
    let call := RpcCall (token c) (_rpc_prefix r +:+ "set_freq")
                  [arg_str which; arg_double freq; arg_bool false] in
    let res := tree_set path (property_tree.v_double freq) r in
    rpc_trace (snd res) = (rpc_trace r ++ [call])%list /\
    (forall coerced,
        fst (fw_serve (firmware r) call) = inr (val_double coerced) ->
        fst res = Ok tt /\
        _tree (snd res) !! path
          = Some (property_tree.with_value
                    (property_tree.v_double coerced) n) /\
        (forall q, q <> path -> _tree (snd res) !! q = _tree r !! q)) /\
    (forall what,
        fst (fw_serve (firmware r) call) = inl what ->
        fst res = Throw (rpc_failure what) /\ _tree (snd res) = _tree r).
Proof.
  intros Hc Hv Hn Hty Hco Hsub.
  destruct (get_which_valid _ _ Hv) as [which W].
  exists which. split; [exact W |].
  destruct (write_frequency_node_run r c path n freq chan dir which
              Hc W Hn Hty Hco Hsub) as (Htr & _ & _ & _ & Hok & Herr).
  cbv zeta. split; [exact Htr |]. split; [exact Hok | exact Herr].
Qed.

(** X13: a write to a property node wired as the constructor wires the
    antenna node (the antenna lambda as subscriber, the antenna publisher,
    no coercer) succeeds for any string, with or without a client and for
    any channel and direction; it sends nothing, the node stores the string
    written, and a read of the node still gives RX1. *)
Theorem antenna_node_write_read r path n ant chan dir chan' dir' :
  _tree r !! path = Some n ->
  property_tree.n_type n = property_tree.t_string ->
  property_tree.n_coercer n = None ->
  property_tree.n_subscribers n = [subscribe_antenna chan dir] ->
  property_tree.n_publisher n = Some (publish_antenna chan' dir') ->
  let res := tree_set path (property_tree.v_string ant) r in
  fst res = Ok tt /\
  rpc_trace (snd res) = rpc_trace r /\
  firmware (snd res) = firmware r /\
  _tree (snd res) !! path
    = Some (property_tree.with_value (property_tree.v_string ant) n) /\
  fst (tree_get path property_tree.t_string (snd res))
    = Ok (property_tree.v_string "RX1").
Proof.
  intros Hn Hty Hco Hsub Hpub. cbv zeta.
  unfold tree_set, bind.
  change (property_tree.type_of (property_tree.v_string ant))
    with property_tree.t_string.
  rewrite <- Hty, (tree_access_found _ _ _ Hn), Hco, Hsub.
  unfold ret, modify, notify_subscribers, run_subscriber, bind,
    _myk_set_antenna, UHD_LOG, modify, ret.
  cbn [fst snd rpc_trace firmware _tree with_tree with_log].
  do 3 (split; [reflexivity |]).
  assert (Hstored :
    property_tree.store path (property_tree.v_string ant) (_tree r) !! path
      = Some (property_tree.with_value (property_tree.v_string ant) n)).
  { unfold property_tree.store. rewrite lookup_alter_eq, Hn. reflexivity. }
  split; [exact Hstored |].
  unfold tree_get, bind.
  erewrite (tree_access_found _ path
              (property_tree.with_value (property_tree.v_string ant) n))
    by exact Hstored.
  cbn [property_tree.n_publisher property_tree.with_value].
  rewrite Hpub. reflexivity.
Qed.

(** X14: the two bandwidth nodes behave differently.  A node wired as the RX
    bandwidth node (the [set_rx_bandwidth] lambda as coercer, the
    [get_rx_bandwidth] lambda as publisher) stores and reads 40 MHz
    whatever is written; a node created as the TX bandwidth node, with no
    hook at all, stores and reads what was written.  Neither sends a
    call. *)
Theorem bandwidth_nodes_write_read r path n bw :
  _tree r !! path = Some n ->
  property_tree.n_type n = property_tree.t_double ->
  property_tree.n_subscribers n = [] ->
  let res := tree_set path (property_tree.v_double bw) r in
  let read := tree_get path property_tree.t_double (snd res) in
  (forall chan chan',
      property_tree.n_coercer n = Some (coerce_rx_bandwidth chan) ->
      property_tree.n_publisher n = Some (publish_rx_bandwidth chan') ->
      fst res = Ok tt /\
      _tree (snd res) !! path
        = Some (property_tree.with_value
                  (property_tree.v_double MAGNESIUM_DEFAULT_BANDWIDTH) n) /\
      fst read = Ok (property_tree.v_double MAGNESIUM_DEFAULT_BANDWIDTH) /\
      rpc_trace (snd read) = rpc_trace r) /\
  (property_tree.n_coercer n = None ->
   property_tree.n_publisher n = None ->
   fst res = Ok tt /\
   _tree (snd res) !! path
     = Some (property_tree.with_value (property_tree.v_double bw) n) /\
   fst read = Ok (property_tree.v_double bw) /\
   rpc_trace (snd read) = rpc_trace r).
Proof.
  intros Hn Hty Hsub. cbv zeta.
  assert (Hstored : forall v,
    property_tree.store path v (_tree r) !! path
      = Some (property_tree.with_value v n)).
  { intros v. unfold property_tree.store.
    rewrite lookup_alter_eq, Hn. reflexivity. }
  unfold tree_set, bind.
  change (property_tree.type_of (property_tree.v_double bw))
    with property_tree.t_double.
  rewrite <- Hty, (tree_access_found _ _ _ Hn), Hsub.
  split.
  - intros chan chan' Hco Hpub. rewrite Hco.
    unfold run_coercer, set_rx_bandwidth, _myk_set_bandwidth,
      get_rx_bandwidth, _myk_get_bandwidth, UHD_LOG, bind, modify, ret,
      notify_subscribers.
    unfold ret. cbn [fst snd _tree with_tree with_log rpc_trace].
    split; [reflexivity |]. split; [apply Hstored |].
    unfold tree_get, bind.
    pose proof (tree_access_found
      (with_tree
         (property_tree.store path
            (property_tree.v_double MAGNESIUM_DEFAULT_BANDWIDTH) (_tree r))
         (with_log
            (LogEntry WARNING "MAGNESIUM"
               [txt "Ignoring attempt to get bandwidth"])
            (with_log
               (LogEntry WARNING "MAGNESIUM"
                  [txt "Ignoring attempt to set bandwidth"]) r)))
      path
      (property_tree.with_value
         (property_tree.v_double MAGNESIUM_DEFAULT_BANDWIDTH) n)
      (Hstored _)) as Hacc.
    cbn [property_tree.n_type property_tree.with_value] in Hacc.
    rewrite Hacc.
    cbn [property_tree.n_publisher property_tree.with_value].
    rewrite Hpub.
    unfold run_publisher, get_rx_bandwidth, _myk_get_bandwidth, bind, ret.
    cbn [fst snd rpc_trace with_tree with_log].
    split; reflexivity.
  - intros Hco Hpub. rewrite Hco.
    unfold ret, modify, notify_subscribers. unfold ret.
    cbn [fst snd _tree with_tree rpc_trace].
    split; [reflexivity |]. split; [apply Hstored |].
    unfold tree_get, bind.
    pose proof (tree_access_found
      (with_tree
         (property_tree.store path (property_tree.v_double bw) (_tree r)) r)
      path
      (property_tree.with_value (property_tree.v_double bw) n)
      (Hstored _)) as Hacc.
    cbn [property_tree.n_type property_tree.with_value] in Hacc.
    rewrite Hacc.
    cbn [property_tree.n_publisher property_tree.n_value
         property_tree.n_type property_tree.with_value].
    rewrite Hpub.
    split; reflexivity.
Qed.

End NodeProperties.

(** ** From the constructor to the first calls *)
Section BringUpProperties.

Context {fw : Type} `{Firmware fw}.

Implicit Types (r R : @radio fw) (c : rpc_client).

(** The hooked nodes of one direction of a block the constructor built. *)
Lemma built_hook_nodes e (f : fw) slot r dir :
  block_built e f slot r ->
  dir = RX_DIRECTION \/ dir = TX_DIRECTION ->
  let p := "dboards" // slot // frontends_of dir // "0" in
  _tree r !! (p // "antenna" // "value")
    = Some (property_tree.Node property_tree.t_string
              (Some (property_tree.v_string
                       (match dir with
                        | RX_DIRECTION => "RX1"
                        | _ => "TX1"
                        end)))
              None (Some (publish_antenna 0 dir))
              [subscribe_antenna 0 dir]) /\
  _tree r !! (p // "freq" // "value")
    = Some (property_tree.Node property_tree.t_double
              (Some (property_tree.v_double MAGNESIUM_CENTER_FREQ))
              (Some (coerce_frequency 0 dir))
              (Some (publish_frequency 0 dir)) []) /\
  _tree r !! (p // "gains" // "null" // "value")
    = Some (property_tree.Node property_tree.t_double
              (Some (property_tree.v_double MAGNESIUM_DEFAULT_GAIN))
              (Some (coerce_gain 0 dir)) (Some (publish_gain 0 dir)) []).
Proof.
  intros (_ & _ & _ & _ & _ & _ & _ & _ & Hnodes & _) Hdir. cbv zeta.
  unfold holds_nodes in Hnodes.
  destruct Hdir as [-> | ->].
  - exact (conj (Forall_lookup_1 _ _ 2%nat _ Hnodes eq_refl)
             (conj (Forall_lookup_1 _ _ 4%nat _ Hnodes eq_refl)
                (Forall_lookup_1 _ _ 6%nat _ Hnodes eq_refl))).
  - exact (conj (Forall_lookup_1 _ _ 12%nat _ Hnodes eq_refl)
             (conj (Forall_lookup_1 _ _ 14%nat _ Hnodes eq_refl)
                (Forall_lookup_1 _ _ 16%nat _ Hnodes eq_refl))).
Qed.

(** Attaching a client to a block the constructor built. *)
Lemma attach_built e (f : fw) slot r1 rpcc args :
  block_built e f slot r1 ->
  exists r2,
    set_rpc_client rpcc args r1 = (Ok tt, r2) /\
    _rpcc r2 = rpcc /\ _block_args r2 = args /\
    _radio_slot r2 = slot /\ _rpc_prefix r2 = _rpc_prefix r1 /\
    rpc_trace r2 = [] /\ firmware r2 = f /\
    holds_nodes (_tree r2) (frontend_nodes slot) /\
    _tree r2 !! (root_path e // "eeprom")
      = Some (property_tree.Node property_tree.t_eeprom
                (Some (property_tree.v_eeprom [])) None
                (Some (publish_eeprom (block_count e)))
                [subscribe_eeprom (block_count e)]).
Proof.
  intros (Hletter & He & Hslot & Hpre & Hc & Hargs & Htr & Hfw & Hnodes
          & Heeprom).
  rewrite <- He in Heeprom |- *.
  eexists. split.
  { apply (set_rpc_client_run r1 rpcc args _ Heeprom). reflexivity. }
  cbn [_rpcc _block_args _radio_slot _rpc_prefix rpc_trace firmware _tree
       with_tree with_rpcc].
  do 2 (split; [reflexivity |]). do 2 (split; [assumption || reflexivity |]).
  do 2 (split; [assumption |]). split.
  - apply (holds_nodes_kept (_tree r1)); [exact Hnodes |].
    pose proof (frontend_paths_apart slot (slot_letter_in _ _ Hletter))
      as Hapart.
    rewrite Forall_forall in Hapart |- *.
    intros qn Hqn. destruct (Hapart qn Hqn) as [Hsuf _].
    unfold property_tree.set_publisher, property_tree.add_coerced_subscriber.
    rewrite !lookup_alter_ne by (apply eeprom_path_ne, Hsuf). reflexivity.
  - unfold property_tree.set_publisher, property_tree.add_coerced_subscriber.
    rewrite !lookup_alter_eq, Heeprom. reflexivity.
Qed.

(** X15: on a fresh object of a block with count below 4 and one port each
    way, the constructor succeeds and leaves the block as [block_built]
    says: slot letter and prefix from the count, no client, nothing sent,
    all twenty frontend nodes of channel 0 with their values and hooks, and
    the EEPROM node holding the empty map. *)
Theorem constructor_builds_block (e : block_env) (f : fw) :
  block_count e < 4 -> num_output_ports e = 1 -> num_input_ports e = 1 ->
  exists r' slot,
    magnesium_radio_ctrl_impl (fresh e f) = (Ok tt, r') /\
    block_built e f slot r'.
Proof. exact (constructor_result e f). Qed.

(** X16: on the object the constructor leaves, [_get_fe_path 0 dir] is, for
    RX and for TX, the directory under which the constructor created the
    antenna, frequency and gain nodes of that direction, each with the
    hooks of that direction; for any other direction it throws. *)
Theorem fe_path_reaches_frontend (e : block_env) (f : fw) dir :
  block_count e < 4 -> num_output_ports e = 1 -> num_input_ports e = 1 ->
  dir = RX_DIRECTION \/ dir = TX_DIRECTION ->
  exists r' p,
    magnesium_radio_ctrl_impl (fresh e f) = (Ok tt, r') /\
    _get_fe_path 0 dir r' = (Ok p, r') /\
    property_tree.n_subscribers <$> _tree r' !! (p // "antenna" // "value")
      = Some [subscribe_antenna 0 dir] /\
    property_tree.n_publisher <$> _tree r' !! (p // "antenna" // "value")
      = Some (Some (publish_antenna 0 dir)) /\
    property_tree.n_coercer <$> _tree r' !! (p // "freq" // "value")
      = Some (Some (coerce_frequency 0 dir)) /\
    property_tree.n_publisher <$> _tree r' !! (p // "freq" // "value")
      = Some (Some (publish_frequency 0 dir)) /\
    property_tree.n_coercer <$> _tree r' !! (p // "gains" // "null" // "value")
      = Some (Some (coerce_gain 0 dir)) /\
    property_tree.n_publisher
      <$> _tree r' !! (p // "gains" // "null" // "value")
      = Some (Some (publish_gain 0 dir)) /\
    forall chan,
      _get_fe_path chan DX_DIRECTION r'
        = (Throw (assertion_error "invalid code path"), r').
Proof.
  intros Hcount Hout Hin Hdir.
  destruct (constructor_result e f Hcount Hout Hin) as (r' & slot & Hrun & Hb).
  destruct (built_hook_nodes e f slot r' dir Hb Hdir) as (Hant & Hfreq & Hgain).
  destruct Hb as (_ & _ & Hslot & _).
  exists r', ("dboards" // slot // frontends_of dir // "0").
  split; [exact Hrun |]. split.
  { destruct Hdir as [-> | ->]; unfold _get_fe_path, bind, gets, ret;
      cbn [fst snd]; rewrite Hslot; reflexivity. }
  rewrite Hant, Hfreq, Hgain. repeat split.
Qed.

(** X17: constructing a block and then attaching a client always works, and
    leaves an object with that client, nothing sent yet, the frontend nodes
    as the constructor made them, and the EEPROM node holding the empty map
    with the [get_db_eeprom] publisher and the [set_db_eeprom] subscriber
    of this block's index. *)
Theorem construct_then_attach (e : block_env) (f : fw) rpcc args :
  block_count e < 4 -> num_output_ports e = 1 -> num_input_ports e = 1 ->
  exists r1 r2 slot,
    magnesium_radio_ctrl_impl (fresh e f) = (Ok tt, r1) /\
    set_rpc_client rpcc args r1 = (Ok tt, r2) /\
    _rpcc r2 = rpcc /\ _block_args r2 = args /\
    rpc_trace r2 = [] /\ firmware r2 = f /\
    holds_nodes (_tree r2) (frontend_nodes slot) /\
    _tree r2 !! (root_path e // "eeprom")
      = Some (property_tree.Node property_tree.t_eeprom
                (Some (property_tree.v_eeprom [])) None
                (Some (publish_eeprom (block_count e)))
                [subscribe_eeprom (block_count e)]).
Proof.
  intros Hcount Hout Hin.
  destruct (constructor_result e f Hcount Hout Hin) as (r1 & slot & Hrun & Hb).
  destruct (attach_built e f slot r1 rpcc args Hb)
    as (r2 & Hatt & Hc & Hargs & _ & _ & Htr & Hfw & Hnodes & Heeprom).
  exists r1, r2, slot. repeat (split; [assumption |]). assumption.
Qed.

(** X18: from construction to the first tune.  On a block that was
    constructed and given a client, a write of [freq] to the frequency
    node under [_get_fe_path 0 dir] sends exactly one call, the block's
    prefix followed by [set_freq], with the [which] string of channel 1 of
    that direction, [freq] and [false]; the node then holds the frequency
    in the reply, and an error reply fails the write and leaves the tree
    as it was.  The same write before a client is attached fails with
    [null_rpc_client] and sends nothing. *)
Theorem tune_through_tree (e : block_env) (f : fw) c args dir freq :
  block_count e < 4 -> num_output_ports e = 1 -> num_input_ports e = 1 ->
  dir = RX_DIRECTION \/ dir = TX_DIRECTION ->
  exists r1 r2 p,
    magnesium_radio_ctrl_impl (fresh e f) = (Ok tt, r1) /\
    set_rpc_client (Some c) args r1 = (Ok tt, r2) /\
    _get_fe_path 0 dir r2 = (Ok p, r2) /\
    let node := p // "freq" // "value" in
    let call :=
      RpcCall (token c)
        ((if block_count e mod 2 =? 0 then "db_0_" else "db_1_")
           +:+ "set_freq")
        [arg_str (match dir with RX_DIRECTION => "RX1" | _ => "TX1" end);
         arg_double freq; arg_bool false] in
    let early := tree_set node (property_tree.v_double freq) r1 in
    let res := tree_set node (property_tree.v_double freq) r2 in
    fst early = Throw null_rpc_client /\ rpc_trace (snd early) = [] /\
    rpc_trace (snd res) = [call] /\
    (forall coerced,
        fst (fw_serve f call) = inr (val_double coerced) ->
        fst res = Ok tt /\
        property_tree.n_value <$> _tree (snd res) !! node
          = Some (Some (property_tree.v_double coerced))) /\
    (forall what,
        fst (fw_serve f call) = inl what ->
        fst res = Throw (rpc_failure what) /\ _tree (snd res) = _tree r2).
Proof.
  intros Hcount Hout Hin Hdir.
  destruct (constructor_result e f Hcount Hout Hin) as (r1 & slot & Hrun & Hb).
  destruct (attach_built e f slot r1 (Some c) args Hb)
    as (r2 & Hatt & Hc & _ & Hslot & Hpre & Htr & Hfw & Hnodes & _).
  assert (Hb2 : block_built e f slot r1) by exact Hb.
  destruct Hb2 as (_ & _ & _ & Hpre1 & Hc1 & _ & Htr1 & _ & Hnodes1 & _).
  set (p := "dboards" // slot // frontends_of dir // "0").
  set (n := property_tree.Node property_tree.t_double
              (Some (property_tree.v_double MAGNESIUM_CENTER_FREQ))
              (Some (coerce_frequency 0 dir))
              (Some (publish_frequency 0 dir)) []).
  assert (Hn1 : _tree r1 !! (p // "freq" // "value") = Some n).
  { exact (proj1 (proj2 (built_hook_nodes e f slot r1 dir Hb Hdir))). }
  assert (Hn2 : _tree r2 !! (p // "freq" // "value") = Some n).
  { unfold holds_nodes in Hnodes. subst p n.
    destruct Hdir as [-> | ->].
    - exact (Forall_lookup_1 _ _ 4%nat _ Hnodes eq_refl).
    - exact (Forall_lookup_1 _ _ 14%nat _ Hnodes eq_refl). }
  assert (W : _get_which dir 0
              = Ok (match dir with RX_DIRECTION => "RX1" | _ => "TX1" end)).
  { destruct Hdir as [-> | ->]; reflexivity. }
  exists r1, r2, p.
  split; [exact Hrun |]. split; [exact Hatt |]. split.
  { destruct Hdir as [-> | ->]; unfold _get_fe_path, bind, gets, ret;
      cbn [fst snd]; rewrite Hslot; reflexivity. }
  cbv zeta. split; [| split].
  - unfold tree_set, bind.
    change (property_tree.type_of (property_tree.v_double freq))
      with (property_tree.n_type n).
    rewrite (tree_access_found _ _ _ Hn1).
    cbn [property_tree.n_coercer n].
    unfold run_coercer, bind, _myk_set_frequency, bind, lift, gets, UHD_LOG,
      modify, ret, request_with_token.
    rewrite W. cbn [fst snd _rpcc with_log]. rewrite Hc1. reflexivity.
  - unfold tree_set, bind.
    change (property_tree.type_of (property_tree.v_double freq))
      with (property_tree.n_type n).
    rewrite (tree_access_found _ _ _ Hn1).
    cbn [property_tree.n_coercer n].
    unfold run_coercer, bind, _myk_set_frequency, bind, lift, gets, UHD_LOG,
      modify, ret, request_with_token.
    rewrite W. cbn [fst snd _rpcc with_log]. rewrite Hc1.
    cbn [fst snd rpc_trace with_log]. exact Htr1.
  - destruct (write_frequency_node_run r2 c (p // "freq" // "value") n freq
                0 dir _ Hc W Hn2 eq_refl eq_refl eq_refl)
      as (Htrace & _ & _ & _ & Hok & Herr).
    cbv zeta in Htrace, Hok, Herr.
    rewrite Hpre, Hpre1, Hfw in *. rewrite Htr in Htrace.
    split; [exact Htrace |]. split.
    + intros coerced Hreply. destruct (Hok coerced Hreply) as (Hres & Hst & _).
      split; [exact Hres |]. rewrite Hst. reflexivity.
    + exact Herr.
Qed.

(** What a write through a frequency node leaves of the node. *)
Lemma write_frequency_node_keeps r c path n freq chan dir which :
  _rpcc r = Some c -> _get_which dir chan = Ok which ->
  _tree r !! path = Some n ->
  property_tree.n_type n = property_tree.t_double ->
  property_tree.n_coercer n = Some (coerce_frequency chan dir) ->
  property_tree.n_subscribers n = [] ->
  let r3 := snd (tree_set path (property_tree.v_double freq) r) in
  _rpcc r3 = Some c /\ _rpc_prefix r3 = _rpc_prefix r /\
  exists n',
    _tree r3 !! path = Some n' /\
    property_tree.n_type n' = property_tree.t_double /\
    property_tree.n_publisher n' = property_tree.n_publisher n.
Proof.
  intros Hc W Hn Hty Hco Hsub. cbv zeta.
  destruct (set_frequency_run r c freq chan dir which Hc W)
    as (_ & _ & _ & Hobj).
  destruct Hobj as (_ & _ & _ & Hpre & Hcl & _ & Htree).
  rewrite Hc in Hcl.
  unfold tree_set, bind.
  change (property_tree.type_of (property_tree.v_double freq))
    with property_tree.t_double.
  rewrite <- Hty, (tree_access_found _ _ _ Hn), Hco, Hsub.
  unfold run_coercer, bind.
  destruct (_myk_set_frequency freq chan dir r) as [[d | err] r1].
  - unfold ret, modify, notify_subscribers, ret.
    cbn [fst snd _rpcc _rpc_prefix _tree with_tree] in *.
    split; [exact Hcl |]. split; [exact Hpre |].
    exists (property_tree.with_value (property_tree.v_double d) n).
    split; [| split; reflexivity].
    unfold property_tree.store. rewrite Htree, lookup_alter_eq, Hn.
    reflexivity.
  - cbn [fst snd] in *.
    split; [exact Hcl |]. split; [exact Hpre |].
    exists n. rewrite Htree. split; [exact Hn |]. split; reflexivity.
Qed.

(** Attaching the client touches the EEPROM node only. *)
Lemma attach_keeps_nodes e (f : fw) slot r1 rpcc args r2 :
  block_built e f slot r1 ->
  set_rpc_client rpcc args r1 = (Ok tt, r2) ->
  forall q, has_suffix "/eeprom" q = false -> _tree r2 !! q = _tree r1 !! q.
Proof.
  intros (_ & He & _ & _ & _ & _ & _ & _ & _ & Heeprom) Hatt q Hq.
  rewrite <- He in Heeprom.
  rewrite (set_rpc_client_run r1 rpcc args _ Heeprom eq_refl) in Hatt.
  injection Hatt as <-. cbn [_tree with_tree].
  unfold property_tree.set_publisher, property_tree.add_coerced_subscriber.
  rewrite !lookup_alter_ne by (apply eeprom_path_ne, Hq). reflexivity.
Qed.

Lemma channel_1_path_apart slot dir :
  slot ∈ ["A"; "B"; "C"; "D"] ->
  dir = RX_DIRECTION \/ dir = TX_DIRECTION ->
  has_suffix "/eeprom"
    ("dboards" // slot // frontends_of dir // "1" // "freq" // "value")
    = false.
Proof. intros Hin [-> | ->]; slot_letter Hin; reflexivity. Qed.

(** C1, as the code has it: on a block that was constructed and given a
    client, for RX and for TX.  The constructor registers the frequency
    publisher on the node of channel 0 only.  A read of that node issues
    one fresh [<prefix>get_freq] call for channel 0 of the direction and
    returns its reply, never the stored value (2.5 GHz after construction,
    or what an earlier write stored).  There is no frequency node for
    channel 1: a property read of it raises the lookup error of the tree
    and sends nothing.  The getter [_myk_get_frequency] serves channel 0
    and channel 1 alike, each with one fresh call, and after a frequency
    write on channel 0 the getter for channel 1 of the same direction is
    answered by the firmware in the state that write left. *)
Theorem frequency_read_is_live (e : block_env) (f : fw) c args dir :
  block_count e < 4 -> num_output_ports e = 1 -> num_input_ports e = 1 ->
  dir = RX_DIRECTION \/ dir = TX_DIRECTION ->
  exists r1 r2 slot,
    magnesium_radio_ctrl_impl (fresh e f) = (Ok tt, r1) /\
    set_rpc_client (Some c) args r1 = (Ok tt, r2) /\
    ["A"; "B"; "C"; "D"] !! N.to_nat (block_count e) = Some slot /\
    let prefix := if block_count e mod 2 =? 0 then "db_0_" else "db_1_" in
    let ident chan := (match dir with RX_DIRECTION => "RX" | _ => "TX" end)
                        +:+ to_string (chan + 1) in
    let get_call chan :=
      RpcCall (token c) (prefix +:+ "get_freq") [arg_str (ident chan)] in
    let fe_path chan :=
      "dboards" // slot // frontends_of dir // to_string chan in
    let node chan := fe_path chan // "freq" // "value" in
    (forall chan, _get_fe_path chan dir r2 = (Ok (fe_path chan), r2)) /\
    property_tree.n_value <$> _tree r2 !! node 0
      = Some (Some (property_tree.v_double MAGNESIUM_CENTER_FREQ)) /\
    round_trip (get_call 0) value_of_reply r2
      (tree_get (node 0) property_tree.t_double r2) /\
    (forall freq,
        let r3 := snd (tree_set (node 0) (property_tree.v_double freq) r2) in
        round_trip (get_call 0) value_of_reply r3
          (tree_get (node 0) property_tree.t_double r3)) /\
    tree_get (node 1) property_tree.t_double r2
      = (Throw (lookup_error (node 1)), r2) /\
    (forall chan, chan = 0 \/ chan = 1 ->
        round_trip (get_call chan) double_of_reply r2
          (_myk_get_frequency chan dir r2)) /\
    (forall freq,
        let set_call :=
          RpcCall (token c) (prefix +:+ "set_freq")
            [arg_str (ident 0); arg_double freq; arg_bool false] in
        let r3 := snd (_myk_set_frequency freq 0 dir r2) in
        firmware r3 = snd (fw_serve f set_call) /\
        fst (_myk_get_frequency 1 dir r3)
          = double_of_reply (fst (fw_serve (firmware r3) (get_call 1))) /\
        rpc_trace (snd (_myk_get_frequency 1 dir r3))
          = [set_call; get_call 1]).
Proof.
  intros Hcount Hout Hin Hdir.
  destruct (constructor_result e f Hcount Hout Hin) as (r1 & slot & Hrun & Hb).
  destruct (constructor_run e f Hcount Hout Hin) as (r1' & slot' & Hrun' & Hfa).
  rewrite Hrun in Hrun'. injection Hrun' as <-.
  destruct (attach_built e f slot r1 (Some c) args Hb)
    as (r2 & Hatt & Hc & _ & Hslot & Hpre & Htr & Hfw & Hnodes & _).
  pose proof (attach_keeps_nodes e f slot r1 (Some c) args r2 Hb Hatt)
    as Hkept.
  assert (Hb' : block_built e f slot r1) by exact Hb.
  destruct Hb' as (Hletter & _ & Hslot1 & Hpre1 & _).
  rewrite Hpre1 in Hpre.
  destruct Hfa as (Hslot' & _ & _ & _ & _ & _ & _ & Hfreq).
  rewrite Hslot1 in Hslot'. subst slot'.
  cbv zeta in Hfreq. destruct Hfreq as (_ & _ & Hrx1 & Htx1).
  set (n := property_tree.Node property_tree.t_double
              (Some (property_tree.v_double MAGNESIUM_CENTER_FREQ))
              (Some (coerce_frequency 0 dir))
              (Some (publish_frequency 0 dir)) []).
  assert (Hn : _tree r2 !! ("dboards" // slot // frontends_of dir // "0"
                              // "freq" // "value") = Some n).
  { unfold holds_nodes in Hnodes. subst n.
    destruct Hdir as [-> | ->].
    - exact (Forall_lookup_1 _ _ 4%nat _ Hnodes eq_refl).
    - exact (Forall_lookup_1 _ _ 14%nat _ Hnodes eq_refl). }
  assert (Hn1 : _tree r2 !! ("dboards" // slot // frontends_of dir // "1"
                               // "freq" // "value") = None).
  { rewrite Hkept
      by (apply channel_1_path_apart;
          [exact (slot_letter_in _ _ Hletter) | exact Hdir]).
    destruct Hdir as [-> | ->]; assumption. }
  assert (W : forall chan, chan = 0 \/ chan = 1 ->
            _get_which dir chan
              = Ok ((match dir with RX_DIRECTION => "RX" | _ => "TX" end)
                      +:+ to_string (chan + 1))).
  { intros chan Hchan. apply get_which_of_valid. split; assumption. }
  exists r1, r2, slot.
  split; [exact Hrun |]. split; [exact Hatt |]. split; [exact Hletter |].
  cbv beta zeta.
  change (to_string 0) with "0". change (to_string 1) with "1".
  rewrite <- Hpre.
  split.
  { intros chan.
    destruct Hdir as [-> | ->]; unfold _get_fe_path, bind, gets, ret;
      cbn [fst snd]; rewrite Hslot; reflexivity. }
  split; [rewrite Hn; reflexivity |].
  split.
  { exact (frequency_node_read_run r2 c _ n 0 dir _ Hc
             (W 0 (or_introl eq_refl)) Hn eq_refl eq_refl). }
  split.
  { intros freq. cbv beta zeta.
    destruct (write_frequency_node_keeps r2 c _ n freq 0 dir _ Hc
                (W 0 (or_introl eq_refl)) Hn eq_refl eq_refl eq_refl)
      as (Hc3 & Hpre3 & n' & Hn' & Hty' & Hpub').
    rewrite <- Hpre3.
    exact (frequency_node_read_run _ c _ n' 0 dir _ Hc3
             (W 0 (or_introl eq_refl)) Hn' Hty' Hpub'). }
  split.
  { unfold tree_get, bind, tree_access, bind, gets, lift,
      property_tree.access.
    rewrite Hn1. reflexivity. }
  split.
  { intros chan Hchan.
    exact (get_frequency_run r2 c chan dir _ Hc (W chan Hchan)). }
  intros freq. cbv beta zeta.
  destruct (set_frequency_run r2 c freq 0 dir _ Hc (W 0 (or_introl eq_refl)))
    as (_ & Hfw3 & Htr3 & Hobj).
  destruct Hobj as (_ & _ & _ & Hpre3 & Hcl & _).
  rewrite Hc in Hcl.
  destruct (get_frequency_run _ c 1 dir _ Hcl (W 1 (or_intror eq_refl)))
    as (Hres' & _ & Htr' & _).
  rewrite Hpre3 in Hres', Htr'. rewrite Hfw in Hfw3.
  split; [exact Hfw3 |]. split; [exact Hres' |].
  rewrite Htr', Htr3, Htr. reflexivity.
Qed.

End BringUpProperties.

(** ** The public calls *)
Section ApiProperties.

Context {fw : Type} `{Firmware fw}.

Implicit Types (r R : @radio fw) (c : rpc_client).

(** X19: each of the eight public frequency and gain calls, on channel 0 or
    1 with a client attached, sends exactly one call, named by the block's
    prefix and the operation, whose identifier is the direction in the
    name of the public call followed by the channel plus one: the TX calls
    never address an RX frontend, nor the RX calls a TX one. *)
Theorem api_calls_name_their_direction r c chan :
  _rpcc r = Some c -> chan = 0 \/ chan = 1 ->
  let ident (d : string) := arg_str (d +:+ to_string (chan + 1)) in
  let sends {A} (res : outcome A * radio) (name : string)
        (args : list rpc_arg) :=
    rpc_trace (snd res)
      = (rpc_trace r
           ++ [RpcCall (token c) (_rpc_prefix r +:+ name) args])%list in
  (forall freq, sends (set_tx_frequency freq chan r) "set_freq"
                  [ident "TX"; arg_double freq; arg_bool false]) /\
  (forall freq, sends (set_rx_frequency freq chan r) "set_freq"
                  [ident "RX"; arg_double freq; arg_bool false]) /\
  sends (get_tx_frequency chan r) "get_freq" [ident "TX"] /\
  sends (get_rx_frequency chan r) "get_freq" [ident "RX"] /\
  (forall gain, sends (set_tx_gain gain chan r) "set_gain"
                  [ident "TX"; arg_double gain]) /\
  (forall gain, sends (set_rx_gain gain chan r) "set_gain"
                  [ident "RX"; arg_double gain]) /\
  sends (get_tx_gain chan r) "get_gain" [ident "TX"] /\
  sends (get_rx_gain chan r) "get_gain" [ident "RX"].
Proof.
  intros Hc Hchan. cbv zeta.
  unfold set_tx_frequency, set_rx_frequency, get_tx_frequency,
    get_rx_frequency, set_tx_gain, set_rx_gain, get_tx_gain, get_rx_gain.
  destruct Hchan as [-> | ->].
  all: repeat split; intros.
  all: match goal with
       | |- rpc_trace (snd (_myk_set_frequency ?x ?ch ?d ?R))
            = (_ ++ [RpcCall _ _ (arg_str ?w :: _)])%list =>
         exact (proj1 (proj2 (proj2
                  (set_frequency_run R c x ch d w Hc eq_refl))))
       | |- rpc_trace (snd (_myk_get_frequency ?ch ?d ?R))
            = (_ ++ [RpcCall _ _ (arg_str ?w :: _)])%list =>
         exact (proj1 (proj2 (proj2
                  (get_frequency_run R c ch d w Hc eq_refl))))
       | |- rpc_trace (snd (_myk_set_gain ?x ?ch ?d ?R))
            = (_ ++ [RpcCall _ _ (arg_str ?w :: _)])%list =>
         exact (proj1 (proj2 (proj2 (set_gain_run R c x ch d w Hc eq_refl))))
       | |- rpc_trace (snd (_myk_get_gain ?ch ?d ?R))
            = (_ ++ [RpcCall _ _ (arg_str ?w :: _)])%list =>
         exact (proj1 (proj2 (proj2 (get_gain_run R c ch d w Hc eq_refl))))
       end.
Qed.

End ApiProperties.

(** ** The codec and tick-rate nodes *)
Section TailProperties.

Context {fw : Type} `{Firmware fw}.

Implicit Types (r R : @radio fw) (c : rpc_client).

Lemma codec_path_not_tick_rate (codecs slot leaf : string) :
  codecs = "rx_codecs" \/ codecs = "tx_codecs" ->
  codecs // slot // leaf <> "tick_rate".
Proof. intros [-> | ->]; discriminate. Qed.

Lemma read_empty_node r path ty :
  _tree r !! path = Some (property_tree.Node ty None None None []) ->
  fst (tree_get path ty r) = Throw (empty_property path).
Proof.
  intros Hn. unfold tree_get, bind.
  pose proof (tree_access_found r path _ Hn) as Hacc.
  cbn [property_tree.n_type] in Hacc. rewrite Hacc. reflexivity.
Qed.

(** X20: the part of the constructor after the frontends, on a tree in which
    the EEPROM path and the four codec paths of the slot are still free
    (the tree is shared with the other blocks of the device).  It creates
    the two codec names, and the two codec gain nodes with no value, so
    that a read of them raises the error of an empty property; it creates
    the [tick_rate] node with 125 MHz only if there is none, and leaves an
    existing one as it is, whatever it holds. *)
Theorem constructor_tail_nodes r :
  let p := root_path (env r) // "eeprom" in
  let slot := _radio_slot r in
  let rx_gains := "rx_codecs" // slot // "gains" in
  let tx_gains := "tx_codecs" // slot // "gains" in
  let rx_name := "rx_codecs" // slot // "name" in
  let tx_name := "tx_codecs" // slot // "name" in
  let created := [p; rx_gains; tx_gains; rx_name; tx_name] in
  Forall (fun q => _tree r !! q = None) created -> NoDup created ->
  let res := add_eeprom_and_codecs r in
  let t' := _tree (snd res) in
  fst res = Ok tt /\
  t' !! rx_name = Some (plain_node (property_tree.v_string "AD9361 Dual ADC")) /\
  t' !! tx_name = Some (plain_node (property_tree.v_string "AD9361 Dual DAC")) /\
  fst (tree_get rx_gains property_tree.t_int (snd res))
    = Throw (empty_property rx_gains) /\
  fst (tree_get tx_gains property_tree.t_int (snd res))
    = Throw (empty_property tx_gains) /\
  (_tree r !! "tick_rate" = None ->
   t' !! "tick_rate"
     = Some (plain_node (property_tree.v_double MAGNESIUM_TICK_RATE))) /\
  (forall n, _tree r !! "tick_rate" = Some n -> t' !! "tick_rate" = Some n) /\
  rpc_trace (snd res) = rpc_trace r.
Proof.
  cbv zeta. intros Hnone Hnd.
  assert (Hp : root_path (env r) // "eeprom" <> "tick_rate")
    by (apply eeprom_path_ne; reflexivity).
  pose proof (codec_path_not_tick_rate "rx_codecs" (_radio_slot r) "gains"
                (or_introl eq_refl)) as Hrg'.
  pose proof (codec_path_not_tick_rate "tx_codecs" (_radio_slot r) "gains"
                (or_intror eq_refl)) as Htg'.
  pose proof (codec_path_not_tick_rate "rx_codecs" (_radio_slot r) "name"
                (or_introl eq_refl)) as Hrn'.
  pose proof (codec_path_not_tick_rate "tx_codecs" (_radio_slot r) "name"
                (or_intror eq_refl)) as Htn'.
  apply Forall_cons in Hnone as [Hpn Hnone].
  apply Forall_cons in Hnone as [Hrg Hnone].
  apply Forall_cons in Hnone as [Htg Hnone].
  apply Forall_cons in Hnone as [Hrn Hnone].
  apply Forall_cons in Hnone as [Htn _].
  repeat (apply NoDup_cons in Hnd as [? Hnd]).
  unfold add_eeprom_and_codecs, bind, gets.
  rewrite create_and_set_fresh by assumption.
  rewrite create_fresh by free_after_insert.
  rewrite create_fresh by free_after_insert.
  rewrite create_and_set_fresh by free_after_insert.
  rewrite create_and_set_fresh by free_after_insert.
  unfold tree_exists, gets. cbn [_tree with_tree].
  match goal with
  | |- context [bool_decide (is_Some (?T !! "tick_rate"))] =>
    set (t5 := T);
    assert (Htick : t5 !! "tick_rate" = _tree r !! "tick_rate")
      by (subst t5; rewrite !lookup_insert_ne by assumption; reflexivity);
    assert (Hrxn : t5 !! ("rx_codecs" // _radio_slot r // "name")
                   = Some (plain_node
                             (property_tree.v_string "AD9361 Dual ADC")))
      by (subst t5; rewrite lookup_insert_ne by set_solver;
          apply lookup_insert_eq);
    assert (Htxn : t5 !! ("tx_codecs" // _radio_slot r // "name")
                   = Some (plain_node
                             (property_tree.v_string "AD9361 Dual DAC")))
      by (subst t5; apply lookup_insert_eq);
    assert (Hrxg : t5 !! ("rx_codecs" // _radio_slot r // "gains")
                   = Some (property_tree.Node property_tree.t_int
                             None None None []))
      by (subst t5; do 3 (rewrite lookup_insert_ne by set_solver);
          apply lookup_insert_eq);
    assert (Htxg : t5 !! ("tx_codecs" // _radio_slot r // "gains")
                   = Some (property_tree.Node property_tree.t_int
                             None None None []))
      by (subst t5; do 2 (rewrite lookup_insert_ne by set_solver);
          apply lookup_insert_eq)
  end.
  clearbody t5.
  destruct (_tree r !! "tick_rate") as [n |] eqn:Ht.
  - rewrite bool_decide_eq_true_2 by (rewrite Htick; eexists; reflexivity).
    cbn [negb]. unfold ret. cbn [fst snd _tree with_tree rpc_trace].
    split; [reflexivity |]. split; [exact Hrxn |]. split; [exact Htxn |].
    split; [apply read_empty_node; exact Hrxg |].
    split; [apply read_empty_node; exact Htxg |].
    split; [intros E; discriminate E |].
    split; [intros n' [= <-]; exact Htick | reflexivity].
  - rewrite bool_decide_eq_false_2
      by (rewrite Htick; intros [n Hn]; discriminate Hn).
    cbn [negb].
    rewrite create_and_set_fresh by (cbn [_tree with_tree]; exact Htick).
    cbn [fst snd _tree with_tree rpc_trace].
    split; [reflexivity |].
    split; [rewrite lookup_insert_ne by (apply not_eq_sym; assumption);
            exact Hrxn |].
    split; [rewrite lookup_insert_ne by (apply not_eq_sym; assumption);
            exact Htxn |].
    split.
    { apply read_empty_node. cbn [_tree with_tree].
      rewrite lookup_insert_ne by (apply not_eq_sym; assumption).
      exact Hrxg. }
    split.
    { apply read_empty_node. cbn [_tree with_tree].
      rewrite lookup_insert_ne by (apply not_eq_sym; assumption).
      exact Htxg. }
    split; [intros _; apply lookup_insert_eq |].
    split; [intros n E; discriminate E | reflexivity].
Qed.

End TailProperties.

(** ** Instances of the further properties on the sample block *)

Lemma set_gain_issues_set_gain_witness :
  fst (_myk_set_gain 10 0 TX_DIRECTION (snd attached)) = Ok 10%float.
Proof.
  destruct (set_gain_issues_set_gain (snd attached) (RpcClient "token")
              10 0 TX_DIRECTION) as (which & W & _ & Hcoerced).
  - vm_compute. reflexivity.
  - unfold valid_frontend. auto.
  - vm_compute in W. injection W as <-.
    apply Hcoerced. vm_compute. reflexivity.
Defined.

Lemma get_gain_issues_get_gain_witness :
  fst (_myk_get_gain 1 RX_DIRECTION (snd attached)) = Ok 0%float.
Proof.
  destruct (get_gain_issues_get_gain (snd attached) (RpcClient "token")
              1 RX_DIRECTION) as (which & W & _ & Hgain).
  - vm_compute. reflexivity.
  - unfold valid_frontend. auto.
  - vm_compute in W. injection W as <-.
    apply Hgain. vm_compute. reflexivity.
Defined.

Lemma remote_failure_is_raised_witness :
  fst (_myk_get_gain 1 TX_DIRECTION (snd unreachable_attached))
    = Throw (rpc_failure "transport down").
Proof.
  assert (Hc : _rpcc (snd unreachable_attached) = Some (RpcClient "token"))
    by (vm_compute; reflexivity).
  assert (W : _get_which TX_DIRECTION 1 = Ok "TX2") by reflexivity.
  exact (proj1 (proj2 (proj2 (proj2
           (remote_failure_is_raised (snd unreachable_attached)
              (RpcClient "token") 1 TX_DIRECTION "TX2" "transport down"
              Hc W))) eq_refl)).
Defined.

Lemma api_calls_name_their_direction_witness :
  rpc_trace (snd (get_tx_gain 1 (snd attached)))
    = [RpcCall "token" "db_0_get_gain" [arg_str "TX2"]].
Proof.
  assert (Hc : _rpcc (snd attached) = Some (RpcClient "token"))
    by (vm_compute; reflexivity).
  pose proof (proj1 (proj2 (proj2 (proj2 (proj2 (proj2 (proj2
                (api_calls_name_their_direction (snd attached)
                   (RpcClient "token") 1 Hc (or_intror eq_refl)))))))))
    as Hsent.
  cbv zeta in Hsent. rewrite Hsent. vm_compute. reflexivity.
Defined.

Lemma set_rpc_client_attaches_witness :
  fst attached = Ok tt /\ _rpcc (snd attached) = Some (RpcClient "token").
Proof.
  assert (Hn : _tree (snd constructed) !! (root_path (env (snd constructed))
                                             // "eeprom")
               = Some (plain_node (property_tree.v_eeprom [])))
    by (vm_compute; reflexivity).
  destruct (set_rpc_client_attaches (snd constructed)
              (Some (RpcClient "token")) [] _ Hn eq_refl)
    as (Hok & Hc & _).
  split; [exact Hok | exact Hc].
Defined.

Lemma set_rpc_client_without_eeprom_node_witness :
  fst (set_rpc_client (Some (RpcClient "token")) []
         (fresh sample_env lo_initial))
    = Throw (lookup_error "xbar/Radio_0/eeprom").
Proof.
  assert (Hn : _tree (fresh sample_env lo_initial)
                 !! (root_path (env (fresh sample_env lo_initial))
                       // "eeprom") = None)
    by (vm_compute; reflexivity).
  exact (proj1 (set_rpc_client_without_eeprom_node
                  (fresh sample_env lo_initial)
                  (Some (RpcClient "token")) [] Hn)).
Defined.

Lemma eeprom_read_is_remote_witness :
  rpc_trace (snd (tree_get "xbar/Radio_0/eeprom" property_tree.t_eeprom
                    (snd attached)))
    = [RpcCall "token" "get_db_eeprom" [arg_size 0]].
Proof.
  assert (Hc : _rpcc (snd attached) = Some (RpcClient "token"))
    by (vm_compute; reflexivity).
  assert (Hn : _tree (snd attached) !! "xbar/Radio_0/eeprom"
               = Some (property_tree.Node property_tree.t_eeprom
                         (Some (property_tree.v_eeprom [])) None
                         (Some (publish_eeprom 0)) [subscribe_eeprom 0]))
    by (vm_compute; reflexivity).
  pose proof (proj1 (eeprom_read_is_remote (snd attached)
                       (RpcClient "token") _ _ 0 Hc Hn eq_refl eq_refl))
    as Hsent.
  rewrite Hsent. vm_compute. reflexivity.
Defined.

Lemma eeprom_write_notifies_witness :
  fst (tree_set "xbar/Radio_0/eeprom"
         (property_tree.v_eeprom [("serial", [49; 50])]) (snd attached))
    = Ok tt /\
  fst (tree_set "xbar/Radio_0/eeprom"
         (property_tree.v_eeprom [("serial", [49; 50])])
         (snd unreachable_attached))
    = Throw (rpc_failure "transport down").
Proof.
  assert (Hc : _rpcc (snd attached) = Some (RpcClient "token"))
    by (vm_compute; reflexivity).
  assert (Hn : _tree (snd attached) !! "xbar/Radio_0/eeprom"
               = Some (property_tree.Node property_tree.t_eeprom
                         (Some (property_tree.v_eeprom [])) None
                         (Some (publish_eeprom 0)) [subscribe_eeprom 0]))
    by (vm_compute; reflexivity).
  assert (Hc' : _rpcc (snd unreachable_attached) = Some (RpcClient "token"))
    by (vm_compute; reflexivity).
  assert (Hn' : _tree (snd unreachable_attached) !! "xbar/Radio_0/eeprom"
                = Some (property_tree.Node property_tree.t_eeprom
                          (Some (property_tree.v_eeprom [])) None
                          (Some (publish_eeprom 0)) [subscribe_eeprom 0]))
    by (vm_compute; reflexivity).
  split.
  - exact (proj1 (proj2 (proj2 (proj2 (proj2
             (eeprom_write_notifies (snd attached) (RpcClient "token")
                _ _ 0 [("serial", [49; 50])] Hc Hn eq_refl eq_refl
                eq_refl))))) eq_refl).
  - exact (proj2 (proj2 (proj2 (proj2 (proj2
             (eeprom_write_notifies (snd unreachable_attached)
                (RpcClient "token") _ _ 0 [("serial", [49; 50])] Hc' Hn'
                eq_refl eq_refl eq_refl))))) "transport down" eq_refl).
Defined.

Lemma frequency_node_write_witness :
  fst (tree_set "dboards/A/tx_frontends/0/freq/value"
         (property_tree.v_double 2e9) (snd attached)) = Ok tt.
Proof.
  assert (Hc : _rpcc (snd attached) = Some (RpcClient "token"))
    by (vm_compute; reflexivity).
  assert (Hv : valid_frontend TX_DIRECTION 0)
    by (unfold valid_frontend; auto).
  assert (Hn : _tree (snd attached) !! "dboards/A/tx_frontends/0/freq/value"
               = Some (property_tree.Node property_tree.t_double
                         (Some (property_tree.v_double MAGNESIUM_CENTER_FREQ))
                         (Some (coerce_frequency 0 TX_DIRECTION))
                         (Some (publish_frequency 0 TX_DIRECTION)) []))
    by (vm_compute; reflexivity).
  destruct (frequency_node_write (snd attached) (RpcClient "token") _ _
              2e9 0 TX_DIRECTION Hc Hv Hn eq_refl eq_refl eq_refl)
    as (which & W & _ & Hok & _).
  vm_compute in W. injection W as <-.
  apply (Hok 2e9%float). vm_compute. reflexivity.
Defined.

Lemma antenna_node_write_read_witness :
  fst (tree_get "dboards/A/tx_frontends/0/antenna/value"
         property_tree.t_string
         (snd (tree_set "dboards/A/tx_frontends/0/antenna/value"
                 (property_tree.v_string "TX/RX") (snd constructed))))
    = Ok (property_tree.v_string "RX1").
Proof.
  assert (Hn : _tree (snd constructed)
                 !! "dboards/A/tx_frontends/0/antenna/value"
               = Some (property_tree.Node property_tree.t_string
                         (Some (property_tree.v_string "TX1")) None
                         (Some (publish_antenna 0 TX_DIRECTION))
                         [subscribe_antenna 0 TX_DIRECTION]))
    by (vm_compute; reflexivity).
  exact (proj2 (proj2 (proj2 (proj2
           (antenna_node_write_read (snd constructed) _ _ "TX/RX"
              0 TX_DIRECTION 0 TX_DIRECTION Hn eq_refl eq_refl eq_refl
              eq_refl))))).
Defined.

Lemma bandwidth_nodes_write_read_witness :
  fst (tree_get "dboards/A/rx_frontends/0/bandwidth/value"
         property_tree.t_double
         (snd (tree_set "dboards/A/rx_frontends/0/bandwidth/value"
                 (property_tree.v_double 20e6) (snd constructed))))
    = Ok (property_tree.v_double 40e6) /\
  fst (tree_get "dboards/A/tx_frontends/0/bandwidth/value"
         property_tree.t_double
         (snd (tree_set "dboards/A/tx_frontends/0/bandwidth/value"
                 (property_tree.v_double 20e6) (snd constructed))))
    = Ok (property_tree.v_double 20e6).
Proof.
  assert (Hrx : _tree (snd constructed)
                  !! "dboards/A/rx_frontends/0/bandwidth/value"
                = Some (property_tree.Node property_tree.t_double
                          (Some (property_tree.v_double
                                   MAGNESIUM_DEFAULT_BANDWIDTH))
                          (Some (coerce_rx_bandwidth 0))
                          (Some (publish_rx_bandwidth 0)) []))
    by (vm_compute; reflexivity).
  assert (Htx : _tree (snd constructed)
                  !! "dboards/A/tx_frontends/0/bandwidth/value"
                = Some (plain_node (property_tree.v_double
                                      MAGNESIUM_DEFAULT_BANDWIDTH)))
    by (vm_compute; reflexivity).
  split.
  - exact (proj1 (proj2 (proj2
             (proj1 (bandwidth_nodes_write_read (snd constructed) _ _ 20e6
                       Hrx eq_refl eq_refl) 0 0 eq_refl eq_refl)))).
  - exact (proj1 (proj2 (proj2
             (proj2 (bandwidth_nodes_write_read (snd constructed) _ _ 20e6
                       Htx eq_refl eq_refl) eq_refl eq_refl)))).
Defined.

Lemma constructor_builds_block_witness :
  exists r' slot,
    magnesium_radio_ctrl_impl (fresh sample_env_B lo_initial) = (Ok tt, r') /\
    block_built sample_env_B lo_initial slot r'.
Proof.
  apply (constructor_builds_block sample_env_B lo_initial); reflexivity.
Defined.

Lemma fe_path_reaches_frontend_witness :
  exists r' p,
    magnesium_radio_ctrl_impl (fresh sample_env lo_initial) = (Ok tt, r') /\
    _get_fe_path 0 TX_DIRECTION r' = (Ok p, r') /\
    property_tree.n_coercer <$> _tree r' !! (p // "freq" // "value")
      = Some (Some (coerce_frequency 0 TX_DIRECTION)).
Proof.
  destruct (fe_path_reaches_frontend sample_env lo_initial TX_DIRECTION
              eq_refl eq_refl eq_refl (or_intror eq_refl))
    as (r' & p & Hrun & Hpath & _ & _ & Hco & _).
  exists r', p. split; [exact Hrun |]. split; [exact Hpath | exact Hco].
Defined.

Lemma construct_then_attach_witness :
  exists r1 r2,
    magnesium_radio_ctrl_impl (fresh sample_env lo_initial) = (Ok tt, r1) /\
    set_rpc_client (Some (RpcClient "token")) [] r1 = (Ok tt, r2) /\
    _rpcc r2 = Some (RpcClient "token") /\ rpc_trace r2 = [].
Proof.
  destruct (construct_then_attach sample_env lo_initial
              (Some (RpcClient "token")) [] eq_refl eq_refl eq_refl)
    as (r1 & r2 & slot & Hrun & Hatt & Hc & _ & Htr & _).
  exists r1, r2. repeat (split; [assumption |]). assumption.
Defined.

Lemma tune_through_tree_witness :
  exists r1 r2 p,
    magnesium_radio_ctrl_impl (fresh sample_env_B lo_initial) = (Ok tt, r1) /\
    set_rpc_client (Some (RpcClient "token")) [] r1 = (Ok tt, r2) /\
    _get_fe_path 0 RX_DIRECTION r2 = (Ok p, r2) /\
    rpc_trace (snd (tree_set (p // "freq" // "value")
                      (property_tree.v_double 2e9) r2))
      = [RpcCall "token" "db_1_set_freq"
           [arg_str "RX1"; arg_double 2e9; arg_bool false]].
Proof.
  destruct (tune_through_tree sample_env_B lo_initial (RpcClient "token") []
              RX_DIRECTION 2e9 eq_refl eq_refl eq_refl (or_introl eq_refl))
    as (r1 & r2 & p & Hrun & Hatt & Hpath & _ & _ & Hsent & _).
  exists r1, r2, p. repeat (split; [assumption |]). exact Hsent.
Defined.

Lemma constructor_tail_nodes_witness :
  _tree (snd (add_eeprom_and_codecs second_block)) !! "tick_rate"
    = Some (plain_node (property_tree.v_double 100e6)).
Proof.
  assert (Htick : _tree second_block !! "tick_rate"
                  = Some (plain_node (property_tree.v_double 100e6)))
    by (vm_compute; reflexivity).
  refine (proj1 (proj2 (proj2 (proj2 (proj2 (proj2 (proj2
            (constructor_tail_nodes second_block _ _))))))) _ Htick);
    by_computation.
Defined.

Lemma frequency_read_is_live_witness :
  fst (tree_get "dboards/A/rx_frontends/0/freq/value" property_tree.t_double
         (snd attached))
    = Ok (property_tree.v_double 1e9) /\
  fst (tree_get "dboards/A/rx_frontends/1/freq/value" property_tree.t_double
         (snd attached))
    = Throw (lookup_error "dboards/A/rx_frontends/1/freq/value").
Proof.
  destruct (frequency_read_is_live sample_env lo_initial (RpcClient "token")
              [] RX_DIRECTION eq_refl eq_refl eq_refl (or_introl eq_refl))
    as (r1 & r2 & slot & Hrun & Hatt & Hletter & _ & _ & Hread & _
        & Habsent & _).
  assert (E1 : r1 = snd constructed)
    by (unfold constructed; rewrite Hrun; reflexivity).
  subst r1.
  assert (E2 : r2 = snd attached)
    by (unfold attached; rewrite Hatt; reflexivity).
  subst r2.
  injection Hletter as <-.
  split.
  - destruct Hread as (Hres & _).
    etransitivity; [exact Hres | vm_compute; reflexivity].
  - exact (f_equal fst Habsent).
Defined.

(** C1 does not hold as written for channel 1, a valid channel: the
    constructed block has no frequency node for it and no node at all that
    carries its frequency publisher, so a read of that property invokes no
    hook and sends no call, also right after a write on channel 0. *)
Lemma frequency_node_of_channel_1_is_absent :
  valid_frontend RX_DIRECTION 1 /\ valid_frontend TX_DIRECTION 1 /\
  fst attached = Ok tt /\
  (forall dir,
      map_Forall
        (fun _ n => property_tree.n_publisher n
                      <> Some (publish_frequency 1 dir))
        (_tree (snd attached))) /\
  (let res := tree_get "dboards/A/rx_frontends/1/freq/value"
                property_tree.t_double (snd attached) in
   fst res = Throw (lookup_error "dboards/A/rx_frontends/1/freq/value") /\
   rpc_trace (snd res) = []) /\
  (let res := tree_get "dboards/A/tx_frontends/1/freq/value"
                property_tree.t_double (snd attached) in
   fst res = Throw (lookup_error "dboards/A/tx_frontends/1/freq/value") /\
   rpc_trace (snd res) = []) /\
  (let r1 := snd (tree_set "dboards/A/rx_frontends/0/freq/value"
                    (property_tree.v_double 2e9) (snd attached)) in
   let res := tree_get "dboards/A/rx_frontends/1/freq/value"
                property_tree.t_double r1 in
   fst res = Throw (lookup_error "dboards/A/rx_frontends/1/freq/value") /\
   rpc_method <$> rpc_trace (snd res) = ["db_0_set_freq"]).
Proof.
  split; [unfold valid_frontend; auto |].
  split; [unfold valid_frontend; auto |].
  split; [vm_compute; reflexivity |].
  split.
  { intros dir. destruct dir; by_computation. }
  repeat split; vm_compute; reflexivity.
Qed.
